(** * Remote Educator Hub: the list-form controllers and their store

    A shallow embedding of the teacher dashboard: the sign-up form
    (AuthForm.tsx), the two resource managers (TurmasManager.tsx and
    AtividadesManager.tsx), the dashboard aggregator (Dashboard.tsx) and the
    relational schema they talk to (the SQL migration).

    Handlers are written in a small state-and-exception monad: component
    state set through the [useState] setters, the remote store, and the
    trace of observable effects (toasts, console output, requests) are
    threaded explicitly; a rejected promise is an exception. *)

From Stdlib Require Import String List Bool Arith Lia Permutation Sorted.
Import ListNotations.
Open Scope string_scope.
Open Scope list_scope.
Open Scope nat_scope.

Set Implicit Arguments.

(** ** JavaScript value helpers *)

Module JS.

(** [v || d] on a nullable string: [null] and the empty string are falsy. *)
Definition or_str (v : option string) (d : string) : string :=
  match v with
  | Some s => if String.eqb s "" then d else s
  | None => d
  end.

(** [s || null] on a string. *)
Definition or_null (s : string) : option string :=
  if String.eqb s "" then None else Some s.

(** [c || 0] on a nullable number. *)
Definition or_zero (c : option nat) : nat :=
  match c with
  | Some (S n) => S n
  | Some 0 => 0
  | None => 0
  end.

(** [data || []] on a nullable array. *)
Definition or_nil {A : Type} (d : option (list A)) : list A :=
  match d with
  | Some l => l
  | None => []
  end.

(** [xs.length === 0] *)
Definition is_empty {A : Type} (l : list A) : bool :=
  Nat.eqb (length l) 0.

End JS.

(** ** The relational schema *)

Definition uuid := string.

Definition mem (x : string) (l : list string) : bool :=
  existsb (String.eqb x) l.

(** Row of [public.turmas]. *)
Module Turma.
Record row := mk {
  id : uuid;
  teacher_id : uuid;
  name : string;
  description : option string;
  grade_level : option string;
  subject : option string;
  created_at : nat;
  updated_at : nat
}.
End Turma.

(** Row of [public.atividades]; [status] is a nullable TEXT column. *)
Module Atividade.
Record row := mk {
  id : uuid;
  turma_id : uuid;
  teacher_id : uuid;
  title : string;
  description : option string;
  due_date : option string;
  status : option string;
  created_at : nat;
  updated_at : nat
}.
End Atividade.

(** The object the class manager sends on insert and update ([turmaData]). *)
Module TurmaData.
Record t := mk {
  name : string;
  description : option string;
  grade_level : option string;
  subject : option string;
  teacher_id : uuid
}.
End TurmaData.

(** The object the assignment manager sends ([atividadeData]).  At the level
    of the store a column may be left out of an INSERT, in which case its
    DEFAULT applies: [status = None] is the column left out,
    [status = Some None] an explicit NULL. *)
Module AtividadeData.
Record t := mk {
  title : string;
  description : option string;
  due_date : option string;
  status : option (option string);
  turma_id : uuid;
  teacher_id : uuid
}.
End AtividadeData.

Module Store.

Inductive StoreError :=
| UniqueViolation
| ForeignKeyViolation
| CheckViolation
| PolicyViolation
| TransportError.

(** [users] stands for [auth.users]; [now] for the clock behind [now()];
    [uuid_src]/[uuid_ix] for the draws of [gen_random_uuid()]. *)
Record DB := mkDB {
  users : list uuid;
  turmas : list Turma.row;
  atividades : list Atividade.row;
  now : nat;
  uuid_src : nat -> uuid;
  uuid_ix : nat
}.

(** Row-level security: every policy is [auth.uid() = teacher_id]; with no
    session [auth.uid()] is NULL and the comparison is not true. *)
Definition policy (auth : option uuid) (owner : uuid) : bool :=
  match auth with
  | Some a => String.eqb a owner
  | None => false
  end.

(** [CHECK (status IN ('pending', 'in_progress', 'completed'))].  A CHECK
    rejects a row only when its expression is false: on a NULL status the
    expression is unknown and the row passes. *)
Definition status_values : list string :=
  ["pending"; "in_progress"; "completed"].

Definition check_status (s : option string) : bool :=
  match s with
  | Some v => mem v status_values
  | None => true
  end.

(** [DEFAULT 'pending'] *)
Definition status_default : option string := Some "pending".

Definition status_column (s : option (option string)) : option string :=
  match s with
  | Some v => v
  | None => status_default
  end.

(** *** Ordering: [.order('created_at', { ascending: false })] *)

Fixpoint insert_desc {A : Type} (key : A -> nat) (x : A) (l : list A) : list A :=
  match l with
  | [] => [x]
  | y :: l' => if key y <? key x then x :: l else y :: insert_desc key x l'
  end.

Definition order_desc {A : Type} (key : A -> nat) (l : list A) : list A :=
  fold_right (insert_desc key) [] l.

(** *** Reads *)

Definition visible_turma (auth : option uuid) (teacher : uuid) (r : Turma.row) : bool :=
  policy auth (Turma.teacher_id r) && String.eqb (Turma.teacher_id r) teacher.

Definition visible_atividade (auth : option uuid) (teacher : uuid) (r : Atividade.row) : bool :=
  policy auth (Atividade.teacher_id r) && String.eqb (Atividade.teacher_id r) teacher.

(** [from('turmas').select(..).eq('teacher_id', teacher)] *)
Definition select_turmas (auth : option uuid) (teacher : uuid) (db : DB) : list Turma.row :=
  filter (visible_turma auth teacher) (turmas db).

(** the same, most recent first *)
Definition select_turmas_ordered (auth : option uuid) (teacher : uuid) (db : DB)
  : list Turma.row :=
  order_desc Turma.created_at (select_turmas auth teacher db).

(** The embedded resource [turmas (name)]: the parent row, itself read
    under the caller's policy. *)
Definition joined_name (auth : option uuid) (db : DB) (a : Atividade.row) : option string :=
  match find (fun r => String.eqb (Turma.id r) (Atividade.turma_id a)
                       && policy auth (Turma.teacher_id r)) (turmas db) with
  | Some r => Some (Turma.name r)
  | None => None
  end.

Definition select_atividades (auth : option uuid) (teacher : uuid) (db : DB)
  : list (Atividade.row * option string) :=
  map (fun a => (a, joined_name auth db a))
      (order_desc Atividade.created_at
         (filter (visible_atividade auth teacher) (atividades db))).

(** [select('*', { count: 'exact', head: true })] *)
Definition count_turmas (auth : option uuid) (teacher : uuid) (db : DB) : nat :=
  length (select_turmas auth teacher db).

Definition count_atividades (auth : option uuid) (teacher : uuid) (db : DB) : nat :=
  length (filter (visible_atividade auth teacher) (atividades db)).

Definition is_pending (r : Atividade.row) : bool :=
  match Atividade.status r with
  | Some v => String.eqb v "pending"
  | None => false
  end.

Definition count_pending (auth : option uuid) (teacher : uuid) (db : DB) : nat :=
  length (filter (fun r => visible_atividade auth teacher r && is_pending r)
                 (atividades db)).

(** *** Writes.  A write returns the error, if any, and the store after it;
    a failed statement leaves the tables as they were. *)

Definition draw (db : DB) : DB :=
  mkDB (users db) (turmas db) (atividades db) (now db) (uuid_src db) (S (uuid_ix db)).

Definition next_uuid (db : DB) : uuid := uuid_src db (uuid_ix db).

Definition insert_turma (auth : option uuid) (d : TurmaData.t) (db : DB)
  : option StoreError * DB :=
  let new_id := next_uuid db in
  if negb (mem (TurmaData.teacher_id d) (users db)) then
    (Some ForeignKeyViolation, draw db)
  else if mem new_id (map Turma.id (turmas db)) then
    (Some UniqueViolation, draw db)
  else if negb (policy auth (TurmaData.teacher_id d)) then
    (Some PolicyViolation, draw db)
  else
    (None,
     mkDB (users db)
          (turmas db ++
             [Turma.mk new_id (TurmaData.teacher_id d) (TurmaData.name d)
                       (TurmaData.description d) (TurmaData.grade_level d)
                       (TurmaData.subject d) (now db) (now db)])
          (atividades db) (S (now db)) (uuid_src db) (S (uuid_ix db))).

Definition hit_turma (auth : option uuid) (id : uuid) (r : Turma.row) : bool :=
  String.eqb (Turma.id r) id && policy auth (Turma.teacher_id r).

Definition patch_turma (d : TurmaData.t) (t : nat) (r : Turma.row) : Turma.row :=
  Turma.mk (Turma.id r) (TurmaData.teacher_id d) (TurmaData.name d)
           (TurmaData.description d) (TurmaData.grade_level d)
           (TurmaData.subject d) (Turma.created_at r) t.

(** [update(d).eq('id', id)]; the BEFORE UPDATE trigger stamps
    [updated_at].  The UPDATE policy has no WITH CHECK of its own, so its
    USING expression also guards the new row. *)
Definition update_turma (auth : option uuid) (id : uuid) (d : TurmaData.t) (db : DB)
  : option StoreError * DB :=
  if existsb (hit_turma auth id) (turmas db) then
    if negb (mem (TurmaData.teacher_id d) (users db)) then
      (Some ForeignKeyViolation, db)
    else if negb (policy auth (TurmaData.teacher_id d)) then
      (Some PolicyViolation, db)
    else
      (None,
       mkDB (users db)
            (map (fun r => if hit_turma auth id r then patch_turma d (now db) r else r)
                 (turmas db))
            (atividades db) (S (now db)) (uuid_src db) (uuid_ix db))
  else (None, db).

(** [delete().eq('id', id)] on [turmas]; [ON DELETE CASCADE] removes the
    assignments that reference a deleted class, whoever owns them. *)
Definition delete_turma (auth : option uuid) (id : uuid) (db : DB)
  : option StoreError * DB :=
  let gone := filter (hit_turma auth id) (turmas db) in
  (None,
   mkDB (users db)
        (filter (fun r => negb (hit_turma auth id r)) (turmas db))
        (filter (fun a => negb (mem (Atividade.turma_id a) (map Turma.id gone)))
                (atividades db))
        (S (now db)) (uuid_src db) (uuid_ix db)).

Definition insert_atividade (auth : option uuid) (d : AtividadeData.t) (db : DB)
  : option StoreError * DB :=
  let new_id := next_uuid db in
  let st := status_column (AtividadeData.status d) in
  if negb (mem (AtividadeData.turma_id d) (map Turma.id (turmas db))) then
    (Some ForeignKeyViolation, draw db)
  else if negb (mem (AtividadeData.teacher_id d) (users db)) then
    (Some ForeignKeyViolation, draw db)
  else if negb (check_status st) then
    (Some CheckViolation, draw db)
  else if mem new_id (map Atividade.id (atividades db)) then
    (Some UniqueViolation, draw db)
  else if negb (policy auth (AtividadeData.teacher_id d)) then
    (Some PolicyViolation, draw db)
  else
    (None,
     mkDB (users db) (turmas db)
          (atividades db ++
             [Atividade.mk new_id (AtividadeData.turma_id d)
                           (AtividadeData.teacher_id d) (AtividadeData.title d)
                           (AtividadeData.description d) (AtividadeData.due_date d)
                           st (now db) (now db)])
          (S (now db)) (uuid_src db) (S (uuid_ix db))).

Definition hit_atividade (auth : option uuid) (id : uuid) (r : Atividade.row) : bool :=
  String.eqb (Atividade.id r) id && policy auth (Atividade.teacher_id r).

(** A column left out of an UPDATE keeps its value. *)
Definition patch_atividade (d : AtividadeData.t) (t : nat) (r : Atividade.row)
  : Atividade.row :=
  Atividade.mk (Atividade.id r) (AtividadeData.turma_id d)
               (AtividadeData.teacher_id d) (AtividadeData.title d)
               (AtividadeData.description d) (AtividadeData.due_date d)
               (match AtividadeData.status d with
                | Some v => v
                | None => Atividade.status r
                end)
               (Atividade.created_at r) t.

Definition update_atividade (auth : option uuid) (id : uuid) (d : AtividadeData.t)
           (db : DB) : option StoreError * DB :=
  if existsb (hit_atividade auth id) (atividades db) then
    if negb (mem (AtividadeData.turma_id d) (map Turma.id (turmas db))) then
      (Some ForeignKeyViolation, db)
    else if negb (mem (AtividadeData.teacher_id d) (users db)) then
      (Some ForeignKeyViolation, db)
    else if negb (forallb (fun r => negb (hit_atividade auth id r)
                                    || check_status
                                         (Atividade.status (patch_atividade d (now db) r)))
                          (atividades db)) then
      (Some CheckViolation, db)
    else if negb (policy auth (AtividadeData.teacher_id d)) then
      (Some PolicyViolation, db)
    else
      (None,
       mkDB (users db) (turmas db)
            (map (fun r => if hit_atividade auth id r
                           then patch_atividade d (now db) r else r)
                 (atividades db))
            (S (now db)) (uuid_src db) (uuid_ix db))
  else (None, db).

Definition delete_atividade (auth : option uuid) (id : uuid) (db : DB)
  : option StoreError * DB :=
  (None,
   mkDB (users db) (turmas db)
        (filter (fun r => negb (hit_atividade auth id r)) (atividades db))
        (S (now db)) (uuid_src db) (uuid_ix db)).

(** *** Any client's sequence of writes *)

Inductive Mutation :=
| InsertTurma (auth : option uuid) (d : TurmaData.t)
| UpdateTurma (auth : option uuid) (id : uuid) (d : TurmaData.t)
| DeleteTurma (auth : option uuid) (id : uuid)
| InsertAtividade (auth : option uuid) (d : AtividadeData.t)
| UpdateAtividade (auth : option uuid) (id : uuid) (d : AtividadeData.t)
| DeleteAtividade (auth : option uuid) (id : uuid).

Definition apply_mutation (m : Mutation) (db : DB) : option StoreError * DB :=
  match m with
  | InsertTurma auth d => insert_turma auth d db
  | UpdateTurma auth id d => update_turma auth id d db
  | DeleteTurma auth id => delete_turma auth id db
  | InsertAtividade auth d => insert_atividade auth d db
  | UpdateAtividade auth id d => update_atividade auth id d db
  | DeleteAtividade auth id => delete_atividade auth id db
  end.

Fixpoint run_mutations (ms : list Mutation) (db : DB) : DB :=
  match ms with
  | [] => db
  | m :: ms' => run_mutations ms' (snd (apply_mutation m db))
  end.

End Store.

(** ** The world outside the components *)

Module User.
Record t := mk { id : uuid; email : string }.
End User.

(** What a handler can be observed to do. *)
Inductive Request :=
| ReqSignIn (email password : string)
| ReqSignUp (email password fullName : string)
| ReqSelectTurmas (teacher : uuid)
| ReqSelectTurmaOptions (teacher : uuid)
| ReqSelectAtividades (teacher : uuid)
| ReqCountTurmas (teacher : uuid)
| ReqCountAtividades (teacher : uuid)
| ReqCountPending (teacher : uuid)
| ReqInsertTurma (d : TurmaData.t)
| ReqUpdateTurma (id : uuid) (d : TurmaData.t)
| ReqDeleteTurma (id : uuid)
| ReqInsertAtividade (d : AtividadeData.t)
| ReqUpdateAtividade (id : uuid) (d : AtividadeData.t)
| ReqDeleteAtividade (id : uuid).

Inductive Effect :=
| Toast (title description : string) (destructive : bool)
| ConsoleError (msg : string)
| Sent (r : Request).

(** How the next request fares before it reaches the tables: it goes
    through, it comes back as an error result, or its promise rejects. *)
Inductive Fault := NoFault | ErrorResult | Rejects.

(** The identity service is an outside collaborator: its answers are given. *)
Inductive AuthReply := AuthOk | AuthError (message : string) | AuthRejects.

Record World := mkWorld {
  db : Store.DB;
  faults : list Fault;
  auth_replies : list AuthReply
}.

(** The [{ data, error }] (or [{ count, error }]) pair of the store client. *)
Record Resp (A : Type) := mkResp {
  data : option A;
  error : option Store.StoreError
}.

(** ** The handler monad *)

Inductive Res (A : Type) := Val (a : A) | Thrown.
Arguments Thrown {A}.

Record Sys (S : Type) := mkSys {
  comp : S;
  world : World;
  trace : list Effect
}.

Definition M (S A : Type) : Type := Sys S -> Res A * Sys S.

Definition ret {S A : Type} (a : A) : M S A := fun sys => (Val a, sys).

Definition bind {S A B : Type} (m : M S A) (k : A -> M S B) : M S B :=
  fun sys =>
    match m sys with
    | (Val a, sys') => k a sys'
    | (Thrown, sys') => (Thrown, sys')
    end.

Declare Scope handler_scope.
Delimit Scope handler_scope with handler.
Notation "x <- m ;; k" := (bind m (fun x => k))
  (at level 100, m at next level, right associativity) : handler_scope.
Notation "m ;; k" := (bind m (fun _ => k))
  (at level 100, right associativity) : handler_scope.
Open Scope handler_scope.

Definition get {S : Type} : M S S := fun sys => (Val (comp sys), sys).

(** A [useState] setter. *)
Definition modify {S : Type} (f : S -> S) : M S unit :=
  fun sys => (Val tt, mkSys (f (comp sys)) (world sys) (trace sys)).

Definition emit {S : Type} (e : Effect) : M S unit :=
  fun sys => (Val tt, mkSys (comp sys) (world sys) (trace sys ++ [e])).

Definition toast {S : Type} (title description : string) (destructive : bool) : M S unit :=
  emit (Toast title description destructive).

Definition console_error {S : Type} (msg : string) : M S unit :=
  emit (ConsoleError msg).

(** [try { body } catch { handler } finally { final }] *)
Definition try_catch_finally {S : Type} (body handler final : M S unit) : M S unit :=
  fun sys =>
    match body sys with
    | (Val _, sys1) => final sys1
    | (Thrown, sys1) =>
        match handler sys1 with
        | (Val _, sys2) => final sys2
        | (Thrown, sys2) => (Thrown, snd (final sys2))
        end
    end.

(** A call whose promise is not awaited: a rejection stays in that promise. *)
Definition spawn {S : Type} (m : M S unit) : M S unit :=
  fun sys => (Val tt, snd (m sys)).

(** Run a parent's callback from inside a child component. *)
Definition in_parent {S P A : Type} (m : M P A) : M (S * P) A :=
  fun sys =>
    let (r, sys') := m (mkSys (snd (comp sys)) (world sys) (trace sys)) in
    (r, mkSys (fst (comp sys), comp sys') (world sys') (trace sys')).

(** The child's own state. *)
Definition own {S P : Type} : M (S * P) S := fun sys => (Val (fst (comp sys)), sys).

Definition set_own {S P : Type} (f : S -> S) : M (S * P) unit :=
  modify (fun c => (f (fst c), snd c)).

Definition pop_fault (w : World) : Fault * World :=
  match faults w with
  | [] => (NoFault, w)
  | f :: rest => (f, mkWorld (db w) rest (auth_replies w))
  end.

(** [await] of a read. *)
Definition query {S A : Type} (r : Request) (run : Store.DB -> A) : M S (Resp A) :=
  fun sys =>
    let (f, w) := pop_fault (world sys) in
    let sys' := mkSys (comp sys) w (trace sys ++ [Sent r]) in
    match f with
    | NoFault => (Val (mkResp (Some (run (db w))) None), sys')
    | ErrorResult => (Val (mkResp None (Some Store.TransportError)), sys')
    | Rejects => (Thrown, sys')
    end.

(** [await] of a write. *)
Definition mutate {S : Type} (r : Request)
           (run : Store.DB -> option Store.StoreError * Store.DB) : M S (Resp unit) :=
  fun sys =>
    let (f, w) := pop_fault (world sys) in
    let sent := trace sys ++ [Sent r] in
    match f with
    | NoFault =>
        let (e, db') := run (db w) in
        (Val (mkResp None e),
         mkSys (comp sys) (mkWorld db' (faults w) (auth_replies w)) sent)
    | ErrorResult =>
        (Val (mkResp None (Some Store.TransportError)), mkSys (comp sys) w sent)
    | Rejects => (Thrown, mkSys (comp sys) w sent)
    end.

(** [await signUp(..)] and [await signIn(..)]: the reply's error message. *)
Definition auth_call {S : Type} (r : Request) : M S (option string) :=
  fun sys =>
    let w := world sys in
    let sent := trace sys ++ [Sent r] in
    match auth_replies w with
    | [] => (Val None, mkSys (comp sys) w sent)
    | AuthOk :: rest =>
        (Val None, mkSys (comp sys) (mkWorld (db w) (faults w) rest) sent)
    | AuthError msg :: rest =>
        (Val (Some msg), mkSys (comp sys) (mkWorld (db w) (faults w) rest) sent)
    | AuthRejects :: rest =>
        (Thrown, mkSys (comp sys) (mkWorld (db w) (faults w) rest) sent)
    end.

(** The session's identity as the store sees it ([auth.uid()]). *)
Definition uid (u : User.t) : option uuid := Some (User.id u).

(** ** AuthForm.tsx *)

Module AuthForm.

Record FormData := mkForm {
  email : string;
  password : string;
  fullName : string;
  confirmPassword : string
}.

Record State := mkState {
  loading : bool;
  formData : FormData
}.

Definition initial : State := mkState false (mkForm "" "" "" "").

Definition setLoading (b : bool) : M State unit :=
  modify (fun s => mkState b (formData s)).

Definition setFormData (f : FormData -> FormData) : M State unit :=
  modify (fun s => mkState (loading s) (f (formData s))).

Definition handleSignIn : M State unit :=
  s <- get ;;
  setLoading true ;;
  err <- auth_call (ReqSignIn (email (formData s)) (password (formData s))) ;;
  match err with
  | Some msg => toast "Erro no login" msg true
  | None => ret tt
  end ;;
  setLoading false.

Definition handleSignUp : M State unit :=
  s <- get ;;
  setLoading true ;;
  if negb (String.eqb (password (formData s)) (confirmPassword (formData s))) then
    toast "Erro" "As senhas não coincidem" true ;;
    setLoading false
  else
    err <- auth_call (ReqSignUp (email (formData s)) (password (formData s))
                                (fullName (formData s))) ;;
    match err with
    | Some msg => toast "Erro no cadastro" msg true
    | None => toast "Cadastro realizado!"
                    "Verifique seu email para confirmar a conta." false
    end ;;
    setLoading false.

(** [[e.target.name]: e.target.value] for the four inputs of the form. *)
Definition handleInputChange (field value : string) : M State unit :=
  setFormData (fun f =>
    if String.eqb field "email" then
      mkForm value (password f) (fullName f) (confirmPassword f)
    else if String.eqb field "password" then
      mkForm (email f) value (fullName f) (confirmPassword f)
    else if String.eqb field "fullName" then
      mkForm (email f) (password f) value (confirmPassword f)
    else if String.eqb field "confirmPassword" then
      mkForm (email f) (password f) (fullName f) value
    else f).

(** The sign-up form's [onSubmit]: the browser runs the handler only when
    its own constraint validation ([required], [type="email"]) passes. *)
Definition submitSignUp (browserValid : bool) : M State unit :=
  if browserValid then handleSignUp else ret tt.

End AuthForm.

(** ** Dashboard.tsx: the aggregate counts *)

Module Dashboard.

Record DashboardStats := mkStats {
  totalTurmas : nat;
  totalAtividades : nat;
  atividadesPendentes : nat
}.

(** The profile summary and the tab selector play no part in the counts
    and are left out. *)
Record State := mkState {
  stats : DashboardStats;
  loading : bool
}.

Definition initial : State := mkState (mkStats 0 0 0) true.

Definition setStats (v : DashboardStats) : M State unit :=
  modify (fun s => mkState v (loading s)).

Definition setLoading (b : bool) : M State unit :=
  modify (fun s => mkState (stats s) b).

Definition loadStats (user : option User.t) : M State unit :=
  match user with
  | None => ret tt
  | Some u =>
      try_catch_finally
        (r1 <- query (ReqCountTurmas (User.id u))
                     (Store.count_turmas (uid u) (User.id u)) ;;
         r2 <- query (ReqCountAtividades (User.id u))
                     (Store.count_atividades (uid u) (User.id u)) ;;
         r3 <- query (ReqCountPending (User.id u))
                     (Store.count_pending (uid u) (User.id u)) ;;
         setStats (mkStats (JS.or_zero (data r1)) (JS.or_zero (data r2))
                           (JS.or_zero (data r3))))
        (console_error "Error loading stats:")
        (setLoading false)
  end.

End Dashboard.

(** ** TurmasManager.tsx *)

Module TurmasManager.

Record FormData := mkForm {
  name : string;
  description : string;
  grade_level : string;
  subject : string
}.

Definition blank : FormData := mkForm "" "" "" "".

Record State := mkState {
  turmas : list Turma.row;
  loading : bool;
  isDialogOpen : bool;
  editingTurma : option Turma.row;
  formData : FormData
}.

Definition initial : State := mkState [] true false None blank.

(** The object sent to the store, built from the form. *)
Definition turmaData (f : FormData) (u : User.t) : TurmaData.t :=
  TurmaData.mk (name f)
               (JS.or_null (description f))
               (JS.or_null (grade_level f))
               (JS.or_null (subject f))
               (User.id u).

(** The form as [startEdit] fills it from a row. *)
Definition form_of (t : Turma.row) : FormData :=
  mkForm (Turma.name t)
         (JS.or_str (Turma.description t) "")
         (JS.or_str (Turma.grade_level t) "")
         (JS.or_str (Turma.subject t) "").

Section Props.

Variable P : Type.
Variable onStatsChange : M P unit.
Variable user : option User.t.

Definition session : option uuid :=
  match user with
  | Some u => uid u
  | None => None
  end.

Definition setTurmas (v : list Turma.row) : M (State * P) unit :=
  set_own (fun s => mkState v (loading s) (isDialogOpen s) (editingTurma s) (formData s)).

Definition setLoading (v : bool) : M (State * P) unit :=
  set_own (fun s => mkState (turmas s) v (isDialogOpen s) (editingTurma s) (formData s)).

Definition setIsDialogOpen (v : bool) : M (State * P) unit :=
  set_own (fun s => mkState (turmas s) (loading s) v (editingTurma s) (formData s)).

Definition setEditingTurma (v : option Turma.row) : M (State * P) unit :=
  set_own (fun s => mkState (turmas s) (loading s) (isDialogOpen s) v (formData s)).

Definition setFormData (f : FormData -> FormData) : M (State * P) unit :=
  set_own (fun s => mkState (turmas s) (loading s) (isDialogOpen s) (editingTurma s)
                            (f (formData s))).

Definition loadTurmas : M (State * P) unit :=
  match user with
  | None => ret tt
  | Some u =>
      setLoading true ;;
      r <- query (ReqSelectTurmas (User.id u))
                 (Store.select_turmas_ordered (uid u) (User.id u)) ;;
      match error r with
      | Some _ =>
          console_error "Error loading turmas:" ;;
          toast "Erro" "Não foi possível carregar as turmas." true
      | None => setTurmas (JS.or_nil (data r))
      end ;;
      setLoading false
  end.

Definition resetForm : M (State * P) unit :=
  setFormData (fun _ => blank) ;;
  setEditingTurma None ;;
  setIsDialogOpen false.

Definition handleSubmit : M (State * P) unit :=
  match user with
  | None => ret tt
  | Some u =>
      s <- own ;;
      let d := turmaData (formData s) u in
      match editingTurma s with
      | Some t =>
          r <- mutate (ReqUpdateTurma (Turma.id t) d)
                      (Store.update_turma (uid u) (Turma.id t) d) ;;
          match error r with
          | Some _ => toast "Erro" "Não foi possível atualizar a turma." true
          | None =>
              toast "Sucesso" "Turma atualizada com sucesso!" false ;;
              spawn loadTurmas ;;
              spawn (in_parent onStatsChange) ;;
              resetForm
          end
      | None =>
          r <- mutate (ReqInsertTurma d) (Store.insert_turma (uid u) d) ;;
          match error r with
          | Some _ => toast "Erro" "Não foi possível criar a turma." true
          | None =>
              toast "Sucesso" "Turma criada com sucesso!" false ;;
              spawn loadTurmas ;;
              spawn (in_parent onStatsChange) ;;
              resetForm
          end
      end
  end.

(** [confirmed] is the answer to the blocking [confirm(..)] prompt. *)
Definition handleDelete (confirmed : bool) (turmaId : uuid) : M (State * P) unit :=
  if negb confirmed then ret tt
  else
    r <- mutate (ReqDeleteTurma turmaId) (Store.delete_turma session turmaId) ;;
    match error r with
    | Some _ => toast "Erro" "Não foi possível excluir a turma." true
    | None =>
        toast "Sucesso" "Turma excluída com sucesso!" false ;;
        spawn loadTurmas ;;
        spawn (in_parent onStatsChange)
    end.

Definition startEdit (t : Turma.row) : M (State * P) unit :=
  setEditingTurma (Some t) ;;
  setFormData (fun _ => form_of t) ;;
  setIsDialogOpen true.

Definition handleInputChange (field value : string) : M (State * P) unit :=
  setFormData (fun f =>
    if String.eqb field "name" then
      mkForm value (description f) (grade_level f) (subject f)
    else if String.eqb field "description" then
      mkForm (name f) value (grade_level f) (subject f)
    else if String.eqb field "grade_level" then
      mkForm (name f) (description f) value (subject f)
    else if String.eqb field "subject" then
      mkForm (name f) (description f) (grade_level f) value
    else f).

(** *** The rendered controls and what they are wired to *)

Inductive Event :=
| UserEffect                                  (* useEffect(.., [user]) *)
| ClickNovaTurma                              (* the DialogTrigger button *)
| ClickCriarPrimeiraTurma                     (* the empty-state button *)
| ClickEdit (i : nat)                         (* on the i-th card *)
| ClickDelete (i : nat) (confirmed : bool)    (* on the i-th card *)
| Input (field value : string)
| Submit
| ClickCancelar
| Dismiss.                                    (* onOpenChange(false) *)

(** Which controls the current render offers.  While [loading] only the
    spinner is rendered; the dialog's content exists only while it is
    open; the empty-state card replaces the grid when there is no row. *)
Definition offered (s : State) (e : Event) : bool :=
  match e with
  | UserEffect => true
  | ClickNovaTurma => negb (loading s)
  | ClickCriarPrimeiraTurma => negb (loading s) && JS.is_empty (turmas s)
  | ClickEdit i | ClickDelete i _ =>
      negb (loading s) && negb (JS.is_empty (turmas s))
      && match nth_error (turmas s) i with Some _ => true | None => false end
  | Input _ _ | Submit | ClickCancelar | Dismiss =>
      negb (loading s) && isDialogOpen s
  end.

(** The handler behind each control.  The trigger button runs its own
    [onClick] and then the dialog's toggle, which reports the negation of
    the [open] prop of the current render to [onOpenChange]. *)
Definition handler (s : State) (e : Event) : M (State * P) unit :=
  match e with
  | UserEffect => loadTurmas
  | ClickNovaTurma => resetForm ;; setIsDialogOpen (negb (isDialogOpen s))
  | ClickCriarPrimeiraTurma => setIsDialogOpen true
  | ClickEdit i =>
      match nth_error (turmas s) i with
      | Some t => startEdit t
      | None => ret tt
      end
  | ClickDelete i confirmed =>
      match nth_error (turmas s) i with
      | Some t => handleDelete confirmed (Turma.id t)
      | None => ret tt
      end
  | Input field value => handleInputChange field value
  | Submit =>
      (* the name input is [required] *)
      if String.eqb (name (formData s)) "" then ret tt else handleSubmit
  | ClickCancelar => resetForm
  | Dismiss => setIsDialogOpen false
  end.

Definition step (e : Event) : M (State * P) unit :=
  s <- own ;;
  if offered s e then spawn (handler s e) else ret tt.

Fixpoint run (es : list Event) : M (State * P) unit :=
  match es with
  | [] => ret tt
  | e :: es' => step e ;; run es'
  end.

End Props.

End TurmasManager.

(** ** AtividadesManager.tsx *)

(** The [{ id, name }] rows behind the class selector. *)
Module TurmaOption.
Record t := mk { id : uuid; name : string }.
End TurmaOption.

Module AtividadesManager.

(** [status] holds whatever the loaded row held; the dialog's selector
    offers the three items of [statusItems]. *)
Record FormData := mkForm {
  title : string;
  description : string;
  due_date : string;
  status : option string;
  turma_id : string
}.

Definition blank : FormData := mkForm "" "" "" (Some "pending") "".

Definition statusItems : list (string * string) :=
  [("pending", "Pendente"); ("in_progress", "Em Andamento"); ("completed", "Concluída")].

(** A loaded row with its embedded [turmas.name]. *)
Definition Loaded : Type := (Atividade.row * option string)%type.

Record State := mkState {
  atividades : list Loaded;
  turmas : list TurmaOption.t;
  loading : bool;
  isDialogOpen : bool;
  editingAtividade : option Loaded;
  formData : FormData
}.

Definition initial : State := mkState [] [] true false None blank.

Definition atividadeData (f : FormData) (u : User.t) : AtividadeData.t :=
  AtividadeData.mk (title f)
                   (JS.or_null (description f))
                   (JS.or_null (due_date f))
                   (Some (status f))
                   (turma_id f)
                   (User.id u).

Definition form_of (a : Loaded) : FormData :=
  mkForm (Atividade.title (fst a))
         (JS.or_str (Atividade.description (fst a)) "")
         (JS.or_str (Atividade.due_date (fst a)) "")
         (Atividade.status (fst a))
         (Atividade.turma_id (fst a)).

Definition turma_options (auth : option uuid) (teacher : uuid) (d : Store.DB)
  : list TurmaOption.t :=
  map (fun r => TurmaOption.mk (Turma.id r) (Turma.name r))
      (Store.select_turmas auth teacher d).

(** *** What is rendered below the header *)

(** [statusConfig]: the label of the badge of each status. *)
Definition statusConfig : list (string * string) :=
  [("pending", "Pendente"); ("in_progress", "Em Andamento"); ("completed", "Concluída")].

(** A card of the grid reads [statusConfig[atividade.status].icon] and
    [atividade.turmas.name] with no guard.  On a status that is no key of
    [statusConfig] (null included) there is no icon component to render, and
    on a row whose embedded class is null the property read fails: in both
    cases the render throws. *)
Definition card_renders (a : Loaded) : bool :=
  match Atividade.status (fst a), snd a with
  | Some v, Some _ => mem v (map fst statusConfig)
  | _, _ => false
  end.

Inductive Body :=
| Spinner
| EmptyTurmasCard          (* "Você precisa criar pelo menos uma turma ..." *)
| EmptyAtividadesCard      (* carries the "Criar Primeira Atividade" button *)
| Grid
| RenderError.             (* a card threw: nothing catches it, the tree unmounts *)

Definition body (s : State) : Body :=
  if loading s then Spinner
  else if JS.is_empty (turmas s) then EmptyTurmasCard
  else if JS.is_empty (atividades s) then EmptyAtividadesCard
  else if forallb card_renders (atividades s) then Grid
  else RenderError.

(** Whether the component is still on the page. *)
Definition mounted (s : State) : bool :=
  match body s with
  | RenderError => false
  | _ => true
  end.

(** [disabled={turmas.length === 0}] on the "Nova Atividade" button. *)
Definition novaAtividadeDisabled (s : State) : bool :=
  JS.is_empty (turmas s).

Section Props.

Variable P : Type.
Variable onStatsChange : M P unit.
Variable user : option User.t.

Definition session : option uuid :=
  match user with
  | Some u => uid u
  | None => None
  end.

Definition setAtividades (v : list Loaded) : M (State * P) unit :=
  set_own (fun s => mkState v (turmas s) (loading s) (isDialogOpen s)
                            (editingAtividade s) (formData s)).

Definition setTurmas (v : list TurmaOption.t) : M (State * P) unit :=
  set_own (fun s => mkState (atividades s) v (loading s) (isDialogOpen s)
                            (editingAtividade s) (formData s)).

Definition setLoading (v : bool) : M (State * P) unit :=
  set_own (fun s => mkState (atividades s) (turmas s) v (isDialogOpen s)
                            (editingAtividade s) (formData s)).

Definition setIsDialogOpen (v : bool) : M (State * P) unit :=
  set_own (fun s => mkState (atividades s) (turmas s) (loading s) v
                            (editingAtividade s) (formData s)).

Definition setEditingAtividade (v : option Loaded) : M (State * P) unit :=
  set_own (fun s => mkState (atividades s) (turmas s) (loading s) (isDialogOpen s)
                            v (formData s)).

Definition setFormData (f : FormData -> FormData) : M (State * P) unit :=
  set_own (fun s => mkState (atividades s) (turmas s) (loading s) (isDialogOpen s)
                            (editingAtividade s) (f (formData s))).

Definition loadData : M (State * P) unit :=
  match user with
  | None => ret tt
  | Some u =>
      setLoading true ;;
      r1 <- query (ReqSelectTurmaOptions (User.id u))
                  (turma_options (uid u) (User.id u)) ;;
      match error r1 with
      | Some _ => console_error "Error loading turmas:"
      | None => setTurmas (JS.or_nil (data r1))
      end ;;
      r2 <- query (ReqSelectAtividades (User.id u))
                  (Store.select_atividades (uid u) (User.id u)) ;;
      match error r2 with
      | Some _ =>
          console_error "Error loading atividades:" ;;
          toast "Erro" "Não foi possível carregar as atividades." true
      | None => setAtividades (JS.or_nil (data r2))
      end ;;
      setLoading false
  end.

Definition resetForm : M (State * P) unit :=
  setFormData (fun _ => blank) ;;
  setEditingAtividade None ;;
  setIsDialogOpen false.

Definition handleSubmit : M (State * P) unit :=
  match user with
  | None => ret tt
  | Some u =>
      s <- own ;;
      let d := atividadeData (formData s) u in
      match editingAtividade s with
      | Some a =>
          r <- mutate (ReqUpdateAtividade (Atividade.id (fst a)) d)
                      (Store.update_atividade (uid u) (Atividade.id (fst a)) d) ;;
          match error r with
          | Some _ => toast "Erro" "Não foi possível atualizar a atividade." true
          | None =>
              toast "Sucesso" "Atividade atualizada com sucesso!" false ;;
              spawn loadData ;;
              spawn (in_parent onStatsChange) ;;
              resetForm
          end
      | None =>
          r <- mutate (ReqInsertAtividade d) (Store.insert_atividade (uid u) d) ;;
          match error r with
          | Some _ => toast "Erro" "Não foi possível criar a atividade." true
          | None =>
              toast "Sucesso" "Atividade criada com sucesso!" false ;;
              spawn loadData ;;
              spawn (in_parent onStatsChange) ;;
              resetForm
          end
      end
  end.

Definition handleDelete (confirmed : bool) (atividadeId : uuid) : M (State * P) unit :=
  if negb confirmed then ret tt
  else
    r <- mutate (ReqDeleteAtividade atividadeId)
                (Store.delete_atividade session atividadeId) ;;
    match error r with
    | Some _ => toast "Erro" "Não foi possível excluir a atividade." true
    | None =>
        toast "Sucesso" "Atividade excluída com sucesso!" false ;;
        spawn loadData ;;
        spawn (in_parent onStatsChange)
    end.

Definition startEdit (a : Loaded) : M (State * P) unit :=
  setEditingAtividade (Some a) ;;
  setFormData (fun _ => form_of a) ;;
  setIsDialogOpen true.

Definition handleInputChange (field value : string) : M (State * P) unit :=
  setFormData (fun f =>
    if String.eqb field "title" then
      mkForm value (description f) (due_date f) (status f) (turma_id f)
    else if String.eqb field "description" then
      mkForm (title f) value (due_date f) (status f) (turma_id f)
    else if String.eqb field "due_date" then
      mkForm (title f) (description f) value (status f) (turma_id f)
    else f).

(** *** The rendered controls and what they are wired to *)

Inductive Event :=
| UserEffect
| ClickNovaAtividade
| ClickCriarPrimeiraAtividade
| ClickEdit (i : nat)
| ClickDelete (i : nat) (confirmed : bool)
| Input (field value : string)
| SelectTurma (i : nat)                       (* the i-th SelectItem *)
| SelectStatus (i : nat)                      (* the i-th SelectItem *)
| Submit
| ClickCancelar
| Dismiss.

(** Which controls the current render offers; once the render has thrown
    there is none, and no effect runs either. *)
Definition offered (s : State) (e : Event) : bool :=
  mounted s &&
  match e with
  | UserEffect => true
  | ClickNovaAtividade => negb (loading s) && negb (novaAtividadeDisabled s)
  | ClickCriarPrimeiraAtividade =>
      match body s with EmptyAtividadesCard => true | _ => false end
  | ClickEdit i | ClickDelete i _ =>
      match body s, nth_error (atividades s) i with
      | Grid, Some _ => true
      | _, _ => false
      end
  | SelectTurma i =>
      negb (loading s) && isDialogOpen s
      && match nth_error (turmas s) i with Some _ => true | None => false end
  | SelectStatus i =>
      negb (loading s) && isDialogOpen s
      && match nth_error statusItems i with Some _ => true | None => false end
  | Input _ _ | Submit | ClickCancelar | Dismiss =>
      negb (loading s) && isDialogOpen s
  end.

Definition handler (s : State) (e : Event) : M (State * P) unit :=
  match e with
  | UserEffect => loadData
  | ClickNovaAtividade => resetForm ;; setIsDialogOpen (negb (isDialogOpen s))
  | ClickCriarPrimeiraAtividade => setIsDialogOpen true
  | ClickEdit i =>
      match nth_error (atividades s) i with
      | Some a => startEdit a
      | None => ret tt
      end
  | ClickDelete i confirmed =>
      match nth_error (atividades s) i with
      | Some a => handleDelete confirmed (Atividade.id (fst a))
      | None => ret tt
      end
  | Input field value => handleInputChange field value
  | SelectTurma i =>
      match nth_error (turmas s) i with
      | Some t =>
          setFormData (fun f => mkForm (title f) (description f) (due_date f)
                                       (status f) (TurmaOption.id t))
      | None => ret tt
      end
  | SelectStatus i =>
      match nth_error statusItems i with
      | Some item =>
          setFormData (fun f => mkForm (title f) (description f) (due_date f)
                                       (Some (fst item)) (turma_id f))
      | None => ret tt
      end
  | Submit =>
      (* the title input is [required]; the class selector carries no
         such attribute *)
      if String.eqb (title (formData s)) "" then ret tt else handleSubmit
  | ClickCancelar => resetForm
  | Dismiss => setIsDialogOpen false
  end.

Definition step (e : Event) : M (State * P) unit :=
  s <- own ;;
  if offered s e then spawn (handler s e) else ret tt.

Fixpoint run (es : list Event) : M (State * P) unit :=
  match es with
  | [] => ret tt
  | e :: es' => step e ;; run es'
  end.

End Props.

End AtividadesManager.

(** ** The assembled page: a manager under the dashboard *)

Definition start {S : Type} (s : S) (d : Store.DB) (fs : list Fault)
  : Sys (S * Dashboard.State) :=
  mkSys (s, Dashboard.initial) (mkWorld d fs []) [].

Definition exec {S A : Type} (m : M S A) (sys : Sys S) : Sys S := snd (m sys).

(** ** Vocabulary of the statements *)

(** Kinds of effect. *)
Definition is_toast (e : Effect) : bool :=
  match e with Toast _ _ _ => true | _ => false end.

Definition is_console (e : Effect) : bool :=
  match e with ConsoleError _ => true | _ => false end.

Definition is_write (e : Effect) : bool :=
  match e with
  | Sent (ReqInsertTurma _) | Sent (ReqUpdateTurma _ _) | Sent (ReqDeleteTurma _)
  | Sent (ReqInsertAtividade _) | Sent (ReqUpdateAtividade _ _)
  | Sent (ReqDeleteAtividade _) => true
  | _ => false
  end.

(** The fault that strikes the [i]-th request from now. *)
Definition fault_at (i : nat) (w : World) : Fault := nth i (faults w) NoFault.

(** No fault strikes the next [n] requests. *)
Definition calm (n : nat) (w : World) : Prop :=
  forall i, i < n -> fault_at i w = NoFault.

(** The world once its next request has been answered without a fault. *)
Definition served (w : World) : World :=
  mkWorld (db w) (tl (faults w)) (auth_replies w).

Definition with_db (d : Store.DB) (w : World) : World :=
  mkWorld d (faults w) (auth_replies w).

(** What the dashboard shows for a count whose query was struck by [f]. *)
Definition shown (f : Fault) (n : nat) : nat :=
  match f with
  | NoFault => JS.or_zero (Some n)
  | _ => JS.or_zero None
  end.

(** A handler that only ever appends to the trace. *)
Definition grows {S A : Type} (m : M S A) : Prop :=
  forall sys, exists new, trace (snd (m sys)) = trace sys ++ new.

(** A handler that leaves the tables alone. *)
Definition reads_only {S A : Type} (m : M S A) : Prop :=
  forall sys, db (world (snd (m sys))) = db (world sys).

(** What the CHECK admits in a stored row. *)
Definition status_admitted (a : Atividade.row) : Prop :=
  Store.check_status (Atividade.status a) = true.

(** Well-formed stores: what holds of every store that the writes above
    build from an empty one.  [gen_random_uuid()] never repeats a draw, every
    class id was drawn, and the primary key of [turmas] is unique. *)
Record wf (d : Store.DB) : Prop := mk_wf {
  wf_src : forall m n, Store.uuid_src d m = Store.uuid_src d n -> m = n;
  wf_drawn : forall r, In r (Store.turmas d) ->
                       exists n, n < Store.uuid_ix d /\ Store.uuid_src d n = Turma.id r;
  wf_key : NoDup (map Turma.id (Store.turmas d))
}.

(** A class id that is out of the store for good. *)
Record retired (c : uuid) (d : Store.DB) : Prop := mk_retired {
  retired_src : forall n, Store.uuid_ix d <= n -> Store.uuid_src d n <> c;
  retired_key : ~ In c (map Turma.id (Store.turmas d));
  retired_ref : forall a, In a (Store.atividades d) -> Atividade.turma_id a <> c
}.

(** ** Sample data *)

Fixpoint tally (n : nat) : string :=
  match n with
  | 0 => ""
  | S k => String.append "i" (tally k)
  end.

Definition sample_uuid (n : nat) : uuid := String.append "id-" (tally n).

Definition ana : User.t := User.mk "ana" "ana@escola.br".

Definition empty_db : Store.DB := Store.mkDB ["ana"] [] [] 0 sample_uuid 0.

Definition sample_turma : Turma.row :=
  Turma.mk "id-" "ana" "5º Ano A" None (Some "5º Ano") None 0 0.

Definition sample_atividade : Atividade.row :=
  Atividade.mk "id-i" "id-" "ana" "Lista 1" None None (Some "pending") 1 1.

Definition db_one_class : Store.DB :=
  Store.mkDB ["ana"] [sample_turma] [] 1 sample_uuid 1.

Definition db_one_assignment : Store.DB :=
  Store.mkDB ["ana"] [sample_turma] [sample_atividade] 2 sample_uuid 2.

(** ** Further vocabulary: ordering, ownership, integrity *)

(** Most recent first. *)
Definition recent_first {A : Type} (key : A -> nat) (l : list A) : Prop :=
  StronglySorted (fun a b => key b <= key a) l.

(** The identity a write is made under. *)
Definition auth_of (m : Store.Mutation) : option uuid :=
  match m with
  | Store.InsertTurma auth _ | Store.UpdateTurma auth _ _ | Store.DeleteTurma auth _
  | Store.InsertAtividade auth _ | Store.UpdateAtividade auth _ _
  | Store.DeleteAtividade auth _ => auth
  end.

(** [ON DELETE CASCADE] reaches [a]: the write deletes a class that its
    caller owns, and [a] is an assignment of that class. *)
Definition cascades (m : Store.Mutation) (d : Store.DB) (a : Atividade.row) : Prop :=
  exists c, In c (Store.turmas d)
            /\ Turma.id c = Atividade.turma_id a
            /\ Store.policy (auth_of m) (Turma.teacher_id c) = true
            /\ m = Store.DeleteTurma (auth_of m) (Turma.id c).

(** Referential integrity: the three REFERENCES clauses of the schema. *)
Record refs_ok (d : Store.DB) : Prop := mk_refs_ok {
  ref_class : forall a, In a (Store.atividades d) ->
                        In (Atividade.turma_id a) (map Turma.id (Store.turmas d));
  ref_class_owner : forall r, In r (Store.turmas d) ->
                              In (Turma.teacher_id r) (Store.users d);
  ref_assignment_owner : forall a, In a (Store.atividades d) ->
                                   In (Atividade.teacher_id a) (Store.users d)
}.

(** The primary key of [atividades]. *)
Definition assignments_keyed (d : Store.DB) : Prop :=
  NoDup (map Atividade.id (Store.atividades d)).

(** An optional text field as the managers write it: null or non-empty. *)
Definition clean (o : option string) : Prop := o <> Some "".

(** The request that carries a write. *)
Definition request_of (m : Store.Mutation) : Request :=
  match m with
  | Store.InsertTurma _ d => ReqInsertTurma d
  | Store.UpdateTurma _ id d => ReqUpdateTurma id d
  | Store.DeleteTurma _ id => ReqDeleteTurma id
  | Store.InsertAtividade _ d => ReqInsertAtividade d
  | Store.UpdateAtividade _ id d => ReqUpdateAtividade id d
  | Store.DeleteAtividade _ id => ReqDeleteAtividade id
  end.

(** The answer to a write struck by [f]: an error comes back when the
    request fails on the way or when the store turns the write down; no
    error comes back when the request goes through and the store applies
    the write. *)
Definition refused (f : Fault) (m : Store.Mutation) (d : Store.DB) : Prop :=
  f = ErrorResult \/ (f = NoFault /\ fst (Store.apply_mutation m d) <> None).

Definition accepted (f : Fault) (m : Store.Mutation) (d : Store.DB) : Prop :=
  f = NoFault /\ fst (Store.apply_mutation m d) = None.

(** The write that submitting the class form asks for: an update of the row
    being edited, or an insert. *)
Definition turma_submission (s : TurmasManager.State) (u : User.t) : Store.Mutation :=
  match TurmasManager.editingTurma s with
  | Some t => Store.UpdateTurma (uid u) (Turma.id t)
                (TurmasManager.turmaData (TurmasManager.formData s) u)
  | None => Store.InsertTurma (uid u)
              (TurmasManager.turmaData (TurmasManager.formData s) u)
  end.

Definition atividade_submission (s : AtividadesManager.State) (u : User.t)
  : Store.Mutation :=
  match AtividadesManager.editingAtividade s with
  | Some a => Store.UpdateAtividade (uid u) (Atividade.id (fst a))
                (AtividadesManager.atividadeData (AtividadesManager.formData s) u)
  | None => Store.InsertAtividade (uid u)
              (AtividadesManager.atividadeData (AtividadesManager.formData s) u)
  end.

(** Every assignment that the page loads for [u] shows as a card: it has one
    of the three statuses and the class it sits in is one that [u] can
    read. *)
Definition cards_render (u : User.t) (d : Store.DB) : Prop :=
  forall a, In a (Store.atividades d) ->
            Atividade.teacher_id a = User.id u ->
            AtividadesManager.card_renders (a, Store.joined_name (uid u) d a) = true.

(** A store with two teachers and one class of the first. *)
Definition sample_users_db : Store.DB :=
  Store.mkDB ["ana"; "bia"] [sample_turma] [] 1 sample_uuid 1.


(** ** Profiles: [public.profiles] and the sign-up trigger *)

Module Profile.
Record row := mk {
  id : uuid;
  user_id : uuid;
  full_name : string;
  school_name : option string;
  created_at : nat;
  updated_at : nat
}.
End Profile.

Module Accounts.

(** [users] is [auth.users]: the id and what
    [raw_user_meta_data ->> 'full_name'] yields for it (NULL when the key is
    missing). *)
Record DB := mkDB {
  users : list (uuid * option string);
  profiles : list Profile.row;
  now : nat;
  uuid_src : nat -> uuid;
  uuid_ix : nat
}.

(** [COALESCE(v, d)] *)
Definition coalesce (v : option string) (d : string) : string :=
  match v with
  | Some s => s
  | None => d
  end.

(** [handle_new_user()]: the profile row it inserts for the new user, with
    the column defaults filled in, unless [user_id UNIQUE] or the primary key
    turns the row down. *)
Definition handle_new_user (new_id : uuid) (meta : option string) (d : DB)
  : option Store.StoreError * list Profile.row :=
  let pid := uuid_src d (uuid_ix d) in
  if mem new_id (map Profile.user_id (profiles d)) then
    (Some Store.UniqueViolation, profiles d)
  else if mem pid (map Profile.id (profiles d)) then
    (Some Store.UniqueViolation, profiles d)
  else
    (None,
     profiles d ++
       [Profile.mk pid new_id (coalesce meta "Professor") None (now d) (now d)]).

(** An INSERT into [auth.users]; [on_auth_user_created] fires after it, and
    an error in the trigger aborts the insert. *)
Definition create_user (new_id : uuid) (meta : option string) (d : DB)
  : option Store.StoreError * DB :=
  if mem new_id (map fst (users d)) then (Some Store.UniqueViolation, d)
  else
    match handle_new_user new_id meta d with
    | (Some e, _) => (Some e, mkDB (users d) (profiles d) (now d) (uuid_src d)
                                   (S (uuid_ix d)))
    | (None, ps) =>
        (None, mkDB (users d ++ [(new_id, meta)]) ps (S (now d)) (uuid_src d)
                    (S (uuid_ix d)))
    end.

(** [from('profiles').select('*').eq('user_id', id).single()] under the
    policy [auth.uid() = user_id]: the row when exactly one is visible, an
    error otherwise. *)
Definition select_profile_single (auth : option uuid) (id : uuid) (d : DB)
  : option Profile.row :=
  match filter (fun r => Store.policy auth (Profile.user_id r)
                         && String.eqb (Profile.user_id r) id) (profiles d) with
  | [r] => Some r
  | _ => None
  end.

End Accounts.

(** One profile per user, and none without a user. *)
Record profiles_ok (d : Accounts.DB) : Prop := mk_profiles_ok {
  one_per_user : NoDup (map Profile.user_id (Accounts.profiles d));
  profile_has_user : forall r, In r (Accounts.profiles d) ->
                               In (Profile.user_id r) (map fst (Accounts.users d))
}.

Definition empty_accounts : Accounts.DB := Accounts.mkDB [] [] 0 sample_uuid 0.
(** * Properties *)

Unset Implicit Arguments.

(** ** Sign-up *)

(** C1: when the password and its confirmation differ, submitting the
    sign-up form sends no request: the handler raises the mismatch toast and
    returns, the identity service is not called, and the form keeps its
    contents. *)
Theorem signup_mismatch_sends_nothing :
  forall (s : AuthForm.State) (w : World) (tr : list Effect) (browserValid : bool),
    AuthForm.password (AuthForm.formData s)
      <> AuthForm.confirmPassword (AuthForm.formData s) ->
    let after_handler := exec AuthForm.handleSignUp (mkSys s w tr) in
    let after_submit := exec (AuthForm.submitSignUp browserValid) (mkSys s w tr) in
    trace after_handler = tr ++ [Toast "Erro" "As senhas não coincidem" true]
    /\ world after_handler = w
    /\ comp after_handler = AuthForm.mkState false (AuthForm.formData s)
    /\ (exists new, trace after_submit = tr ++ new
                    /\ forall r, ~ In (Sent r) new)
    /\ world after_submit = w
    /\ AuthForm.formData (comp after_submit) = AuthForm.formData s.
Proof.
  intros s w tr browserValid Hneq.
  assert (Hh : AuthForm.handleSignUp (mkSys s w tr) =
               (Val tt, mkSys (AuthForm.mkState false (AuthForm.formData s)) w
                              (tr ++ [Toast "Erro" "As senhas não coincidem" true]))).
  { unfold AuthForm.handleSignUp.
    apply String.eqb_neq in Hneq.
    cbn. rewrite Hneq. reflexivity. }
  cbv zeta. unfold exec, AuthForm.submitSignUp.
  rewrite Hh. cbn [snd trace world comp].
  repeat split.
  - destruct browserValid.
    + rewrite Hh. cbn. eexists; split; [reflexivity|].
      intros r [H|[]]; discriminate.
    + exists []. cbn. rewrite app_nil_r. split; [reflexivity | intros r []].
  - destruct browserValid; [rewrite Hh|]; reflexivity.
  - destruct browserValid; [rewrite Hh|]; reflexivity.
Qed.

Lemma signup_mismatch_sends_nothing_witness :
  let s := AuthForm.mkState false
             (AuthForm.mkForm "ana@escola.br" "segredo1" "Ana" "segredo2") in
  let w := mkWorld empty_db [] [AuthOk] in
  trace (exec AuthForm.handleSignUp (mkSys s w [])) =
    [] ++ [Toast "Erro" "As senhas não coincidem" true].
Proof.
  intros s w.
  refine (proj1 (signup_mismatch_sends_nothing s w [] true _)).
  cbn. discriminate.
Defined.

(** ** Handlers only ever append to the trace *)

Lemma grows_ret {S A : Type} (a : A) : grows (@ret S A a).
Proof. intros sys. exists []. cbn. now rewrite app_nil_r. Qed.

Lemma grows_bind {S A B : Type} (m : M S A) (k : A -> M S B) :
  grows m -> (forall a, grows (k a)) -> grows (bind m k).
Proof.
  intros Hm Hk sys. unfold bind.
  destruct (Hm sys) as [n1 H1].
  destruct (m sys) as [[a|] sys1]; cbn in *.
  - destruct (Hk a sys1) as [n2 H2].
    exists (n1 ++ n2). now rewrite H2, H1, app_assoc.
  - now exists n1.
Qed.

Lemma grows_get {S : Type} : grows (@get S).
Proof. intros sys. exists []. cbn. now rewrite app_nil_r. Qed.

Lemma grows_own {S P : Type} : grows (@own S P).
Proof. intros sys. exists []. cbn. now rewrite app_nil_r. Qed.

Lemma grows_modify {S : Type} (f : S -> S) : grows (modify f).
Proof. intros sys. exists []. cbn. now rewrite app_nil_r. Qed.

Lemma grows_set_own {S P : Type} (f : S -> S) : grows (@set_own S P f).
Proof. apply grows_modify. Qed.

Lemma grows_emit {S : Type} (e : Effect) : grows (@emit S e).
Proof. intros sys. now exists [e]. Qed.

Lemma grows_query {S A : Type} (r : Request) (run : Store.DB -> A) :
  grows (@query S A r run).
Proof.
  intros sys. exists [Sent r]. unfold query.
  destruct (pop_fault (world sys)) as [[| |] w]; reflexivity.
Qed.

Lemma grows_mutate {S : Type} (r : Request) run : grows (@mutate S r run).
Proof.
  intros sys. exists [Sent r]. unfold mutate.
  destruct (pop_fault (world sys)) as [[| |] w]; try reflexivity.
  destruct (run (db w)); reflexivity.
Qed.

Lemma grows_spawn {S : Type} (m : M S unit) : grows m -> grows (spawn m).
Proof. intros H sys. exact (H sys). Qed.

Lemma grows_in_parent {S P A : Type} (m : M P A) : grows m -> grows (@in_parent S P A m).
Proof.
  intros H sys. unfold in_parent.
  destruct (H (mkSys (snd (comp sys)) (world sys) (trace sys))) as [new Hn].
  destruct (m _) as [r sys']. now exists new.
Qed.

Lemma grows_try {S : Type} (body handler final : M S unit) :
  grows body -> grows handler -> grows final ->
  grows (try_catch_finally body handler final).
Proof.
  intros Hb Hh Hf sys. unfold try_catch_finally.
  destruct (Hb sys) as [n1 H1]. destruct (body sys) as [[[]|] sys1]; cbn in H1.
  - destruct (Hf sys1) as [n2 H2]. exists (n1 ++ n2). now rewrite H2, H1, app_assoc.
  - destruct (Hh sys1) as [n2 H2]. destruct (handler sys1) as [[[]|] sys2]; cbn in H2;
      destruct (Hf sys2) as [n3 H3]; exists (n1 ++ n2 ++ n3); cbn;
      now rewrite H3, H2, H1, !app_assoc.
Qed.

Create HintDb grows discriminated.
#[local] Hint Resolve grows_ret grows_get grows_own grows_modify grows_set_own grows_emit
  grows_query grows_mutate grows_spawn grows_in_parent grows_try : grows.

Ltac grows_step :=
  match goal with
  | |- grows (bind _ _) => apply grows_bind; [ | intro ]
  | |- grows (match ?x with _ => _ end) => destruct x
  | |- grows (if ?b then _ else _) => destruct b
  | |- grows (toast _ _ _) => apply grows_emit
  | |- grows (console_error _) => apply grows_emit
  | |- grows _ => solve [ auto with grows ]
  end.

Ltac grows_tac := repeat grows_step.

Lemma grows_loadStats (user : option User.t) : grows (Dashboard.loadStats user).
Proof.
  unfold Dashboard.loadStats, Dashboard.setStats, Dashboard.setLoading.
  destruct user; [ apply grows_try | ]; grows_tac.
Qed.

#[local] Hint Resolve grows_loadStats : grows.

Lemma grows_loadTurmas {P : Type} (user : option User.t) :
  grows (@TurmasManager.loadTurmas P user).
Proof.
  unfold TurmasManager.loadTurmas, TurmasManager.setLoading, TurmasManager.setTurmas.
  grows_tac.
Qed.

Lemma grows_loadData {P : Type} (user : option User.t) :
  grows (@AtividadesManager.loadData P user).
Proof.
  unfold AtividadesManager.loadData, AtividadesManager.setLoading,
    AtividadesManager.setTurmas, AtividadesManager.setAtividades.
  grows_tac.
Qed.

Lemma grows_resetForm_turmas {P : Type} : grows (@TurmasManager.resetForm P).
Proof.
  unfold TurmasManager.resetForm, TurmasManager.setFormData,
    TurmasManager.setEditingTurma, TurmasManager.setIsDialogOpen.
  grows_tac.
Qed.

Lemma grows_resetForm_atividades {P : Type} : grows (@AtividadesManager.resetForm P).
Proof.
  unfold AtividadesManager.resetForm, AtividadesManager.setFormData,
    AtividadesManager.setEditingAtividade, AtividadesManager.setIsDialogOpen.
  grows_tac.
Qed.

#[local] Hint Resolve grows_loadTurmas grows_loadData grows_resetForm_turmas
  grows_resetForm_atividades : grows.

(** ** Edit round trip *)

Lemma null_sentinel_inverted (o : option string) :
  o <> Some "" -> JS.or_null (JS.or_str o "") = o.
Proof.
  intros H. destruct o as [s|]; cbn; [ | reflexivity ].
  destruct (String.eqb s "") eqn:E.
  - apply String.eqb_eq in E. subst. now contradiction H.
  - unfold JS.or_null. now rewrite E.
Qed.

Lemma turma_payload_of_edit (t : Turma.row) (u : User.t) :
  Turma.description t <> Some "" ->
  Turma.grade_level t <> Some "" ->
  Turma.subject t <> Some "" ->
  TurmasManager.turmaData (TurmasManager.form_of t) u =
  TurmaData.mk (Turma.name t) (Turma.description t) (Turma.grade_level t)
               (Turma.subject t) (User.id u).
Proof.
  intros H1 H2 H3. unfold TurmasManager.turmaData, TurmasManager.form_of. cbn.
  now rewrite !null_sentinel_inverted.
Qed.

Lemma atividade_payload_of_edit (a : AtividadesManager.Loaded) (u : User.t) :
  Atividade.description (fst a) <> Some "" ->
  Atividade.due_date (fst a) <> Some "" ->
  AtividadesManager.atividadeData (AtividadesManager.form_of a) u =
  AtividadeData.mk (Atividade.title (fst a)) (Atividade.description (fst a))
                   (Atividade.due_date (fst a)) (Some (Atividade.status (fst a)))
                   (Atividade.turma_id (fst a)) (User.id u).
Proof.
  intros H1 H2. unfold AtividadesManager.atividadeData, AtividadesManager.form_of. cbn.
  now rewrite !null_sentinel_inverted.
Qed.

Lemma bind_own {S P B : Type} (k : S -> M (S * P) B) (sys : Sys (S * P)) :
  bind own k sys = k (fst (comp sys)) sys.
Proof. reflexivity. Qed.

Lemma mutate_then {S B : Type} (r : Request) run (k : Resp unit -> M S B) (sys : Sys S) :
  (forall a, grows (k a)) ->
  exists rest, trace (snd (bind (mutate r run) k sys)) = trace sys ++ Sent r :: rest.
Proof.
  intros Hk. unfold bind.
  assert (Ht : trace (snd (mutate r run sys)) = trace sys ++ [Sent r]).
  { unfold mutate. destruct (pop_fault (world sys)) as [[| |] w]; try reflexivity.
    destruct (run (db w)); reflexivity. }
  destruct (mutate r run sys) as [[a|] sys1]; cbn in Ht.
  - destruct (Hk a sys1) as [new Hn]. exists new.
    now rewrite Hn, Ht, <- app_assoc.
  - exists []. exact Ht.
Qed.

Lemma turma_submit_while_editing (u : User.t) (t : Turma.row)
      (sys : Sys (TurmasManager.State * Dashboard.State)) :
  TurmasManager.editingTurma (fst (comp sys)) = Some t ->
  exists rest,
    trace (snd (TurmasManager.handleSubmit (Dashboard.loadStats (Some u)) (Some u) sys))
    = trace sys ++
      Sent (ReqUpdateTurma (Turma.id t)
              (TurmasManager.turmaData (TurmasManager.formData (fst (comp sys))) u)) :: rest.
Proof.
  intros He. unfold TurmasManager.handleSubmit.
  rewrite bind_own. cbv beta zeta. rewrite He.
  apply mutate_then. intros a. grows_tac.
Qed.

Lemma atividade_submit_while_editing (u : User.t) (a : AtividadesManager.Loaded)
      (sys : Sys (AtividadesManager.State * Dashboard.State)) :
  AtividadesManager.editingAtividade (fst (comp sys)) = Some a ->
  exists rest,
    trace (snd (AtividadesManager.handleSubmit (Dashboard.loadStats (Some u)) (Some u) sys))
    = trace sys ++
      Sent (ReqUpdateAtividade (Atividade.id (fst a))
              (AtividadesManager.atividadeData
                 (AtividadesManager.formData (fst (comp sys))) u)) :: rest.
Proof.
  intros He. unfold AtividadesManager.handleSubmit.
  rewrite bind_own. cbv beta zeta. rewrite He.
  apply mutate_then. intros r. grows_tac.
Qed.

(** C10: for a row whose optional text fields are each null or non-empty,
    [startEdit] followed at once by [handleSubmit] sends an update, keyed by
    the row's id, whose editable fields are the row's stored values; this
    holds for classes and for assignments. *)
Theorem edit_then_submit_sends_stored_values :
  forall (u : User.t) (p : Dashboard.State) (w : World) (tr : list Effect),
    (forall (t : Turma.row) (s : TurmasManager.State),
        Turma.description t <> Some "" ->
        Turma.grade_level t <> Some "" ->
        Turma.subject t <> Some "" ->
        exists rest,
          trace (exec (TurmasManager.startEdit t ;;
                       TurmasManager.handleSubmit (Dashboard.loadStats (Some u)) (Some u))
                      (mkSys (s, p) w tr))
          = tr ++ Sent (ReqUpdateTurma (Turma.id t)
                          (TurmaData.mk (Turma.name t) (Turma.description t)
                                        (Turma.grade_level t) (Turma.subject t)
                                        (User.id u))) :: rest)
    /\ (forall (a : AtividadesManager.Loaded) (s : AtividadesManager.State),
           Atividade.description (fst a) <> Some "" ->
           Atividade.due_date (fst a) <> Some "" ->
           exists rest,
             trace (exec (AtividadesManager.startEdit a ;;
                          AtividadesManager.handleSubmit (Dashboard.loadStats (Some u))
                                                         (Some u))
                         (mkSys (s, p) w tr))
             = tr ++ Sent (ReqUpdateAtividade (Atividade.id (fst a))
                             (AtividadeData.mk (Atividade.title (fst a))
                                (Atividade.description (fst a))
                                (Atividade.due_date (fst a))
                                (Some (Atividade.status (fst a)))
                                (Atividade.turma_id (fst a)) (User.id u))) :: rest).
Proof.
  intros u p w tr. split.
  - intros t s H1 H2 H3.
    rewrite <- (turma_payload_of_edit t u H1 H2 H3).
    exact (turma_submit_while_editing u t
             (mkSys (TurmasManager.mkState (TurmasManager.turmas s)
                       (TurmasManager.loading s) true (Some t)
                       (TurmasManager.form_of t), p) w tr) eq_refl).
  - intros a s H1 H2.
    rewrite <- (atividade_payload_of_edit a u H1 H2).
    exact (atividade_submit_while_editing u a
             (mkSys (AtividadesManager.mkState (AtividadesManager.atividades s)
                       (AtividadesManager.turmas s) (AtividadesManager.loading s) true
                       (Some a) (AtividadesManager.form_of a), p) w tr) eq_refl).
Qed.

Lemma edit_then_submit_sends_stored_values_witness :
  exists rest,
    trace (exec (TurmasManager.startEdit sample_turma ;;
                 TurmasManager.handleSubmit (Dashboard.loadStats (Some ana)) (Some ana))
                (mkSys (TurmasManager.initial, Dashboard.initial)
                       (mkWorld empty_db [] []) []))
    = [] ++ Sent (ReqUpdateTurma "id-"
                    (TurmaData.mk "5º Ano A" None (Some "5º Ano") None "ana")) :: rest.
Proof.
  refine (proj1 (edit_then_submit_sends_stored_values ana Dashboard.initial
                   (mkWorld empty_db [] []) []) sample_turma TurmasManager.initial _ _ _);
    cbn; discriminate.
Defined.

(** ** Loading *)

Lemma fault_at_0 (d : Store.DB) (fs : list Fault) (ar : list AuthReply) :
  fault_at 0 (mkWorld d fs ar) = match fs with [] => NoFault | f :: _ => f end.
Proof. destruct fs; reflexivity. Qed.

Lemma fault_at_1 (d : Store.DB) (fs : list Fault) (ar : list AuthReply) :
  fault_at 1 (mkWorld d fs ar) =
  match fs with _ :: f :: _ => f | _ => NoFault end.
Proof. destruct fs as [|f1 [|f2 fs]]; reflexivity. Qed.

Lemma loadTurmas_on_error {P : Type} (u : User.t) (s : TurmasManager.State) (p : P)
      (w : World) (tr : list Effect) :
  fault_at 0 w = ErrorResult ->
  let sys' := exec (TurmasManager.loadTurmas (Some u)) (mkSys (s, p) w tr) in
  TurmasManager.turmas (fst (comp sys')) = TurmasManager.turmas s
  /\ trace sys' = tr ++ [Sent (ReqSelectTurmas (User.id u));
                         ConsoleError "Error loading turmas:";
                         Toast "Erro" "Não foi possível carregar as turmas." true].
Proof.
  destruct w as [d fs ar]. rewrite fault_at_0. intros Hf.
  destruct fs as [|f fs]; [discriminate|]. subst f.
  cbn. rewrite <- !app_assoc. split; reflexivity.
Qed.

Lemma loadTurmas_replaces_only_on_success {P : Type} (u : option User.t)
      (s : TurmasManager.State) (p : P) (w : World) (tr : list Effect) :
  TurmasManager.turmas
    (fst (comp (exec (TurmasManager.loadTurmas u) (mkSys (s, p) w tr))))
  <> TurmasManager.turmas s ->
  fault_at 0 w = NoFault.
Proof.
  destruct w as [d fs ar]. rewrite fault_at_0. intros Hne.
  destruct u as [u|]; [ | now contradiction Hne ].
  destruct fs as [|[| |] fs]; try reflexivity; now contradiction Hne.
Qed.

Lemma loadData_on_error {P : Type} (u : User.t) (s : AtividadesManager.State) (p : P)
      (w : World) (tr : list Effect) :
  fault_at 0 w <> Rejects ->
  fault_at 1 w = ErrorResult ->
  let sys' := exec (AtividadesManager.loadData (Some u)) (mkSys (s, p) w tr) in
  AtividadesManager.atividades (fst (comp sys')) = AtividadesManager.atividades s
  /\ exists before,
      trace sys' = tr ++ before ++
                   [Sent (ReqSelectAtividades (User.id u));
                    ConsoleError "Error loading atividades:";
                    Toast "Erro" "Não foi possível carregar as atividades." true]
      /\ forall e, In e before -> is_toast e = false.
Proof.
  destruct w as [d fs ar]. rewrite fault_at_0, fault_at_1. intros H0 H1.
  destruct fs as [|f1 [|f2 fs]]; try discriminate. subst f2.
  destruct f1; [ | | now contradiction H0 ].
  - cbn. split; [reflexivity|].
    exists [Sent (ReqSelectTurmaOptions (User.id u))].
    rewrite <- !app_assoc. split; [reflexivity|].
    intros e [<-|[]]; reflexivity.
  - cbn. split; [reflexivity|].
    exists [Sent (ReqSelectTurmaOptions (User.id u)); ConsoleError "Error loading turmas:"].
    rewrite <- !app_assoc. split; [reflexivity|].
    intros e [<-|[<-|[]]]; reflexivity.
Qed.

Lemma loadData_replaces_only_on_success {P : Type} (u : option User.t)
      (s : AtividadesManager.State) (p : P) (w : World) (tr : list Effect) :
  AtividadesManager.atividades
    (fst (comp (exec (AtividadesManager.loadData u) (mkSys (s, p) w tr))))
  <> AtividadesManager.atividades s ->
  fault_at 0 w <> Rejects /\ fault_at 1 w = NoFault.
Proof.
  destruct w as [d fs ar]. rewrite fault_at_0, fault_at_1. intros Hne.
  destruct u as [u|]; [ | now contradiction Hne ].
  destruct fs as [|[| |] [|[| |] fs]];
    first [ now contradiction Hne | split; [discriminate | reflexivity] ].
Qed.

(** C4: for classes and for assignments, when the row query comes back with
    an error the manager raises its failure toast and keeps the rows it had;
    the row list changes only when that query went through. *)
Theorem failed_load_keeps_rows :
  forall (P : Type) (u : User.t) (p : P) (w : World) (tr : list Effect),
    (forall s : TurmasManager.State,
        fault_at 0 w = ErrorResult ->
        let sys' := exec (TurmasManager.loadTurmas (Some u)) (mkSys (s, p) w tr) in
        TurmasManager.turmas (fst (comp sys')) = TurmasManager.turmas s
        /\ trace sys' = tr ++ [Sent (ReqSelectTurmas (User.id u));
                               ConsoleError "Error loading turmas:";
                               Toast "Erro" "Não foi possível carregar as turmas." true])
    /\ (forall s : TurmasManager.State,
           TurmasManager.turmas
             (fst (comp (exec (TurmasManager.loadTurmas (Some u)) (mkSys (s, p) w tr))))
           <> TurmasManager.turmas s ->
           fault_at 0 w = NoFault)
    /\ (forall s : AtividadesManager.State,
           fault_at 0 w <> Rejects ->
           fault_at 1 w = ErrorResult ->
           let sys' := exec (AtividadesManager.loadData (Some u)) (mkSys (s, p) w tr) in
           AtividadesManager.atividades (fst (comp sys')) = AtividadesManager.atividades s
           /\ exists before,
               trace sys' = tr ++ before ++
                            [Sent (ReqSelectAtividades (User.id u));
                             ConsoleError "Error loading atividades:";
                             Toast "Erro" "Não foi possível carregar as atividades." true]
               /\ forall e, In e before -> is_toast e = false)
    /\ (forall s : AtividadesManager.State,
           AtividadesManager.atividades
             (fst (comp (exec (AtividadesManager.loadData (Some u)) (mkSys (s, p) w tr))))
           <> AtividadesManager.atividades s ->
           fault_at 0 w <> Rejects /\ fault_at 1 w = NoFault).
Proof.
  intros P u p w tr. split; [ | split; [ | split ] ].
  - intros s Hf. now apply loadTurmas_on_error.
  - intros s. apply loadTurmas_replaces_only_on_success.
  - intros s H0 H1. now apply loadData_on_error.
  - intros s. apply loadData_replaces_only_on_success.
Qed.

Lemma failed_load_keeps_rows_witness :
  let s := TurmasManager.mkState [sample_turma] false false None TurmasManager.blank in
  let sys' := exec (TurmasManager.loadTurmas (Some ana))
                   (mkSys (s, tt) (mkWorld empty_db [ErrorResult] []) []) in
  TurmasManager.turmas (fst (comp sys')) = [sample_turma]
  /\ trace sys' = [] ++ [Sent (ReqSelectTurmas "ana");
                         ConsoleError "Error loading turmas:";
                         Toast "Erro" "Não foi possível carregar as turmas." true].
Proof.
  intros s.
  exact (proj1 (failed_load_keeps_rows unit ana tt (mkWorld empty_db [ErrorResult] []) [])
               s eq_refl).
Defined.

(** ** Creating an assignment without a class *)

Lemma no_rows_no_options (auth : option uuid) (teacher : uuid) (d : Store.DB) :
  Store.count_turmas auth teacher d = 0 ->
  AtividadesManager.turma_options auth teacher d = [].
Proof.
  unfold Store.count_turmas, AtividadesManager.turma_options. intros H.
  apply length_zero_iff_nil in H. now rewrite H.
Qed.

(** When the teacher owns no class and the class query goes through, the
    manager's class list is empty after [loadData]. *)
Lemma loadData_without_classes {P : Type} (u : User.t) (s : AtividadesManager.State)
      (p : P) (w : World) (tr : list Effect) :
  Store.count_turmas (uid u) (User.id u) (db w) = 0 ->
  fault_at 0 w = NoFault ->
  AtividadesManager.turmas
    (fst (comp (exec (AtividadesManager.loadData (Some u)) (mkSys (s, p) w tr)))) = [].
Proof.
  destruct w as [d fs ar]. rewrite fault_at_0. cbn [db]. intros Hc Hf.
  apply no_rows_no_options in Hc.
  destruct fs as [|f1 fs]; [ | subst f1 ].
  - cbn. now rewrite Hc.
  - destruct fs as [|[| |] fs]; cbn; now rewrite Hc.
Qed.

Lemma filter_write_app (a b : list Effect) :
  filter is_write b = [] -> filter is_write (a ++ b) = filter is_write a.
Proof. intros H. now rewrite filter_app, H, app_nil_r. Qed.

Lemma loadData_sends_no_write {P : Type} (user : option User.t)
      (sys : Sys (AtividadesManager.State * P)) :
  filter is_write (trace (snd (AtividadesManager.loadData user sys)))
  = filter is_write (trace sys).
Proof.
  destruct sys as [[s p] [d fs ar] tr]. destruct user as [u|]; [ | reflexivity ].
  destruct fs as [|[| |] [|[| |] fs]]; cbn; rewrite <- ?app_assoc;
    now apply filter_write_app.
Qed.

(** C3: whenever the manager's class list is empty, creating an assignment
    is not on offer: the "Nova Atividade" button is disabled, what is shown
    below it is the spinner or the card without a button, a click on either
    create control changes nothing and sends nothing, and with the dialog
    closed no control at all sends a write to the store. *)
Theorem no_class_no_create_action :
  forall (P : Type) (onStatsChange : M P unit) (user : option User.t)
         (s : AtividadesManager.State) (p : P) (w : World) (tr : list Effect),
    AtividadesManager.turmas s = [] ->
    AtividadesManager.novaAtividadeDisabled s = true
    /\ (AtividadesManager.body s = AtividadesManager.Spinner
        \/ AtividadesManager.body s = AtividadesManager.EmptyTurmasCard)
    /\ (forall e,
           e = AtividadesManager.ClickNovaAtividade
           \/ e = AtividadesManager.ClickCriarPrimeiraAtividade ->
           AtividadesManager.offered s e = false
           /\ AtividadesManager.step onStatsChange user e (mkSys (s, p) w tr)
              = (Val tt, mkSys (s, p) w tr))
    /\ (forall e,
           AtividadesManager.isDialogOpen s = false ->
           filter is_write
                  (trace (exec (AtividadesManager.step onStatsChange user e)
                               (mkSys (s, p) w tr)))
           = filter is_write tr).
Proof.
  intros P onStatsChange user s p w tr Ht.
  assert (Hd : AtividadesManager.novaAtividadeDisabled s = true)
    by (unfold AtividadesManager.novaAtividadeDisabled; now rewrite Ht).
  assert (Hb : AtividadesManager.body s = AtividadesManager.Spinner
               \/ AtividadesManager.body s = AtividadesManager.EmptyTurmasCard).
  { unfold AtividadesManager.body. rewrite Ht.
    destruct (AtividadesManager.loading s); [now left | now right]. }
  assert (Hm : AtividadesManager.mounted s = true).
  { unfold AtividadesManager.mounted. now destruct Hb as [-> | ->]. }
  assert (Hoff : forall e,
             e = AtividadesManager.ClickNovaAtividade
             \/ e = AtividadesManager.ClickCriarPrimeiraAtividade ->
             AtividadesManager.offered s e = false).
  { intros e [-> | ->]; unfold AtividadesManager.offered; rewrite Hm; cbn [andb].
    - rewrite Hd. now destruct (AtividadesManager.loading s).
    - now destruct Hb as [-> | ->]. }
  split; [exact Hd | split; [exact Hb | split]].
  - intros e He. split; [now apply Hoff|].
    unfold AtividadesManager.step. rewrite bind_own. cbn [fst comp].
    now rewrite (Hoff e He).
  - intros e Hclosed.
    unfold exec, AtividadesManager.step. rewrite bind_own. cbn [fst comp].
    destruct (AtividadesManager.offered s e) eqn:Ho; [ | reflexivity ].
    unfold AtividadesManager.offered in Ho. rewrite Hm in Ho. cbn [andb] in Ho.
    destruct e; cbn in Ho;
      rewrite ?Hclosed, ?Hd, ?andb_false_r in Ho; try discriminate.
    + apply (loadData_sends_no_write user (mkSys (s, p) w tr)).
    + now destruct Hb as [Hb | Hb]; rewrite Hb in Ho.
    + now destruct Hb as [Hb | Hb]; rewrite Hb in Ho.
    + now destruct Hb as [Hb | Hb]; rewrite Hb in Ho.
Qed.

Lemma no_class_no_create_action_witness :
  let s := AtividadesManager.mkState [] [] false false None AtividadesManager.blank in
  AtividadesManager.novaAtividadeDisabled s = true.
Proof.
  intros s.
  exact (proj1 (no_class_no_create_action Dashboard.State
                  (Dashboard.loadStats (Some ana)) (Some ana) s Dashboard.initial
                  (mkWorld empty_db [] []) [] eq_refl)).
Defined.

(** ** Submitting an assignment *)

(** The title input is [required], so an empty title never reaches
    [handleSubmit] ... *)
Lemma submit_blocked_on_empty_title {P : Type} (onStatsChange : M P unit)
      (user : option User.t) (s : AtividadesManager.State) (p : P) (w : World)
      (tr : list Effect) :
  AtividadesManager.title (AtividadesManager.formData s) = "" ->
  exec (AtividadesManager.step onStatsChange user AtividadesManager.Submit)
       (mkSys (s, p) w tr) = mkSys (s, p) w tr.
Proof.
  intros Ht. unfold exec, AtividadesManager.step. rewrite bind_own. cbn [fst comp].
  destruct (AtividadesManager.offered s AtividadesManager.Submit); [ | reflexivity ].
  cbn. now rewrite Ht.
Qed.

(** ... while [handleSubmit] in Creating state sends the insert built from
    the form whatever the form holds, the class included. *)
Lemma create_submit_sends_insert (u : User.t) (s : AtividadesManager.State)
      (p : Dashboard.State) (w : World) (tr : list Effect) :
  AtividadesManager.editingAtividade s = None ->
  exists rest,
    trace (exec (AtividadesManager.handleSubmit (Dashboard.loadStats (Some u)) (Some u))
                (mkSys (s, p) w tr))
    = tr ++ Sent (ReqInsertAtividade
                    (AtividadesManager.atividadeData (AtividadesManager.formData s) u))
            :: rest.
Proof.
  intros He. unfold exec, AtividadesManager.handleSubmit.
  rewrite bind_own. cbv beta zeta. cbn [fst comp]. rewrite He.
  apply (mutate_then (S := AtividadesManager.State * Dashboard.State)).
  intros r. grows_tac.
Qed.

(** C2: a submission with a title and no class selected is sent.
    Starting from the loaded page with one class, opening the dialog, typing a
    title and submitting issues an insert whose [turma_id] is the empty
    string; the store then refuses it. *)
Theorem submit_without_class_is_sent :
  let sys := exec (AtividadesManager.run (Dashboard.loadStats (Some ana)) (Some ana)
                     [AtividadesManager.UserEffect;
                      AtividadesManager.ClickNovaAtividade;
                      AtividadesManager.Input "title" "Lista 1";
                      AtividadesManager.Submit])
                  (start AtividadesManager.initial db_one_class []) in
  filter is_write (trace sys)
  = [Sent (ReqInsertAtividade
             (AtividadeData.mk "Lista 1" None None (Some (Some "pending")) "" "ana"))]
  /\ filter is_toast (trace sys)
     = [Toast "Erro" "Não foi possível criar a atividade." true]
  /\ AtividadesManager.turma_id (AtividadesManager.formData (fst (comp sys))) = "".
Proof. vm_compute. repeat split. Qed.

(** ** Opening the create dialog *)

(** The trigger button resets the form before the dialog opens. *)
Lemma nova_turma_opens_blank {P : Type} (onStatsChange : M P unit)
      (user : option User.t) (s : TurmasManager.State) (p : P) (w : World)
      (tr : list Effect) :
  TurmasManager.loading s = false ->
  TurmasManager.isDialogOpen s = false ->
  exec (TurmasManager.step onStatsChange user TurmasManager.ClickNovaTurma)
       (mkSys (s, p) w tr)
  = mkSys (TurmasManager.mkState (TurmasManager.turmas s) false true None
                                 TurmasManager.blank, p) w tr.
Proof.
  intros Hl Ho. unfold exec, TurmasManager.step. rewrite bind_own. cbn.
  rewrite Hl, Ho. cbn. now rewrite Hl.
Qed.

Lemma nova_atividade_opens_blank {P : Type} (onStatsChange : M P unit)
      (user : option User.t) (s : AtividadesManager.State) (p : P) (w : World)
      (tr : list Effect) :
  AtividadesManager.mounted s = true ->
  AtividadesManager.loading s = false ->
  AtividadesManager.isDialogOpen s = false ->
  AtividadesManager.turmas s <> [] ->
  exec (AtividadesManager.step onStatsChange user AtividadesManager.ClickNovaAtividade)
       (mkSys (s, p) w tr)
  = mkSys (AtividadesManager.mkState (AtividadesManager.atividades s)
             (AtividadesManager.turmas s) false true None AtividadesManager.blank, p)
          w tr.
Proof.
  intros Hm Hl Ho Ht.
  assert (Hd : AtividadesManager.novaAtividadeDisabled s = false).
  { unfold AtividadesManager.novaAtividadeDisabled.
    destruct (AtividadesManager.turmas s); [now contradiction Ht | reflexivity]. }
  unfold exec, AtividadesManager.step. rewrite bind_own. cbn [fst comp].
  unfold AtividadesManager.offered. rewrite Hm, Hl, Hd. cbn. now rewrite Hl, Ho.
Qed.

(** The empty-state buttons only set [isDialogOpen]. *)
Lemma criar_primeira_turma_only_opens {P : Type} (onStatsChange : M P unit)
      (user : option User.t) (s : TurmasManager.State) (p : P) (w : World)
      (tr : list Effect) :
  TurmasManager.offered s TurmasManager.ClickCriarPrimeiraTurma = true ->
  exec (TurmasManager.step onStatsChange user TurmasManager.ClickCriarPrimeiraTurma)
       (mkSys (s, p) w tr)
  = mkSys (TurmasManager.mkState (TurmasManager.turmas s) (TurmasManager.loading s) true
             (TurmasManager.editingTurma s) (TurmasManager.formData s), p) w tr.
Proof.
  intros Ho. unfold exec, TurmasManager.step. rewrite bind_own. cbn [fst comp].
  now rewrite Ho.
Qed.

Lemma criar_primeira_atividade_only_opens {P : Type} (onStatsChange : M P unit)
      (user : option User.t) (s : AtividadesManager.State) (p : P) (w : World)
      (tr : list Effect) :
  AtividadesManager.offered s AtividadesManager.ClickCriarPrimeiraAtividade = true ->
  exec (AtividadesManager.step onStatsChange user
          AtividadesManager.ClickCriarPrimeiraAtividade)
       (mkSys (s, p) w tr)
  = mkSys (AtividadesManager.mkState (AtividadesManager.atividades s)
             (AtividadesManager.turmas s) (AtividadesManager.loading s) true
             (AtividadesManager.editingAtividade s) (AtividadesManager.formData s), p)
          w tr.
Proof.
  intros Ho. unfold exec, AtividadesManager.step. rewrite bind_own. cbn [fst comp].
  now rewrite Ho.
Qed.

(** C9: the empty-state buttons open the dialog without resetting anything.
    A class is edited, the dialog is dismissed, the class is deleted, and
    "Criar Primeira Turma" then opens the dialog still editing the deleted
    row with its values in the form; the same happens with "Criar Primeira
    Atividade"; and a draft typed before a dismissal is still in the form. *)
Theorem criar_primeira_keeps_stale_form :
  let after_turma :=
    exec (TurmasManager.run (Dashboard.loadStats (Some ana)) (Some ana)
            [TurmasManager.UserEffect;
             TurmasManager.ClickEdit 0;
             TurmasManager.Dismiss;
             TurmasManager.ClickDelete 0 true;
             TurmasManager.ClickCriarPrimeiraTurma])
         (start TurmasManager.initial db_one_class []) in
  let after_atividade :=
    exec (AtividadesManager.run (Dashboard.loadStats (Some ana)) (Some ana)
            [AtividadesManager.UserEffect;
             AtividadesManager.ClickEdit 0;
             AtividadesManager.Dismiss;
             AtividadesManager.ClickDelete 0 true;
             AtividadesManager.ClickCriarPrimeiraAtividade])
         (start AtividadesManager.initial db_one_assignment []) in
  let after_draft :=
    exec (TurmasManager.run (Dashboard.loadStats (Some ana)) (Some ana)
            [TurmasManager.UserEffect;
             TurmasManager.ClickNovaTurma;
             TurmasManager.Input "name" "5º Ano A";
             TurmasManager.Dismiss;
             TurmasManager.ClickCriarPrimeiraTurma])
         (start TurmasManager.initial empty_db []) in
  (TurmasManager.isDialogOpen (fst (comp after_turma)) = true
   /\ TurmasManager.editingTurma (fst (comp after_turma)) = Some sample_turma
   /\ TurmasManager.formData (fst (comp after_turma)) = TurmasManager.form_of sample_turma
   /\ TurmasManager.turmas (fst (comp after_turma)) = []
   /\ Store.turmas (db (world after_turma)) = [])
  /\ (AtividadesManager.isDialogOpen (fst (comp after_atividade)) = true
      /\ AtividadesManager.editingAtividade (fst (comp after_atividade))
         = Some (sample_atividade, Some "5º Ano A")
      /\ AtividadesManager.formData (fst (comp after_atividade))
         = AtividadesManager.form_of (sample_atividade, Some "5º Ano A")
      /\ AtividadesManager.atividades (fst (comp after_atividade)) = [])
  /\ (TurmasManager.isDialogOpen (fst (comp after_draft)) = true
      /\ TurmasManager.formData (fst (comp after_draft))
         = TurmasManager.mkForm "5º Ano A" "" "" "").
Proof. vm_compute. repeat split. Qed.

(** ** The dashboard counts *)

Lemma fault_at_2 (d : Store.DB) (fs : list Fault) (ar : list AuthReply) :
  fault_at 2 (mkWorld d fs ar) =
  match fs with _ :: _ :: f :: _ => f | _ => NoFault end.
Proof. destruct fs as [|f1 [|f2 [|f3 fs]]]; reflexivity. Qed.

Lemma or_zero_some (n : nat) : JS.or_zero (Some n) = n.
Proof. now destruct n. Qed.

Ltac three_faults fs :=
  destruct fs as [|[| |] [|[| |] [|[| |] fs]]].

Ltac tidy_trace :=
  cbn; rewrite <- ?app_assoc, ?filter_app; cbn; rewrite ?app_nil_r.

(** What [loadStats] does, by the way each of its three queries fails: an
    error result shows as 0 next to the counts that were fetched and leaves
    the console alone; a promise that rejects is caught, logged, and leaves
    the three counts as they were. *)
Lemma loadStats_outcomes :
  forall (u : User.t) (s : Dashboard.State) (w : World) (tr : list Effect),
    let sys' := exec (Dashboard.loadStats (Some u)) (mkSys s w tr) in
    filter is_toast (trace sys') = filter is_toast tr
    /\ Dashboard.loading (comp sys') = false
    /\ (fault_at 0 w <> Rejects -> fault_at 1 w <> Rejects -> fault_at 2 w <> Rejects ->
        Dashboard.stats (comp sys')
        = Dashboard.mkStats
            (shown (fault_at 0 w) (Store.count_turmas (uid u) (User.id u) (db w)))
            (shown (fault_at 1 w) (Store.count_atividades (uid u) (User.id u) (db w)))
            (shown (fault_at 2 w) (Store.count_pending (uid u) (User.id u) (db w)))
        /\ filter is_console (trace sys') = filter is_console tr)
    /\ (fault_at 0 w = Rejects \/ fault_at 1 w = Rejects \/ fault_at 2 w = Rejects ->
        Dashboard.stats (comp sys') = Dashboard.stats s
        /\ filter is_console (trace sys')
           = filter is_console tr ++ [ConsoleError "Error loading stats:"]).
Proof.
  intros u s [d fs ar] tr. cbv zeta.
  rewrite fault_at_0, fault_at_1, fault_at_2. cbn [db].
  split; [ | split; [ | split ] ].
  - three_faults fs; tidy_trace; reflexivity.
  - three_faults fs; reflexivity.
  - intros H0 H1 H2.
    three_faults fs; try (now contradiction H0); try (now contradiction H1);
      try (now contradiction H2); tidy_trace; rewrite ?or_zero_some; split; reflexivity.
  - intros H.
    three_faults fs;
      try (destruct H as [H | [H | H]]; discriminate H);
      tidy_trace; split; reflexivity.
Qed.

Lemma shown_failed (f : Fault) (n : nat) : f <> NoFault -> shown f n = 0.
Proof. destruct f; [intros H; now contradiction H | reflexivity | reflexivity]. Qed.

Lemma shown_fetched (n : nat) : shown NoFault n = n.
Proof. apply or_zero_some. Qed.

(** C8: the store client answers a failed query with an error result.  Each
    count whose query fails that way is shown as 0, whatever the dashboard
    showed before; each count whose query goes through is the store's; no
    toast is raised, nothing is written to the console, and the spinner is
    off. *)
Theorem failed_count_shows_zero :
  forall (u : User.t) (s : Dashboard.State) (w : World) (tr : list Effect),
    fault_at 0 w <> Rejects -> fault_at 1 w <> Rejects -> fault_at 2 w <> Rejects ->
    let sys' := exec (Dashboard.loadStats (Some u)) (mkSys s w tr) in
    let shows := Dashboard.stats (comp sys') in
    (fault_at 0 w = ErrorResult -> Dashboard.totalTurmas shows = 0)
    /\ (fault_at 1 w = ErrorResult -> Dashboard.totalAtividades shows = 0)
    /\ (fault_at 2 w = ErrorResult -> Dashboard.atividadesPendentes shows = 0)
    /\ (fault_at 0 w = NoFault ->
        Dashboard.totalTurmas shows = Store.count_turmas (uid u) (User.id u) (db w))
    /\ (fault_at 1 w = NoFault ->
        Dashboard.totalAtividades shows
        = Store.count_atividades (uid u) (User.id u) (db w))
    /\ (fault_at 2 w = NoFault ->
        Dashboard.atividadesPendentes shows
        = Store.count_pending (uid u) (User.id u) (db w))
    /\ filter is_toast (trace sys') = filter is_toast tr
    /\ filter is_console (trace sys') = filter is_console tr
    /\ Dashboard.loading (comp sys') = false.
Proof.
  intros u s w tr H0 H1 H2 sys' shows.
  destruct (loadStats_outcomes u s w tr) as (Htoast & Hload & Hres & _).
  destruct (Hres H0 H1 H2) as [Hstats Hcons].
  subst shows sys'. rewrite Hstats.
  cbn [Dashboard.totalTurmas Dashboard.totalAtividades Dashboard.atividadesPendentes].
  repeat match goal with |- _ /\ _ => split end; try assumption.
  - intros E. apply shown_failed. rewrite E. discriminate.
  - intros E. apply shown_failed. rewrite E. discriminate.
  - intros E. apply shown_failed. rewrite E. discriminate.
  - intros E. rewrite E. apply shown_fetched.
  - intros E. rewrite E. apply shown_fetched.
  - intros E. rewrite E. apply shown_fetched.
Qed.

Lemma failed_count_shows_zero_witness :
  let s := Dashboard.mkState (Dashboard.mkStats 3 5 2) false in
  let w := mkWorld db_one_assignment [ErrorResult; NoFault; ErrorResult] [] in
  let sys' := exec (Dashboard.loadStats (Some ana)) (mkSys s w []) in
  Dashboard.stats (comp sys') = Dashboard.mkStats 0 1 0
  /\ filter is_toast (trace sys') = []
  /\ filter is_console (trace sys') = [].
Proof.
  intros s w sys'.
  pose proof (failed_count_shows_zero ana s w []
                ltac:(cbn; discriminate) ltac:(cbn; discriminate)
                ltac:(cbn; discriminate))
    as (Ht & _ & Hp & _ & Ha & _ & Htoast & Hcons & _).
  cbv zeta in Ht, Hp, Ha. fold sys' in Ht, Hp, Ha, Htoast, Hcons.
  specialize (Ht eq_refl). specialize (Hp eq_refl). specialize (Ha eq_refl).
  split; [ | split; [exact Htoast | exact Hcons] ].
  destruct (Dashboard.stats (comp sys')) as [a b c].
  cbn in Ht, Hp, Ha. now subst.
Defined.

(** ** The status column *)

Lemma mem_In (x : string) (l : list string) : mem x l = true <-> In x l.
Proof.
  unfold mem. rewrite existsb_exists. split.
  - intros (y & Hy & E). apply String.eqb_eq in E. now subst.
  - intros H. exists x. split; [assumption | apply String.eqb_refl].
Qed.

(** The CHECK turns down every text other than the three. *)
Lemma check_status_text (v : string) :
  Store.check_status (Some v) = true
  <-> v = "pending" \/ v = "in_progress" \/ v = "completed".
Proof.
  cbn [Store.check_status]. rewrite mem_In. cbn. intuition congruence.
Qed.

(** The form starts at, and resets to, [pending]; so does a row whose INSERT
    leaves the column out. *)
Lemma status_defaults_to_pending :
  AtividadesManager.status AtividadesManager.blank = Some "pending"
  /\ AtividadesManager.status (AtividadesManager.formData AtividadesManager.initial)
     = Some "pending"
  /\ Store.status_column None = Some "pending".
Proof. repeat split. Qed.

(** The dialog's selector offers exactly the values of the CHECK. *)
Lemma status_items_are_the_checked_values :
  map fst AtividadesManager.statusItems = Store.status_values.
Proof. reflexivity. Qed.

(** Whatever the clients write, each stored status is NULL or one of the
    three texts. *)
Lemma stored_status_admitted (m : Store.Mutation) (d : Store.DB) :
  Forall status_admitted (Store.atividades d) ->
  Forall status_admitted (Store.atividades (snd (Store.apply_mutation m d))).
Proof.
  intros H. destruct m as [auth t|auth id t|auth id|auth a|auth id a|auth id]; cbn.
  - unfold Store.insert_turma.
    repeat match goal with |- context [if ?b then _ else _] => destruct b end; exact H.
  - unfold Store.update_turma.
    repeat match goal with |- context [if ?b then _ else _] => destruct b end; exact H.
  - apply Forall_forall. intros x Hx. apply filter_In in Hx.
    rewrite Forall_forall in H. now apply H.
  - unfold Store.insert_atividade.
    destruct (negb (mem _ _)); [exact H|].
    destruct (negb (mem _ _)); [exact H|].
    destruct (negb (Store.check_status _)) eqn:Ec; [exact H|].
    destruct (mem _ _); [exact H|].
    destruct (negb (Store.policy _ _)); [exact H|].
    cbn. apply Forall_app. split; [exact H|].
    constructor; [ | constructor ].
    apply negb_false_iff in Ec. exact Ec.
  - unfold Store.update_atividade.
    destruct (existsb _ _); [ | exact H ].
    destruct (negb (mem _ _)); [exact H|].
    destruct (negb (mem _ _)); [exact H|].
    destruct (negb (forallb _ _)) eqn:Ec; [exact H|].
    destruct (negb (Store.policy _ _)); [exact H|].
    cbn. apply negb_false_iff in Ec. rewrite forallb_forall in Ec.
    apply Forall_forall. intros x Hx. apply in_map_iff in Hx.
    destruct Hx as (r & <- & Hr). specialize (Ec r Hr).
    destruct (Store.hit_atividade auth id r); cbn in Ec.
    + exact Ec.
    + rewrite Forall_forall in H. now apply H.
  - apply Forall_forall. intros x Hx. apply filter_In in Hx.
    rewrite Forall_forall in H. now apply H.
Qed.

(** C6: the column is nullable and the CHECK lets NULL through, so a row
    whose status is none of the three values can be stored: an INSERT with
    an explicit NULL status is accepted. *)
Theorem null_status_is_stored :
  let r := Store.insert_atividade (Some "ana")
             (AtividadeData.mk "Lista 1" None None (Some None) "id-" "ana")
             db_one_class in
  Store.check_status None = true
  /\ fst r = None
  /\ map Atividade.status (Store.atividades (snd r)) = [None]
  /\ Store.count_atividades (Some "ana") "ana" (snd r) = 1.
Proof. vm_compute. repeat split. Qed.

(** ** The store: ordering, keys and cascade *)

Lemma insert_desc_perm {A : Type} (key : A -> nat) (x : A) (l : list A) :
  Permutation (Store.insert_desc key x l) (x :: l).
Proof.
  induction l as [|y l IH]; cbn [Store.insert_desc].
  - apply Permutation_refl.
  - destruct (key y <? key x).
    + apply Permutation_refl.
    + eapply perm_trans; [ apply perm_skip, IH | apply perm_swap ].
Qed.

Lemma order_desc_perm {A : Type} (key : A -> nat) (l : list A) :
  Permutation (Store.order_desc key l) l.
Proof.
  induction l as [|x l IH]; cbn.
  - apply perm_nil.
  - eapply perm_trans; [ apply insert_desc_perm | now apply perm_skip ].
Qed.

Lemma filter_length_perm {A : Type} (f : A -> bool) (l l' : list A) :
  Permutation l l' -> length (filter f l) = length (filter f l').
Proof.
  induction 1 as [ | x l l' _ IH | x y l | l l' l'' _ IH1 _ IH2 ]; cbn.
  - reflexivity.
  - destruct (f x); cbn; congruence.
  - destruct (f x), (f y); reflexivity.
  - congruence.
Qed.

Lemma filter_none {A : Type} (f : A -> bool) (l : list A) :
  (forall x, In x l -> f x = false) -> filter f l = [].
Proof.
  induction l as [|x l IH]; cbn; intros H; [reflexivity|].
  rewrite (H x (or_introl eq_refl)). apply IH. intros y Hy. apply H. now right.
Qed.

Lemma filter_map_length {A B : Type} (g : A -> B) (f : B -> bool) (l : list A) :
  length (filter f (map g l)) = length (filter (fun x => f (g x)) l).
Proof.
  induction l as [|x l IH]; cbn; [reflexivity|].
  destruct (f (g x)); cbn; congruence.
Qed.

Lemma policy_own (u : User.t) : Store.policy (uid u) (User.id u) = true.
Proof. apply String.eqb_refl. Qed.

(** What an accepted INSERT into [turmas] did. *)
Lemma insert_turma_accepted (auth : option uuid) (t : TurmaData.t) (d : Store.DB) :
  fst (Store.insert_turma auth t d) = None ->
  mem (Store.next_uuid d) (map Turma.id (Store.turmas d)) = false
  /\ Store.policy auth (TurmaData.teacher_id t) = true
  /\ Store.turmas (snd (Store.insert_turma auth t d))
     = Store.turmas d ++
       [Turma.mk (Store.next_uuid d) (TurmaData.teacher_id t) (TurmaData.name t)
                 (TurmaData.description t) (TurmaData.grade_level t)
                 (TurmaData.subject t) (Store.now d) (Store.now d)]
  /\ Store.atividades (snd (Store.insert_turma auth t d)) = Store.atividades d.
Proof.
  unfold Store.insert_turma.
  destruct (negb (mem (TurmaData.teacher_id t) (Store.users d))); [discriminate|].
  destruct (mem (Store.next_uuid d) (map Turma.id (Store.turmas d))); [discriminate|].
  destruct (Store.policy auth (TurmaData.teacher_id t)); [ | discriminate ].
  cbn. intros _. repeat split.
Qed.

Lemma insert_atividade_accepted (auth : option uuid) (a : AtividadeData.t) (d : Store.DB) :
  fst (Store.insert_atividade auth a d) = None ->
  mem (Store.next_uuid d) (map Atividade.id (Store.atividades d)) = false
  /\ Store.policy auth (AtividadeData.teacher_id a) = true
  /\ Store.atividades (snd (Store.insert_atividade auth a d))
     = Store.atividades d ++
       [Atividade.mk (Store.next_uuid d) (AtividadeData.turma_id a)
                     (AtividadeData.teacher_id a) (AtividadeData.title a)
                     (AtividadeData.description a) (AtividadeData.due_date a)
                     (Store.status_column (AtividadeData.status a))
                     (Store.now d) (Store.now d)]
  /\ Store.turmas (snd (Store.insert_atividade auth a d)) = Store.turmas d.
Proof.
  unfold Store.insert_atividade.
  destruct (negb (mem (AtividadeData.turma_id a) _)); [discriminate|].
  destruct (negb (mem (AtividadeData.teacher_id a) _)); [discriminate|].
  destruct (negb (Store.check_status _)); [discriminate|].
  destruct (mem (Store.next_uuid d) _); [discriminate|].
  destruct (Store.policy auth (AtividadeData.teacher_id a)); [ | discriminate ].
  cbn. intros _. repeat split.
Qed.

Lemma fresh_id_unmatched {A : Type} (key : A -> uuid) (id : uuid) (l : list A) :
  mem id (map key l) = false ->
  forall x, In x l -> String.eqb (key x) id = false.
Proof.
  intros Hm x Hx. destruct (String.eqb (key x) id) eqn:E; [ | reflexivity ].
  apply String.eqb_eq in E.
  assert (Hin : mem id (map key l) = true)
    by (apply mem_In; rewrite <- E; now apply in_map).
  congruence.
Qed.

(** The created class is in the teacher's listing exactly once, and the
    teacher's class count goes up by one. *)
Lemma created_turma_listed_once (u : User.t) (f : TurmasManager.FormData) (d : Store.DB) :
  let t := TurmasManager.turmaData f u in
  let d' := snd (Store.insert_turma (uid u) t d) in
  fst (Store.insert_turma (uid u) t d) = None ->
  length (filter (fun r => String.eqb (Turma.id r) (Store.next_uuid d))
                 (Store.select_turmas_ordered (uid u) (User.id u) d')) = 1
  /\ Store.count_turmas (uid u) (User.id u) d'
     = S (Store.count_turmas (uid u) (User.id u) d).
Proof.
  intros t d' Hok.
  destruct (insert_turma_accepted _ _ _ Hok) as (Hfresh & _ & Ht & _).
  fold d' in Ht.
  assert (Hsel : Store.select_turmas (uid u) (User.id u) d'
                 = Store.select_turmas (uid u) (User.id u) d ++
                   [Turma.mk (Store.next_uuid d) (User.id u) (TurmasManager.name f)
                             (JS.or_null (TurmasManager.description f))
                             (JS.or_null (TurmasManager.grade_level f))
                             (JS.or_null (TurmasManager.subject f))
                             (Store.now d) (Store.now d)]).
  { unfold Store.select_turmas. rewrite Ht, filter_app. cbn.
    unfold Store.visible_turma at 2. cbn. now rewrite !String.eqb_refl. }
  split.
  - unfold Store.select_turmas_ordered.
    rewrite (filter_length_perm _ _ _ (order_desc_perm _ _)), Hsel, filter_app, length_app.
    cbn. rewrite String.eqb_refl. cbn.
    rewrite filter_none; [reflexivity|].
    intros x Hx. apply filter_In in Hx.
    now apply (fresh_id_unmatched Turma.id _ (Store.turmas d)).
  - unfold Store.count_turmas. rewrite Hsel, length_app. cbn. lia.
Qed.

Lemma created_atividade_listed_once (u : User.t) (f : AtividadesManager.FormData)
      (d : Store.DB) :
  let a := AtividadesManager.atividadeData f u in
  let d' := snd (Store.insert_atividade (uid u) a d) in
  fst (Store.insert_atividade (uid u) a d) = None ->
  length (filter (fun r : AtividadesManager.Loaded =>
                    String.eqb (Atividade.id (fst r)) (Store.next_uuid d))
                 (Store.select_atividades (uid u) (User.id u) d')) = 1
  /\ Store.count_atividades (uid u) (User.id u) d'
     = S (Store.count_atividades (uid u) (User.id u) d).
Proof.
  intros a d' Hok.
  destruct (insert_atividade_accepted _ _ _ Hok) as (Hfresh & _ & Ha & _).
  fold d' in Ha.
  assert (Hsel : filter (Store.visible_atividade (uid u) (User.id u)) (Store.atividades d')
                 = filter (Store.visible_atividade (uid u) (User.id u)) (Store.atividades d)
                   ++ [Atividade.mk (Store.next_uuid d) (AtividadesManager.turma_id f)
                         (User.id u) (AtividadesManager.title f)
                         (JS.or_null (AtividadesManager.description f))
                         (JS.or_null (AtividadesManager.due_date f))
                         (AtividadesManager.status f) (Store.now d) (Store.now d)]).
  { rewrite Ha, filter_app. cbn.
    unfold Store.visible_atividade at 2. cbn. now rewrite !String.eqb_refl. }
  split.
  - unfold Store.select_atividades.
    rewrite filter_map_length. cbn [fst].
    rewrite (filter_length_perm _ _ _ (order_desc_perm _ _)), Hsel, filter_app, length_app.
    cbn. rewrite String.eqb_refl. cbn.
    rewrite filter_none; [reflexivity|].
    intros x Hx. apply filter_In in Hx.
    now apply (fresh_id_unmatched Atividade.id _ (Store.atividades d)).
  - unfold Store.count_atividades. rewrite Hsel, length_app. cbn. lia.
Qed.

(** ** Requests that go through *)

Lemma pop_calm (w : World) : fault_at 0 w = NoFault -> pop_fault w = (NoFault, served w).
Proof.
  destruct w as [d fs ar]. rewrite fault_at_0.
  destruct fs as [|f fs]; intros H; [reflexivity|]. now subst f.
Qed.

Lemma fault_at_served (i : nat) (w : World) : fault_at i (served w) = fault_at (S i) w.
Proof. destruct w as [d [|f fs] ar]; [ now destruct i | reflexivity ]. Qed.

Lemma calm_head (n : nat) (w : World) : calm (S n) w -> fault_at 0 w = NoFault.
Proof. intros H. apply H. lia. Qed.

Lemma calm_served (n : nat) (w : World) : calm (S n) w -> calm n (served w).
Proof. intros H i Hi. rewrite fault_at_served. apply H. lia. Qed.

Lemma calm_with_db (n : nat) (d : Store.DB) (w : World) : calm n w -> calm n (with_db d w).
Proof. intros H i Hi. exact (H i Hi). Qed.

Lemma query_calm {S A : Type} (r : Request) (run : Store.DB -> A) (sys : Sys S) :
  fault_at 0 (world sys) = NoFault ->
  query r run sys
  = (Val (mkResp (Some (run (db (world sys)))) None),
     mkSys (comp sys) (served (world sys)) (trace sys ++ [Sent r])).
Proof. intros H. unfold query. now rewrite (pop_calm _ H). Qed.

Lemma mutate_calm {S : Type} (r : Request) run (sys : Sys S) :
  fault_at 0 (world sys) = NoFault ->
  @mutate S r run sys
  = (Val (mkResp None (fst (run (db (world sys))))),
     mkSys (comp sys) (with_db (snd (run (db (world sys)))) (served (world sys)))
           (trace sys ++ [Sent r])).
Proof.
  intros H. unfold mutate. rewrite (pop_calm _ H). cbn [db served].
  now destruct (run (db (world sys))).
Qed.

Lemma bind_val {S A B : Type} (m : M S A) (k : A -> M S B) (sys sys' : Sys S) (a : A) :
  m sys = (Val a, sys') -> bind m k sys = k a sys'.
Proof. intros H. unfold bind. now rewrite H. Qed.

Lemma spawn_val {S : Type} (m : M S unit) (sys sys' : Sys S) (r : Res unit) :
  m sys = (r, sys') -> spawn m sys = (Val tt, sys').
Proof. intros H. unfold spawn. now rewrite H. Qed.

Lemma loadTurmas_calm {P : Type} (u : User.t) (s : TurmasManager.State) (p : P)
      (w : World) (tr : list Effect) :
  fault_at 0 w = NoFault ->
  TurmasManager.loadTurmas (Some u) (mkSys (s, p) w tr)
  = (Val tt,
     mkSys (TurmasManager.mkState
              (Store.select_turmas_ordered (uid u) (User.id u) (db w)) false
              (TurmasManager.isDialogOpen s) (TurmasManager.editingTurma s)
              (TurmasManager.formData s), p)
           (served w) (tr ++ [Sent (ReqSelectTurmas (User.id u))])).
Proof.
  intros H. unfold TurmasManager.loadTurmas.
  erewrite bind_val by reflexivity.
  erewrite bind_val by (apply query_calm; exact H).
  reflexivity.
Qed.

Lemma loadData_calm {P : Type} (u : User.t) (s : AtividadesManager.State) (p : P)
      (w : World) (tr : list Effect) :
  calm 2 w ->
  AtividadesManager.loadData (Some u) (mkSys (s, p) w tr)
  = (Val tt,
     mkSys (AtividadesManager.mkState
              (Store.select_atividades (uid u) (User.id u) (db w))
              (AtividadesManager.turma_options (uid u) (User.id u) (db w)) false
              (AtividadesManager.isDialogOpen s) (AtividadesManager.editingAtividade s)
              (AtividadesManager.formData s), p)
           (served (served w))
           (tr ++ [Sent (ReqSelectTurmaOptions (User.id u));
                   Sent (ReqSelectAtividades (User.id u))])).
Proof.
  intros H. unfold AtividadesManager.loadData.
  erewrite bind_val by reflexivity.
  erewrite bind_val by (apply query_calm; exact (calm_head _ _ H)).
  cbn [error data JS.or_nil].
  erewrite bind_val by reflexivity.
  erewrite bind_val
    by (apply query_calm; exact (calm_head _ _ (calm_served _ _ H))).
  cbn. now rewrite <- app_assoc.
Qed.

Lemma loadStats_calm (u : User.t) (s : Dashboard.State) (w : World) (tr : list Effect) :
  calm 3 w ->
  Dashboard.loadStats (Some u) (mkSys s w tr)
  = (Val tt,
     mkSys (Dashboard.mkState
              (Dashboard.mkStats (Store.count_turmas (uid u) (User.id u) (db w))
                                 (Store.count_atividades (uid u) (User.id u) (db w))
                                 (Store.count_pending (uid u) (User.id u) (db w)))
              false)
           (served (served (served w)))
           (tr ++ [Sent (ReqCountTurmas (User.id u));
                   Sent (ReqCountAtividades (User.id u));
                   Sent (ReqCountPending (User.id u))])).
Proof.
  intros H. unfold Dashboard.loadStats, try_catch_finally.
  pose proof (calm_head _ _ H) as H0.
  pose proof (calm_head _ _ (calm_served _ _ H)) as H1.
  pose proof (calm_head _ _ (calm_served _ _ (calm_served _ _ H))) as H2.
  erewrite bind_val by (apply query_calm; exact H0).
  erewrite bind_val by (apply query_calm; exact H1).
  erewrite bind_val by (apply query_calm; exact H2).
  cbn -[JS.or_zero]. rewrite !or_zero_some, <- !app_assoc. reflexivity.
Qed.

(** The insert branch of the class manager's [handleSubmit], when nothing
    fails: the list is reloaded and the counts are recomputed from the store
    as the insert left it. *)
Lemma turma_create_flow (u : User.t) (s : TurmasManager.State) (p : Dashboard.State)
      (w : World) (tr : list Effect) :
  calm 5 w ->
  TurmasManager.editingTurma s = None ->
  fst (Store.insert_turma (uid u) (TurmasManager.turmaData (TurmasManager.formData s) u)
                          (db w)) = None ->
  let d' := snd (Store.insert_turma (uid u)
                   (TurmasManager.turmaData (TurmasManager.formData s) u) (db w)) in
  let sys' := exec (TurmasManager.handleSubmit (Dashboard.loadStats (Some u)) (Some u))
                   (mkSys (s, p) w tr) in
  TurmasManager.turmas (fst (comp sys'))
  = Store.select_turmas_ordered (uid u) (User.id u) d'
  /\ Dashboard.totalTurmas (Dashboard.stats (snd (comp sys')))
     = Store.count_turmas (uid u) (User.id u) d'
  /\ TurmasManager.isDialogOpen (fst (comp sys')) = false
  /\ db (world sys') = d'.
Proof.
  intros Hc He Hok d' sys'. subst sys'. unfold exec, TurmasManager.handleSubmit.
  rewrite bind_own. cbv beta zeta. cbn [fst comp]. rewrite He.
  erewrite bind_val by (apply mutate_calm; exact (calm_head _ _ Hc)).
  cbn [error world db]. rewrite Hok. fold d'.
  apply calm_served in Hc.
  erewrite bind_val by reflexivity.
  erewrite bind_val
    by (eapply spawn_val; apply loadTurmas_calm; exact (calm_head _ _ Hc)).
  apply calm_served in Hc.
  erewrite bind_val
    by (eapply spawn_val; unfold in_parent; cbn [comp snd world trace];
        rewrite loadStats_calm by exact Hc; reflexivity).
  cbn. repeat split.
Qed.

Lemma atividade_create_flow (u : User.t) (s : AtividadesManager.State)
      (p : Dashboard.State) (w : World) (tr : list Effect) :
  calm 6 w ->
  AtividadesManager.editingAtividade s = None ->
  fst (Store.insert_atividade (uid u)
         (AtividadesManager.atividadeData (AtividadesManager.formData s) u) (db w)) = None ->
  let d' := snd (Store.insert_atividade (uid u)
                   (AtividadesManager.atividadeData (AtividadesManager.formData s) u)
                   (db w)) in
  let sys' := exec (AtividadesManager.handleSubmit (Dashboard.loadStats (Some u)) (Some u))
                   (mkSys (s, p) w tr) in
  AtividadesManager.atividades (fst (comp sys'))
  = Store.select_atividades (uid u) (User.id u) d'
  /\ Dashboard.totalAtividades (Dashboard.stats (snd (comp sys')))
     = Store.count_atividades (uid u) (User.id u) d'
  /\ AtividadesManager.isDialogOpen (fst (comp sys')) = false
  /\ db (world sys') = d'.
Proof.
  intros Hc He Hok d' sys'. subst sys'. unfold exec, AtividadesManager.handleSubmit.
  rewrite bind_own. cbv beta zeta. cbn [fst comp]. rewrite He.
  erewrite bind_val by (apply mutate_calm; exact (calm_head _ _ Hc)).
  cbn [error world db]. rewrite Hok. fold d'.
  apply calm_served in Hc.
  erewrite bind_val by reflexivity.
  erewrite bind_val
    by (eapply spawn_val; apply loadData_calm; intros i Hi; apply Hc; lia).
  apply calm_served, calm_served in Hc.
  erewrite bind_val
    by (eapply spawn_val; unfold in_parent; cbn [comp snd world trace];
        rewrite loadStats_calm by exact Hc; reflexivity).
  cbn. repeat split.
Qed.

(** C5: for classes and for assignments, when a submission in Creating state
    is accepted by the store and the reload that follows goes through, the
    reloaded list holds the new row exactly once and the dashboard's count
    for that resource is one more than the store held before. *)
Theorem created_row_listed_once_and_counted :
  forall (u : User.t) (p : Dashboard.State) (w : World) (tr : list Effect),
    calm 6 w ->
    (forall s : TurmasManager.State,
        TurmasManager.editingTurma s = None ->
        fst (Store.insert_turma (uid u)
               (TurmasManager.turmaData (TurmasManager.formData s) u) (db w)) = None ->
        let sys' := exec (TurmasManager.handleSubmit (Dashboard.loadStats (Some u))
                                                     (Some u))
                         (mkSys (s, p) w tr) in
        length (filter (fun r => String.eqb (Turma.id r) (Store.next_uuid (db w)))
                       (TurmasManager.turmas (fst (comp sys')))) = 1
        /\ Dashboard.totalTurmas (Dashboard.stats (snd (comp sys')))
           = S (Store.count_turmas (uid u) (User.id u) (db w)))
    /\ (forall s : AtividadesManager.State,
           AtividadesManager.editingAtividade s = None ->
           fst (Store.insert_atividade (uid u)
                  (AtividadesManager.atividadeData (AtividadesManager.formData s) u)
                  (db w)) = None ->
           let sys' := exec (AtividadesManager.handleSubmit
                               (Dashboard.loadStats (Some u)) (Some u))
                            (mkSys (s, p) w tr) in
           length (filter (fun r : AtividadesManager.Loaded =>
                             String.eqb (Atividade.id (fst r)) (Store.next_uuid (db w)))
                          (AtividadesManager.atividades (fst (comp sys')))) = 1
           /\ Dashboard.totalAtividades (Dashboard.stats (snd (comp sys')))
              = S (Store.count_atividades (uid u) (User.id u) (db w))).
Proof.
  intros u p w tr Hc. split.
  - intros s He Hok sys'.
    assert (Hc5 : calm 5 w) by (intros i Hi; apply Hc; lia).
    destruct (turma_create_flow u s p w tr Hc5 He Hok) as (Hl & Hn & _ & _).
    destruct (created_turma_listed_once u (TurmasManager.formData s) (db w) Hok)
      as (H1 & H2).
    subst sys'. rewrite Hl, Hn. split; assumption.
  - intros s He Hok sys'.
    destruct (atividade_create_flow u s p w tr Hc He Hok) as (Hl & Hn & _ & _).
    destruct (created_atividade_listed_once u (AtividadesManager.formData s) (db w) Hok)
      as (H1 & H2).
    subst sys'. rewrite Hl, Hn. split; assumption.
Qed.

Lemma calm_no_faults (n : nat) (d : Store.DB) (ar : list AuthReply) :
  calm n (mkWorld d [] ar).
Proof. intros i _. now destruct i. Qed.

Lemma created_row_listed_once_and_counted_witness :
  let s := AtividadesManager.mkState [] [TurmaOption.mk "id-" "5º Ano A"] false true None
             (AtividadesManager.mkForm "Lista 1" "" "" (Some "pending") "id-") in
  let sys' := exec (AtividadesManager.handleSubmit (Dashboard.loadStats (Some ana))
                                                   (Some ana))
                   (mkSys (s, Dashboard.initial) (mkWorld db_one_class [] []) []) in
  length (filter (fun r : AtividadesManager.Loaded =>
                    String.eqb (Atividade.id (fst r)) (Store.next_uuid db_one_class))
                 (AtividadesManager.atividades (fst (comp sys')))) = 1
  /\ Dashboard.totalAtividades (Dashboard.stats (snd (comp sys')))
     = S (Store.count_atividades (uid ana) (User.id ana) db_one_class).
Proof.
  intros s.
  exact (proj2 (created_row_listed_once_and_counted ana Dashboard.initial
                  (mkWorld db_one_class [] []) []
                  (calm_no_faults 6 db_one_class []))
               s eq_refl eq_refl).
Defined.

(** ** Cascade on deleting a class *)

Lemma src_kept (m : Store.Mutation) (d : Store.DB) :
  Store.uuid_src (snd (Store.apply_mutation m d)) = Store.uuid_src d.
Proof.
  destruct m; cbn;
    unfold Store.insert_turma, Store.update_turma, Store.insert_atividade,
      Store.update_atividade;
    repeat match goal with |- context [if ?b then _ else _] => destruct b end;
    reflexivity.
Qed.

Lemma ix_grows (m : Store.Mutation) (d : Store.DB) :
  Store.uuid_ix d <= Store.uuid_ix (snd (Store.apply_mutation m d)).
Proof.
  destruct m; cbn;
    unfold Store.insert_turma, Store.update_turma, Store.insert_atividade,
      Store.update_atividade;
    repeat match goal with |- context [if ?b then _ else _] => destruct b end;
    cbn; lia.
Qed.

Lemma patched_ids (f : Turma.row -> bool) (t : TurmaData.t) (n : nat) (l : list Turma.row) :
  map Turma.id (map (fun r => if f r then Store.patch_turma t n r else r) l)
  = map Turma.id l.
Proof.
  rewrite map_map. apply map_ext. intros r. now destruct (f r).
Qed.

(** Where a class row found after a write comes from: it carries the id of
    a row that was there, or the id just drawn. *)
Lemma turma_ids_after (m : Store.Mutation) (d : Store.DB) (id : uuid) :
  In id (map Turma.id (Store.turmas (snd (Store.apply_mutation m d)))) ->
  In id (map Turma.id (Store.turmas d))
  \/ (id = Store.next_uuid d
      /\ Store.uuid_ix d < Store.uuid_ix (snd (Store.apply_mutation m d))).
Proof.
  destruct m as [auth t|auth k t|auth k|auth a|auth k a|auth k]; cbn.
  - unfold Store.insert_turma.
    repeat match goal with |- context [if ?b then _ else _] => destruct b end;
      cbn; try tauto.
    rewrite map_app, in_app_iff. cbn. intuition.
  - unfold Store.update_turma.
    repeat match goal with |- context [if ?b then _ else _] => destruct b end;
      cbn; try tauto.
    rewrite patched_ids. tauto.
  - intros H. left. apply in_map_iff in H. destruct H as (r & <- & Hr).
    apply filter_In in Hr. apply in_map. tauto.
  - unfold Store.insert_atividade.
    repeat match goal with |- context [if ?b then _ else _] => destruct b end;
      cbn; tauto.
  - unfold Store.update_atividade.
    repeat match goal with |- context [if ?b then _ else _] => destruct b end;
      cbn; tauto.
  - tauto.
Qed.

(** Where an assignment row found after a write comes from: it was there,
    or it passed the foreign-key check against the classes then present. *)
Lemma atividades_after (m : Store.Mutation) (d : Store.DB) (a : Atividade.row) :
  In a (Store.atividades (snd (Store.apply_mutation m d))) ->
  In a (Store.atividades d)
  \/ In (Atividade.turma_id a) (map Turma.id (Store.turmas d)).
Proof.
  destruct m as [auth t|auth k t|auth k|auth x|auth k x|auth k]; cbn.
  - unfold Store.insert_turma.
    repeat match goal with |- context [if ?b then _ else _] => destruct b end;
      cbn; tauto.
  - unfold Store.update_turma.
    repeat match goal with |- context [if ?b then _ else _] => destruct b end;
      cbn; tauto.
  - intros H. apply filter_In in H. tauto.
  - unfold Store.insert_atividade.
    destruct (negb (mem (AtividadeData.turma_id x) _)) eqn:Efk; [cbn; tauto|].
    repeat match goal with |- context [if ?b then _ else _] => destruct b end;
      cbn; try tauto.
    rewrite in_app_iff. cbn. intros [H | [<- | []]]; [now left | right]. cbn.
    apply negb_false_iff in Efk. now apply mem_In.
  - unfold Store.update_atividade.
    destruct (existsb _ _); [ | cbn; tauto ].
    destruct (negb (mem (AtividadeData.turma_id x) _)) eqn:Efk; [cbn; tauto|].
    repeat match goal with |- context [if ?b then _ else _] => destruct b end;
      cbn; try tauto.
    intros H. apply in_map_iff in H. destruct H as (r & <- & Hr).
    destruct (Store.hit_atividade auth k r); [ right | now left ]. cbn.
    apply negb_false_iff in Efk. now apply mem_In.
  - intros H. apply filter_In in H. tauto.
Qed.

Lemma retired_kept (c : uuid) (m : Store.Mutation) (d : Store.DB) :
  retired c d -> retired c (snd (Store.apply_mutation m d)).
Proof.
  intros [Hs Hk Hr]. constructor.
  - intros n Hn. rewrite src_kept. apply Hs.
    pose proof (ix_grows m d). lia.
  - intros Hin. apply turma_ids_after in Hin. destruct Hin as [Hin | [-> _]].
    + now apply Hk.
    + now apply (Hs (Store.uuid_ix d) (Nat.le_refl _)).
  - intros a Ha E. apply atividades_after in Ha. destruct Ha as [Ha | Ha].
    + now apply (Hr a Ha).
    + rewrite E in Ha. now apply Hk.
Qed.

Lemma retired_run (c : uuid) (ms : list Store.Mutation) (d : Store.DB) :
  retired c d -> retired c (Store.run_mutations ms d).
Proof.
  revert d. induction ms as [|m ms IH]; intros d H; cbn.
  - exact H.
  - apply IH. now apply retired_kept.
Qed.

Lemma key_determines_row {A : Type} (key : A -> uuid) (l : list A) (x y : A) :
  NoDup (map key l) -> In x l -> In y l -> key x = key y -> x = y.
Proof.
  induction l as [|z l IH]; cbn; intros Hnd Hx Hy E; [contradiction|].
  inversion Hnd as [|? ? Hnotin Hnd']; subst.
  destruct Hx as [-> | Hx], Hy as [-> | Hy].
  - reflexivity.
  - exfalso. apply Hnotin. rewrite E. now apply in_map.
  - exfalso. apply Hnotin. rewrite <- E. now apply in_map.
  - now apply IH.
Qed.

(** Deleting one's own class retires its id: the row is gone, the rows that
    referenced it are gone, and the id will not be drawn again. *)
Lemma delete_retires (d : Store.DB) (auth : option uuid) (c : Turma.row) :
  wf d ->
  In c (Store.turmas d) ->
  Store.policy auth (Turma.teacher_id c) = true ->
  retired (Turma.id c) (snd (Store.delete_turma auth (Turma.id c) d)).
Proof.
  intros [Hsrc Hdrawn Hkey] Hc Hp.
  assert (Hhit : Store.hit_turma auth (Turma.id c) c = true)
    by (unfold Store.hit_turma; now rewrite String.eqb_refl, Hp).
  constructor; cbn.
  - intros n Hn E. destruct (Hdrawn c Hc) as (k & Hk & Ek).
    rewrite <- Ek in E. apply Hsrc in E. lia.
  - intros Hin. apply in_map_iff in Hin. destruct Hin as (r & Er & Hr).
    apply filter_In in Hr. destruct Hr as [Hr Hnot].
    assert (r = c) by (eapply key_determines_row; eauto). subst r.
    now rewrite Hhit in Hnot.
  - intros a Ha E. apply filter_In in Ha. destruct Ha as [_ Hnot].
    apply negb_true_iff in Hnot.
    assert (Hin : mem (Atividade.turma_id a)
                      (map Turma.id (filter (Store.hit_turma auth (Turma.id c))
                                            (Store.turmas d))) = true).
    { apply mem_In. rewrite E. apply in_map. apply filter_In. now split. }
    congruence.
Qed.

Lemma listed_is_stored (viewer : option uuid) (teacher : uuid) (d : Store.DB)
      (a : AtividadesManager.Loaded) :
  In a (Store.select_atividades viewer teacher d) -> In (fst a) (Store.atividades d).
Proof.
  unfold Store.select_atividades. intros H.
  apply in_map_iff in H. destruct H as (r & <- & Hr). cbn.
  apply (Permutation_in _ (order_desc_perm _ _)) in Hr.
  apply filter_In in Hr. tauto.
Qed.

(** *** Reads leave the tables alone *)

Lemma reads_ret {S A : Type} (a : A) : reads_only (@ret S A a).
Proof. intros sys. reflexivity. Qed.

Lemma reads_bind {S A B : Type} (m : M S A) (k : A -> M S B) :
  reads_only m -> (forall a, reads_only (k a)) -> reads_only (bind m k).
Proof.
  intros Hm Hk sys. unfold bind. specialize (Hm sys).
  destruct (m sys) as [[a|] sys1]; cbn in *.
  - now rewrite Hk.
  - exact Hm.
Qed.

Lemma reads_modify {S : Type} (f : S -> S) : reads_only (modify f).
Proof. intros sys. reflexivity. Qed.

Lemma reads_set_own {S P : Type} (f : S -> S) : reads_only (@set_own S P f).
Proof. intros sys. reflexivity. Qed.

Lemma reads_emit {S : Type} (e : Effect) : reads_only (@emit S e).
Proof. intros sys. reflexivity. Qed.

Lemma reads_query {S A : Type} (r : Request) (run : Store.DB -> A) :
  reads_only (@query S A r run).
Proof.
  intros [c [d fs ar] tr]. unfold query, pop_fault. cbn.
  destruct fs as [|[| |] fs]; reflexivity.
Qed.

Lemma reads_spawn {S : Type} (m : M S unit) : reads_only m -> reads_only (spawn m).
Proof. intros H sys. exact (H sys). Qed.

Lemma reads_in_parent {S P A : Type} (m : M P A) :
  reads_only m -> reads_only (@in_parent S P A m).
Proof.
  intros H sys. unfold in_parent.
  specialize (H (mkSys (snd (comp sys)) (world sys) (trace sys))).
  now destruct (m _) as [r sys'].
Qed.

Lemma reads_try {S : Type} (body handler final : M S unit) :
  reads_only body -> reads_only handler -> reads_only final ->
  reads_only (try_catch_finally body handler final).
Proof.
  intros Hb Hh Hf sys. unfold try_catch_finally.
  specialize (Hb sys). destruct (body sys) as [[[]|] sys1]; cbn in Hb.
  - now rewrite Hf.
  - specialize (Hh sys1). destruct (handler sys1) as [[[]|] sys2]; cbn in Hh; cbn;
      now rewrite Hf, Hh.
Qed.

Create HintDb reads discriminated.
#[local] Hint Resolve reads_ret reads_modify reads_set_own reads_emit reads_query
  reads_spawn reads_in_parent reads_try : reads.

Ltac reads_step :=
  match goal with
  | |- reads_only (bind _ _) => apply reads_bind; [ | intro ]
  | |- reads_only (match ?x with _ => _ end) => destruct x
  | |- reads_only (toast _ _ _) => apply reads_emit
  | |- reads_only (console_error _) => apply reads_emit
  | |- reads_only _ => solve [ auto with reads ]
  end.

Ltac reads_tac := repeat reads_step.

Lemma reads_loadStats (user : option User.t) : reads_only (Dashboard.loadStats user).
Proof.
  unfold Dashboard.loadStats, Dashboard.setStats, Dashboard.setLoading.
  destruct user; [ apply reads_try | ]; reads_tac.
Qed.

Lemma reads_loadTurmas {P : Type} (user : option User.t) :
  reads_only (@TurmasManager.loadTurmas P user).
Proof.
  unfold TurmasManager.loadTurmas, TurmasManager.setLoading, TurmasManager.setTurmas.
  reads_tac.
Qed.

Lemma reads_loadData {P : Type} (user : option User.t) :
  reads_only (@AtividadesManager.loadData P user).
Proof.
  unfold AtividadesManager.loadData, AtividadesManager.setLoading,
    AtividadesManager.setTurmas, AtividadesManager.setAtividades.
  reads_tac.
Qed.

#[local] Hint Resolve reads_loadStats reads_loadTurmas reads_loadData : reads.

(** The class manager's [handleDelete], confirmed and not struck by a fault,
    is the store's delete under the user's identity. *)
Lemma handleDelete_reaches_store (u : User.t) (s : TurmasManager.State)
      (p : Dashboard.State) (w : World) (tr : list Effect) (id : uuid) :
  fault_at 0 w = NoFault ->
  db (world (exec (TurmasManager.handleDelete (Dashboard.loadStats (Some u)) (Some u)
                                              true id)
                  (mkSys (s, p) w tr)))
  = snd (Store.delete_turma (uid u) id (db w)).
Proof.
  intros H0. unfold exec, TurmasManager.handleDelete. cbn [negb].
  erewrite bind_val by (apply mutate_calm; exact H0).
  cbn [error fst Store.delete_turma TurmasManager.session].
  match goal with
  | |- db (world (snd (?m ?sys))) = _ =>
      assert (Hr : reads_only m) by reads_tac; rewrite (Hr sys)
  end.
  reflexivity.
Qed.

(** C7: once a teacher's delete of one of their classes has gone through,
    no listing of assignments, for any viewer and after any further writes
    by any client, contains an assignment of that class. *)
Theorem deleted_class_assignments_stay_absent :
  forall (d : Store.DB) (u : User.t) (c : Turma.row),
    wf d ->
    In c (Store.turmas d) ->
    Turma.teacher_id c = User.id u ->
    let d' := snd (Store.delete_turma (uid u) (Turma.id c) d) in
    (forall (s : TurmasManager.State) (p : Dashboard.State) (fs : list Fault)
            (ar : list AuthReply) (tr : list Effect),
        fault_at 0 (mkWorld d fs ar) = NoFault ->
        db (world (exec (TurmasManager.handleDelete (Dashboard.loadStats (Some u))
                                                    (Some u) true (Turma.id c))
                        (mkSys (s, p) (mkWorld d fs ar) tr))) = d')
    /\ fst (Store.delete_turma (uid u) (Turma.id c) d) = None
    /\ (forall (later : list Store.Mutation) (viewer : option uuid) (teacher : uuid)
               (a : AtividadesManager.Loaded),
           In a (Store.select_atividades viewer teacher (Store.run_mutations later d')) ->
           Atividade.turma_id (fst a) <> Turma.id c)
    /\ (forall (later : list Store.Mutation) (v : User.t) (s : AtividadesManager.State)
               (p : Dashboard.State) (w : World) (tr : list Effect)
               (a : AtividadesManager.Loaded),
           db w = Store.run_mutations later d' ->
           calm 2 w ->
           In a (AtividadesManager.atividades
                   (fst (comp (exec (AtividadesManager.loadData (Some v))
                                    (mkSys (s, p) w tr))))) ->
           Atividade.turma_id (fst a) <> Turma.id c).
Proof.
  intros d u c Hwf Hc Hown d'.
  assert (Hret : retired (Turma.id c) d').
  { apply delete_retires; try assumption. rewrite Hown. apply policy_own. }
  assert (Hlist : forall later viewer teacher a,
             In a (Store.select_atividades viewer teacher (Store.run_mutations later d')) ->
             Atividade.turma_id (fst a) <> Turma.id c).
  { intros later viewer teacher a Ha.
    apply listed_is_stored in Ha.
    exact (retired_ref (retired_run _ later _ Hret) _ Ha). }
  split; [ | split; [ | split ] ].
  - intros s p fs ar tr H0.
    exact (handleDelete_reaches_store u s p (mkWorld d fs ar) tr (Turma.id c) H0).
  - reflexivity.
  - exact Hlist.
  - intros later v s p w tr a Hdb Hcalm Ha.
    unfold exec in Ha. rewrite (loadData_calm v s p w tr Hcalm) in Ha.
    cbn in Ha. rewrite Hdb in Ha. exact (Hlist later _ _ a Ha).
Qed.

(** *** Well-formedness is kept by every write, and the samples have it *)

Lemma NoDup_map_filter {A : Type} (key : A -> uuid) (f : A -> bool) (l : list A) :
  NoDup (map key l) -> NoDup (map key (filter f l)).
Proof.
  induction l as [|x l IH]; cbn; intros H; [constructor|].
  inversion H as [|? ? Hnotin Hnd]; subst.
  destruct (f x); cbn; [ constructor | ]; auto.
  intros Hin. apply Hnotin. apply in_map_iff in Hin. destruct Hin as (y & E & Hy).
  apply filter_In in Hy. rewrite <- E. apply in_map. tauto.
Qed.

Lemma NoDup_snoc (id : uuid) (l : list uuid) :
  NoDup l -> ~ In id l -> NoDup (l ++ [id]).
Proof.
  intros Hl Hid. apply NoDup_app; [ exact Hl | repeat constructor; intros [] | ].
  intros x Hx [<- | []]. contradiction.
Qed.

Lemma key_kept (m : Store.Mutation) (d : Store.DB) :
  NoDup (map Turma.id (Store.turmas d)) ->
  NoDup (map Turma.id (Store.turmas (snd (Store.apply_mutation m d)))).
Proof.
  intros H. destruct m as [auth t|auth k t|auth k|auth a|auth k a|auth k]; cbn.
  - unfold Store.insert_turma.
    destruct (negb (mem _ _)); [exact H|].
    destruct (mem (Store.next_uuid d) _) eqn:Em; [exact H|].
    destruct (negb (Store.policy _ _)); [exact H|].
    cbn. rewrite map_app. cbn. apply NoDup_snoc; [exact H|].
    intros Hin. apply mem_In in Hin. congruence.
  - unfold Store.update_turma.
    repeat match goal with |- context [if ?b then _ else _] => destruct b end;
      cbn; try exact H.
    now rewrite patched_ids.
  - now apply NoDup_map_filter.
  - unfold Store.insert_atividade.
    repeat match goal with |- context [if ?b then _ else _] => destruct b end; exact H.
  - unfold Store.update_atividade.
    repeat match goal with |- context [if ?b then _ else _] => destruct b end; exact H.
  - exact H.
Qed.

Lemma wf_kept (m : Store.Mutation) (d : Store.DB) :
  wf d -> wf (snd (Store.apply_mutation m d)).
Proof.
  intros [Hsrc Hdrawn Hkey]. constructor.
  - intros i j. rewrite !src_kept. apply Hsrc.
  - intros r Hr. rewrite src_kept.
    assert (Hin : In (Turma.id r)
                     (map Turma.id (Store.turmas (snd (Store.apply_mutation m d)))))
      by now apply in_map.
    apply turma_ids_after in Hin. destruct Hin as [Hin | [E Hlt]].
    + apply in_map_iff in Hin. destruct Hin as (r0 & E0 & Hr0).
      destruct (Hdrawn r0 Hr0) as (n & Hn & En).
      exists n. pose proof (ix_grows m d). split; [lia | congruence].
    + exists (Store.uuid_ix d). split; [exact Hlt | now rewrite E].
  - now apply key_kept.
Qed.

Lemma tally_injective (m n : nat) : tally m = tally n -> m = n.
Proof.
  revert n. induction m as [|m IH]; destruct n as [|n]; cbn; intros H;
    try discriminate; [reflexivity|].
  injection H as H. f_equal. now apply IH.
Qed.

Lemma sample_uuid_injective (m n : nat) : sample_uuid m = sample_uuid n -> m = n.
Proof.
  unfold sample_uuid. cbn. intros H. injection H as H. now apply tally_injective.
Qed.

Lemma wf_empty_db : wf empty_db.
Proof.
  constructor; cbn.
  - exact sample_uuid_injective.
  - intros r [].
  - constructor.
Qed.

Lemma wf_db_one_assignment : wf db_one_assignment.
Proof.
  constructor; cbn.
  - exact sample_uuid_injective.
  - intros r [<- | []]. exists 0. split; [lia | reflexivity].
  - repeat constructor. intros [].
Qed.

Lemma deleted_class_assignments_stay_absent_witness :
  let d' := snd (Store.delete_turma (uid ana) (Turma.id sample_turma) db_one_assignment) in
  let later := [Store.InsertTurma (Some "ana")
                  (TurmaData.mk "6º Ano B" None None None "ana")] in
  db (world (exec (TurmasManager.handleDelete (Dashboard.loadStats (Some ana))
                                              (Some ana) true (Turma.id sample_turma))
                  (mkSys (TurmasManager.initial, Dashboard.initial)
                         (mkWorld db_one_assignment [] []) []))) = d'
  /\ Forall (fun a : AtividadesManager.Loaded =>
               Atividade.turma_id (fst a) <> Turma.id sample_turma)
            (Store.select_atividades (Some "ana") "ana" (Store.run_mutations later d')).
Proof.
  intros d' later.
  pose proof (deleted_class_assignments_stay_absent db_one_assignment ana sample_turma
                wf_db_one_assignment (or_introl eq_refl) eq_refl) as (H1 & _ & H3 & _).
  split.
  - exact (H1 TurmasManager.initial Dashboard.initial [] [] [] eq_refl).
  - apply Forall_forall. intros a Ha. exact (H3 later (Some "ana") "ana" a Ha).
Defined.

(** * Further properties *)

(** ** Row-level security on reads *)

Lemma policy_true (auth : option uuid) (owner : uuid) :
  Store.policy auth owner = true <-> auth = Some owner.
Proof.
  destruct auth as [a|]; cbn.
  - rewrite String.eqb_eq. split; [intros -> | intros [= ->]]; reflexivity.
  - split; discriminate.
Qed.

Lemma in_order_desc {A : Type} (key : A -> nat) (l : list A) (x : A) :
  In x (Store.order_desc key l) <-> In x l.
Proof.
  split; apply Permutation_in;
    [ | apply Permutation_sym ]; apply order_desc_perm.
Qed.

(** X1: a listing holds exactly the caller's own rows: every class or
    assignment it returns is a stored row whose [teacher_id] is the caller,
    every stored row of the caller is returned, and without a session the
    listings are empty and the counts zero. *)
Theorem listing_is_the_callers_rows :
  forall (auth : option uuid) (teacher : uuid) (d : Store.DB),
    (forall r, In r (Store.select_turmas_ordered auth teacher d) <->
               In r (Store.turmas d) /\ auth = Some teacher
               /\ Turma.teacher_id r = teacher)
    /\ (forall a, In a (Store.select_atividades auth teacher d) ->
                  In (fst a) (Store.atividades d) /\ auth = Some teacher
                  /\ Atividade.teacher_id (fst a) = teacher)
    /\ (forall r, In r (Store.atividades d) -> auth = Some teacher ->
                  Atividade.teacher_id r = teacher ->
                  exists n, In (r, n) (Store.select_atividades auth teacher d))
    /\ (auth = None ->
        Store.select_turmas_ordered auth teacher d = []
        /\ Store.select_atividades auth teacher d = []
        /\ Store.count_turmas auth teacher d = 0
        /\ Store.count_atividades auth teacher d = 0
        /\ Store.count_pending auth teacher d = 0).
Proof.
  intros auth teacher d. split; [ | split; [ | split ] ].
  - intros r. unfold Store.select_turmas_ordered, Store.select_turmas.
    rewrite in_order_desc, filter_In. unfold Store.visible_turma.
    rewrite andb_true_iff, policy_true, String.eqb_eq.
    split.
    + intros (Hin & Ha & Ht). subst teacher. tauto.
    + intros (Hin & Ha & Ht). subst. tauto.
  - intros a Ha. unfold Store.select_atividades in Ha.
    apply in_map_iff in Ha. destruct Ha as (r & <- & Hr). cbn [fst].
    rewrite in_order_desc, filter_In in Hr. unfold Store.visible_atividade in Hr.
    rewrite andb_true_iff, policy_true, String.eqb_eq in Hr.
    destruct Hr as (Hin & Ha & Ht). subst teacher. tauto.
  - intros r Hin Ha Ht. exists (Store.joined_name auth d r).
    unfold Store.select_atividades.
    apply (in_map (fun a => (a, Store.joined_name auth d a))).
    rewrite in_order_desc, filter_In. split; [exact Hin|].
    unfold Store.visible_atividade.
    rewrite andb_true_iff, policy_true, String.eqb_eq. subst. tauto.
  - intros ->.
    assert (Ht : Store.select_turmas None teacher d = [])
      by (unfold Store.select_turmas; now apply filter_none).
    assert (Ha : filter (Store.visible_atividade None teacher) (Store.atividades d) = [])
      by now apply filter_none.
    unfold Store.select_turmas_ordered, Store.select_atividades, Store.count_turmas,
      Store.count_atividades, Store.count_pending.
    rewrite Ht, Ha. cbn. repeat split.
    rewrite filter_none; [reflexivity | reflexivity].
Qed.

Lemma listing_is_the_callers_rows_witness :
  Store.select_turmas_ordered None "ana" db_one_assignment = []
  /\ Store.select_atividades None "ana" db_one_assignment = []
  /\ Store.count_turmas None "ana" db_one_assignment = 0
  /\ Store.count_atividades None "ana" db_one_assignment = 0
  /\ Store.count_pending None "ana" db_one_assignment = 0.
Proof.
  exact (proj2 (proj2 (proj2 (listing_is_the_callers_rows None "ana" db_one_assignment)))
               eq_refl).
Defined.

(** ** Ordering of the listings *)

Lemma insert_desc_sorted {A : Type} (key : A -> nat) (x : A) (l : list A) :
  recent_first key l -> recent_first key (Store.insert_desc key x l).
Proof.
  unfold recent_first. induction l as [|y l IH]; cbn [Store.insert_desc]; intros Hs.
  - repeat constructor.
  - inversion Hs as [|? ? Hl Hy]; subst.
    destruct (key y <? key x) eqn:E.
    + apply Nat.ltb_lt in E. constructor; [exact Hs|].
      constructor; [lia|].
      rewrite Forall_forall in Hy |- *. intros z Hz. specialize (Hy z Hz). lia.
    + apply Nat.ltb_ge in E. constructor; [now apply IH|].
      rewrite Forall_forall in Hy |- *. intros z Hz.
      apply (Permutation_in _ (insert_desc_perm key x l)) in Hz.
      destruct Hz as [<- | Hz]; [exact E | now apply Hy].
Qed.

Lemma order_desc_sorted {A : Type} (key : A -> nat) (l : list A) :
  recent_first key (Store.order_desc key l).
Proof.
  induction l as [|x l IH]; cbn.
  - constructor.
  - now apply insert_desc_sorted.
Qed.

Lemma map_sorted {A B : Type} (g : A -> B) (key : B -> nat) (l : list A) :
  recent_first (fun a => key (g a)) l -> recent_first key (map g l).
Proof.
  unfold recent_first. induction 1 as [|x l Hl IH Hx]; cbn; constructor.
  - exact IH.
  - rewrite Forall_forall in Hx |- *. intros z Hz.
    apply in_map_iff in Hz. destruct Hz as (y & <- & Hy). now apply Hx.
Qed.

(** X2: both row listings come back most recent first: in the class listing
    of [loadTurmas] and in the assignment listing of [loadData] no row is
    followed by one created later; and ordering neither drops nor repeats a
    row. *)
Theorem listings_are_most_recent_first :
  forall (auth : option uuid) (teacher : uuid) (d : Store.DB),
    recent_first Turma.created_at (Store.select_turmas_ordered auth teacher d)
    /\ recent_first (fun a : AtividadesManager.Loaded => Atividade.created_at (fst a))
                    (Store.select_atividades auth teacher d)
    /\ Permutation (Store.select_turmas_ordered auth teacher d)
                   (Store.select_turmas auth teacher d)
    /\ length (Store.select_atividades auth teacher d)
       = Store.count_atividades auth teacher d.
Proof.
  intros auth teacher d. split; [ | split; [ | split ] ].
  - apply order_desc_sorted.
  - unfold Store.select_atividades.
    apply (map_sorted (fun a => (a, Store.joined_name auth d a))
                      (fun a : AtividadesManager.Loaded => Atividade.created_at (fst a))).
    cbn [fst]. apply order_desc_sorted.
  - apply order_desc_perm.
  - unfold Store.select_atividades, Store.count_atividades.
    rewrite length_map. apply Permutation_length, order_desc_perm.
Qed.

(** ** Row-level security on writes *)

Ltac split_ifs :=
  repeat match goal with
         | |- context [if ?b then _ else _] => destruct b eqn:?
         end.

Lemma hit_turma_needs_policy (auth : option uuid) (id : uuid) (r : Turma.row) :
  Store.policy auth (Turma.teacher_id r) = false -> Store.hit_turma auth id r = false.
Proof. intros H. unfold Store.hit_turma. rewrite H. apply andb_false_r. Qed.

Lemma hit_atividade_needs_policy (auth : option uuid) (id : uuid) (r : Atividade.row) :
  Store.policy auth (Atividade.teacher_id r) = false ->
  Store.hit_atividade auth id r = false.
Proof. intros H. unfold Store.hit_atividade. rewrite H. apply andb_false_r. Qed.

Lemma in_map_unhit {A : Type} (hit : A -> bool) (patch : A -> A) (l : list A) (x : A) :
  In x l -> hit x = false -> In x (map (fun r => if hit r then patch r else r) l).
Proof.
  intros Hin Hh. apply in_map_iff. exists x. now rewrite Hh.
Qed.

Lemma others_turmas_stay (m : Store.Mutation) (d : Store.DB) (r : Turma.row) :
  In r (Store.turmas d) ->
  Store.policy (auth_of m) (Turma.teacher_id r) = false ->
  In r (Store.turmas (snd (Store.apply_mutation m d))).
Proof.
  intros Hin Hp.
  destruct m as [auth t|auth k t|auth k|auth a|auth k a|auth k]; cbn in *.
  - unfold Store.insert_turma. split_ifs; cbn; try assumption.
    apply in_or_app. now left.
  - unfold Store.update_turma. split_ifs; cbn; try assumption.
    apply in_map_unhit; [assumption | now apply hit_turma_needs_policy].
  - apply filter_In. split; [assumption|].
    now rewrite hit_turma_needs_policy.
  - unfold Store.insert_atividade. split_ifs; cbn; assumption.
  - unfold Store.update_atividade. split_ifs; cbn; assumption.
  - assumption.
Qed.

Lemma gone_ids (auth : option uuid) (id x : uuid) (l : list Turma.row) :
  mem x (map Turma.id (filter (Store.hit_turma auth id) l)) = true -> x = id.
Proof.
  intros H. apply mem_In in H. apply in_map_iff in H.
  destruct H as (r & <- & Hr). apply filter_In in Hr. destruct Hr as [_ Hh].
  unfold Store.hit_turma in Hh. apply andb_true_iff in Hh.
  now apply String.eqb_eq.
Qed.

Lemma others_atividades_stay (m : Store.Mutation) (d : Store.DB) (a : Atividade.row) :
  In a (Store.atividades d) ->
  Store.policy (auth_of m) (Atividade.teacher_id a) = false ->
  In a (Store.atividades (snd (Store.apply_mutation m d))) \/ cascades m d a.
Proof.
  intros Hin Hp.
  destruct m as [auth t|auth k t|auth k|auth x|auth k x|auth k]; cbn in *.
  - left. unfold Store.insert_turma. split_ifs; cbn; assumption.
  - left. unfold Store.update_turma. split_ifs; cbn; assumption.
  - destruct (mem (Atividade.turma_id a)
                  (map Turma.id (filter (Store.hit_turma auth k) (Store.turmas d))))
      eqn:E.
    + right. apply mem_In in E. apply in_map_iff in E. destruct E as (c & Hid & Hc).
      apply filter_In in Hc. destruct Hc as [Hc Hh].
      unfold Store.hit_turma in Hh. apply andb_true_iff in Hh. destruct Hh as [Hk Hown].
      apply String.eqb_eq in Hk.
      subst k. exists c. cbn [auth_of]. repeat split; assumption.
    + left. apply filter_In. split; [assumption | now rewrite E].
  - left. unfold Store.insert_atividade. split_ifs; cbn; try assumption.
    apply in_or_app. now left.
  - left. unfold Store.update_atividade. split_ifs; cbn; try assumption.
    apply in_map_unhit; [assumption | now apply hit_atividade_needs_policy].
  - left. apply filter_In. split; [assumption|].
    now rewrite hit_atividade_needs_policy.
Qed.

(** An assignment the cascade reaches is gone. *)
Lemma cascade_removes (m : Store.Mutation) (d : Store.DB) (a : Atividade.row) :
  cascades m d a -> ~ In a (Store.atividades (snd (Store.apply_mutation m d))).
Proof.
  intros (c & Hc & Hid & Hown & Hm) Hin.
  destruct m as [auth t|auth k t|auth k|auth x|auth k x|auth k]; try discriminate Hm.
  cbn [auth_of] in Hown, Hm. injection Hm as Hk. subst k.
  cbn in Hin. apply filter_In in Hin. destruct Hin as [_ Hkeep].
  apply negb_true_iff in Hkeep.
  assert (Hmem : mem (Atividade.turma_id a)
                     (map Turma.id (filter (Store.hit_turma auth (Turma.id c))
                                           (Store.turmas d))) = true).
  { apply mem_In. rewrite <- Hid. apply in_map. apply filter_In. split; [exact Hc|].
    unfold Store.hit_turma. now rewrite String.eqb_refl, Hown. }
  congruence.
Qed.

Lemma no_forged_turma (m : Store.Mutation) (d : Store.DB) (r : Turma.row) :
  In r (Store.turmas (snd (Store.apply_mutation m d))) ->
  Store.policy (auth_of m) (Turma.teacher_id r) = false ->
  In r (Store.turmas d).
Proof.
  intros Hin Hp.
  destruct m as [auth t|auth k t|auth k|auth a|auth k a|auth k]; cbn in *.
  - unfold Store.insert_turma in Hin.
    destruct (negb (mem _ _)); [exact Hin|].
    destruct (mem _ _); [exact Hin|].
    destruct (negb (Store.policy auth _)) eqn:E; [exact Hin|].
    cbn in Hin. apply in_app_or in Hin. destruct Hin as [Hin | [<- | []]]; [exact Hin|].
    cbn in Hp. apply negb_false_iff in E. congruence.
  - unfold Store.update_turma in Hin.
    destruct (existsb _ _); [ | exact Hin ].
    destruct (negb (mem _ _)); [exact Hin|].
    destruct (negb (Store.policy auth _)) eqn:E; [exact Hin|].
    cbn in Hin. apply in_map_iff in Hin. destruct Hin as (r0 & Er & Hr0).
    destruct (Store.hit_turma auth k r0); [ | now subst ].
    subst r. cbn in Hp. apply negb_false_iff in E. congruence.
  - apply filter_In in Hin. tauto.
  - unfold Store.insert_atividade in Hin. revert Hin. split_ifs; cbn; tauto.
  - unfold Store.update_atividade in Hin. revert Hin. split_ifs; cbn; tauto.
  - exact Hin.
Qed.

Lemma no_forged_atividade (m : Store.Mutation) (d : Store.DB) (a : Atividade.row) :
  In a (Store.atividades (snd (Store.apply_mutation m d))) ->
  Store.policy (auth_of m) (Atividade.teacher_id a) = false ->
  In a (Store.atividades d).
Proof.
  intros Hin Hp.
  destruct m as [auth t|auth k t|auth k|auth x|auth k x|auth k]; cbn in *.
  - unfold Store.insert_turma in Hin. revert Hin. split_ifs; cbn; tauto.
  - unfold Store.update_turma in Hin. revert Hin. split_ifs; cbn; tauto.
  - apply filter_In in Hin. tauto.
  - unfold Store.insert_atividade in Hin.
    destruct (negb (mem _ _)); [exact Hin|].
    destruct (negb (mem _ _)); [exact Hin|].
    destruct (negb (Store.check_status _)); [exact Hin|].
    destruct (mem _ _); [exact Hin|].
    destruct (negb (Store.policy auth _)) eqn:E; [exact Hin|].
    cbn in Hin. apply in_app_or in Hin. destruct Hin as [Hin | [<- | []]]; [exact Hin|].
    cbn in Hp. apply negb_false_iff in E. congruence.
  - unfold Store.update_atividade in Hin.
    destruct (existsb _ _); [ | exact Hin ].
    destruct (negb (mem _ _)); [exact Hin|].
    destruct (negb (mem _ _)); [exact Hin|].
    destruct (negb (forallb _ _)); [exact Hin|].
    destruct (negb (Store.policy auth _)) eqn:E; [exact Hin|].
    cbn in Hin. apply in_map_iff in Hin. destruct Hin as (r0 & Er & Hr0).
    destruct (Store.hit_atividade auth k r0); [ | now subst ].
    subst a. cbn in Hp. apply negb_false_iff in E. congruence.
  - apply filter_In in Hin. tauto.
Qed.

(** X3: a write made under one identity can neither touch nor forge another
    teacher's rows.  A class owned by someone else is in the table after the
    write exactly if it was there before.  An assignment owned by someone
    else is there after the write exactly if it was there before and the
    cascade did not reach it; the cascade reaches it only when the write
    deletes a class that the writer owns and the assignment sits in that
    class.  So a stranger's delete of a class removes nothing, and an
    owner's delete removes the class's assignments whoever owns them. *)
Theorem writes_stay_within_ownership :
  forall (m : Store.Mutation) (d : Store.DB),
    let d' := snd (Store.apply_mutation m d) in
    (forall r, Store.policy (auth_of m) (Turma.teacher_id r) = false ->
               (In r (Store.turmas d') <-> In r (Store.turmas d)))
    /\ (forall a, Store.policy (auth_of m) (Atividade.teacher_id a) = false ->
                  (In a (Store.atividades d')
                   <-> In a (Store.atividades d) /\ ~ cascades m d a)).
Proof.
  intros m d d'. split.
  - intros r Hp. split.
    + intros Hin. now apply (no_forged_turma m).
    + intros Hin. now apply others_turmas_stay.
  - intros a Hp. split.
    + intros Hin. split.
      * now apply (no_forged_atividade m).
      * intros Hc. now apply (cascade_removes m d a Hc).
    + intros [Hin Hnc].
      destruct (others_atividades_stay m d a Hin Hp) as [Hkept | Hc];
        [exact Hkept | now contradiction Hnc].
Qed.

Lemma writes_stay_within_ownership_witness :
  In sample_atividade
     (Store.atividades
        (snd (Store.apply_mutation (Store.DeleteTurma (Some "bia") (Turma.id sample_turma))
                                   db_one_assignment))).
Proof.
  pose proof (writes_stay_within_ownership
                (Store.DeleteTurma (Some "bia") (Turma.id sample_turma))
                db_one_assignment) as [_ H].
  apply (H sample_atividade eq_refl). split.
  - cbn. left. reflexivity.
  - intros (c & Hc & _ & Hown & _). cbn in Hc. destruct Hc as [<- | []].
    discriminate Hown.
Defined.

(** ** The schema's constraints are kept *)

Lemma users_kept (m : Store.Mutation) (d : Store.DB) :
  Store.users (snd (Store.apply_mutation m d)) = Store.users d.
Proof.
  destruct m; cbn;
    unfold Store.insert_turma, Store.update_turma, Store.insert_atividade,
      Store.update_atividade;
    split_ifs; reflexivity.
Qed.

Lemma patched_atividade_ids (f : Atividade.row -> bool) (t : AtividadeData.t) (n : nat)
      (l : list Atividade.row) :
  map Atividade.id (map (fun r => if f r then Store.patch_atividade t n r else r) l)
  = map Atividade.id l.
Proof.
  rewrite map_map. apply map_ext. intros r. now destruct (f r).
Qed.

Lemma assignments_keyed_kept (m : Store.Mutation) (d : Store.DB) :
  assignments_keyed d -> assignments_keyed (snd (Store.apply_mutation m d)).
Proof.
  unfold assignments_keyed. intros H.
  destruct m as [auth t|auth k t|auth k|auth a|auth k a|auth k]; cbn.
  - unfold Store.insert_turma. split_ifs; exact H.
  - unfold Store.update_turma. split_ifs; exact H.
  - now apply NoDup_map_filter.
  - unfold Store.insert_atividade.
    destruct (negb (mem _ _)); [exact H|].
    destruct (negb (mem _ _)); [exact H|].
    destruct (negb (Store.check_status _)); [exact H|].
    destruct (mem (Store.next_uuid d) _) eqn:Em; [exact H|].
    destruct (negb (Store.policy _ _)); [exact H|].
    cbn. rewrite map_app. cbn. apply NoDup_snoc; [exact H|].
    intros Hin. apply mem_In in Hin. congruence.
  - unfold Store.update_atividade. split_ifs; cbn; try exact H.
    now rewrite patched_atividade_ids.
  - now apply NoDup_map_filter.
Qed.

Lemma ids_survive_delete (auth : option uuid) (id x : uuid) (l : list Turma.row) :
  In x (map Turma.id l) ->
  mem x (map Turma.id (filter (Store.hit_turma auth id) l)) = false ->
  In x (map Turma.id (filter (fun r => negb (Store.hit_turma auth id r)) l)).
Proof.
  intros Hin Hgone. apply in_map_iff in Hin. destruct Hin as (r & <- & Hr).
  apply in_map. apply filter_In. split; [exact Hr|].
  destruct (Store.hit_turma auth id r) eqn:E; [ | reflexivity ].
  exfalso. assert (Hm : mem (Turma.id r)
                            (map Turma.id (filter (Store.hit_turma auth id) l)) = true).
  { apply mem_In, in_map, filter_In. now split. }
  congruence.
Qed.

Lemma refs_ok_kept (m : Store.Mutation) (d : Store.DB) :
  refs_ok d -> refs_ok (snd (Store.apply_mutation m d)).
Proof.
  intros [Hc Ht Ha]. constructor; rewrite ?users_kept.
  - (* every assignment's class is present *)
    destruct m as [auth t|auth k t|auth k|auth x|auth k x|auth k]; cbn.
    + unfold Store.insert_turma. split_ifs; cbn; try exact Hc.
      intros a Hin. rewrite map_app. apply in_or_app. left. now apply Hc.
    + unfold Store.update_turma. split_ifs; cbn; try exact Hc.
      intros a Hin. rewrite patched_ids. now apply Hc.
    + intros a Hin. apply filter_In in Hin. destruct Hin as [Hin Hkeep].
      apply negb_true_iff in Hkeep.
      apply ids_survive_delete; [now apply Hc | exact Hkeep].
    + unfold Store.insert_atividade.
      destruct (negb (mem (AtividadeData.turma_id x) _)) eqn:Efk; [exact Hc|].
      split_ifs; cbn; try exact Hc.
      intros a Hin. apply in_app_or in Hin. destruct Hin as [Hin | [<- | []]].
      * now apply Hc.
      * cbn. apply mem_In. now apply negb_false_iff in Efk.
    + unfold Store.update_atividade.
      destruct (existsb _ _); [ | exact Hc ].
      destruct (negb (mem (AtividadeData.turma_id x) _)) eqn:Efk; [exact Hc|].
      split_ifs; cbn; try exact Hc.
      intros a Hin. apply in_map_iff in Hin. destruct Hin as (r & <- & Hr).
      destruct (Store.hit_atividade auth k r).
      * cbn. apply mem_In. now apply negb_false_iff in Efk.
      * now apply Hc.
    + intros a Hin. apply filter_In in Hin. now apply Hc.
  - (* every class's owner is a user *)
    destruct m as [auth t|auth k t|auth k|auth x|auth k x|auth k]; cbn.
    + unfold Store.insert_turma.
      destruct (negb (mem (TurmaData.teacher_id t) _)) eqn:Efk; [exact Ht|].
      split_ifs; cbn; try exact Ht.
      intros r Hin. apply in_app_or in Hin. destruct Hin as [Hin | [<- | []]].
      * now apply Ht.
      * cbn. apply mem_In. now apply negb_false_iff in Efk.
    + unfold Store.update_turma.
      destruct (existsb _ _); [ | exact Ht ].
      destruct (negb (mem (TurmaData.teacher_id t) _)) eqn:Efk; [exact Ht|].
      split_ifs; cbn; try exact Ht.
      intros r Hin. apply in_map_iff in Hin. destruct Hin as (r0 & <- & Hr0).
      destruct (Store.hit_turma auth k r0).
      * cbn. apply mem_In. now apply negb_false_iff in Efk.
      * now apply Ht.
    + intros r Hin. apply filter_In in Hin. now apply Ht.
    + unfold Store.insert_atividade. split_ifs; exact Ht.
    + unfold Store.update_atividade. split_ifs; exact Ht.
    + exact Ht.
  - (* every assignment's owner is a user *)
    destruct m as [auth t|auth k t|auth k|auth x|auth k x|auth k]; cbn.
    + unfold Store.insert_turma. split_ifs; exact Ha.
    + unfold Store.update_turma. split_ifs; exact Ha.
    + intros a Hin. apply filter_In in Hin. now apply Ha.
    + unfold Store.insert_atividade.
      destruct (negb (mem (AtividadeData.turma_id x) _)); [exact Ha|].
      destruct (negb (mem (AtividadeData.teacher_id x) _)) eqn:Efk; [exact Ha|].
      split_ifs; cbn; try exact Ha.
      intros a Hin. apply in_app_or in Hin. destruct Hin as [Hin | [<- | []]].
      * now apply Ha.
      * cbn. apply mem_In. now apply negb_false_iff in Efk.
    + unfold Store.update_atividade.
      destruct (existsb _ _); [ | exact Ha ].
      destruct (negb (mem (AtividadeData.turma_id x) _)); [exact Ha|].
      destruct (negb (mem (AtividadeData.teacher_id x) _)) eqn:Efk; [exact Ha|].
      split_ifs; cbn; try exact Ha.
      intros a Hin. apply in_map_iff in Hin. destruct Hin as (r & <- & Hr).
      destruct (Store.hit_atividade auth k r).
      * cbn. apply mem_In. now apply negb_false_iff in Efk.
      * now apply Ha.
    + intros a Hin. apply filter_In in Hin. now apply Ha.
Qed.

(** X4: whatever sequence of inserts, updates and deletes any clients run,
    the schema's constraints hold afterwards as they held before: class ids
    and assignment ids stay unique, every assignment's class is in the
    store (the cascade removes the assignments of a deleted class rather
    than leave them dangling), and every row's owner is a known user. *)
Theorem constraints_kept :
  forall (ms : list Store.Mutation) (d : Store.DB),
    wf d -> assignments_keyed d -> refs_ok d ->
    wf (Store.run_mutations ms d)
    /\ assignments_keyed (Store.run_mutations ms d)
    /\ refs_ok (Store.run_mutations ms d).
Proof.
  induction ms as [|m ms IH]; intros d Hw Hk Hr; cbn.
  - split; [assumption | split; assumption].
  - apply IH.
    + now apply wf_kept.
    + now apply assignments_keyed_kept.
    + now apply refs_ok_kept.
Qed.

Lemma refs_ok_empty_db : refs_ok empty_db.
Proof. constructor; cbn; intros x []. Qed.

Lemma constraints_kept_witness :
  let d := Store.run_mutations
             [Store.InsertTurma (Some "ana") (TurmaData.mk "5A" None None None "ana");
              Store.InsertAtividade (Some "ana")
                (AtividadeData.mk "Lista 1" None None None "id-" "ana");
              Store.DeleteTurma (Some "ana") "id-"]
             empty_db in
  wf d /\ assignments_keyed d /\ refs_ok d.
Proof.
  intros d.
  exact (constraints_kept _ empty_db wf_empty_db (NoDup_nil _) refs_ok_empty_db).
Defined.

(** ** Ownership of an assignment is not tied to its class *)

Lemma find_none_iff {A : Type} (f : A -> bool) (l : list A) :
  (forall x, In x l -> f x = false) -> find f l = None.
Proof.
  induction l as [|x l IH]; cbn; intros H; [reflexivity|].
  rewrite (H x (or_introl eq_refl)). apply IH. intros y Hy. apply H. now right.
Qed.

(** X5: the schema checks that an assignment's class exists and that the
    assignment's own [teacher_id] is the caller, but not that the class is
    the caller's: a teacher who names another teacher's class in an insert
    has it accepted, and the row then comes back in that teacher's listing
    with no class name joined to it. *)
Theorem assignment_on_anothers_class_is_accepted :
  forall (d : Store.DB) (b : uuid) (c : Turma.row) (f : AtividadeData.t),
    wf d ->
    In c (Store.turmas d) ->
    Turma.teacher_id c <> b ->
    In b (Store.users d) ->
    AtividadeData.turma_id f = Turma.id c ->
    AtividadeData.teacher_id f = b ->
    Store.check_status (Store.status_column (AtividadeData.status f)) = true ->
    mem (Store.next_uuid d) (map Atividade.id (Store.atividades d)) = false ->
    let res := Store.insert_atividade (Some b) f d in
    fst res = None
    /\ exists a,
        In (a, None) (Store.select_atividades (Some b) b (snd res))
        /\ Atividade.id a = Store.next_uuid d
        /\ Atividade.turma_id a = Turma.id c
        /\ Atividade.teacher_id a = b.
Proof.
  intros d b c f Hwf Hc Hother Hb Hturma Hteacher Hstatus Hfresh res.
  assert (Hfk : mem (AtividadeData.turma_id f) (map Turma.id (Store.turmas d)) = true)
    by (apply mem_In; rewrite Hturma; now apply in_map).
  assert (Hu : mem (AtividadeData.teacher_id f) (Store.users d) = true)
    by (apply mem_In; now rewrite Hteacher).
  assert (Hp : Store.policy (Some b) (AtividadeData.teacher_id f) = true)
    by (apply policy_true; now rewrite Hteacher).
  assert (Hres : res =
                 (None,
                  Store.mkDB (Store.users d) (Store.turmas d)
                    (Store.atividades d ++
                       [Atividade.mk (Store.next_uuid d) (AtividadeData.turma_id f)
                          (AtividadeData.teacher_id f) (AtividadeData.title f)
                          (AtividadeData.description f) (AtividadeData.due_date f)
                          (Store.status_column (AtividadeData.status f))
                          (Store.now d) (Store.now d)])
                    (S (Store.now d)) (Store.uuid_src d) (S (Store.uuid_ix d)))).
  { subst res. unfold Store.insert_atividade.
    now rewrite Hfk, Hu, Hstatus, Hfresh, Hp. }
  rewrite Hres. cbn [fst snd]. split; [reflexivity|].
  set (a := Atividade.mk (Store.next_uuid d) (AtividadeData.turma_id f)
              (AtividadeData.teacher_id f) (AtividadeData.title f)
              (AtividadeData.description f) (AtividadeData.due_date f)
              (Store.status_column (AtividadeData.status f)) (Store.now d) (Store.now d)).
  set (d' := Store.mkDB (Store.users d) (Store.turmas d) (Store.atividades d ++ [a])
               (S (Store.now d)) (Store.uuid_src d) (S (Store.uuid_ix d))).
  exists a. split; [ | split; [reflexivity | split; [exact Hturma | exact Hteacher]] ].
  assert (Hj : Store.joined_name (Some b) d' a = None).
  { unfold Store.joined_name. cbn [d' a Store.turmas Atividade.turma_id].
    rewrite find_none_iff; [reflexivity|].
    intros r Hr. apply andb_false_iff.
    destruct (String.eqb (Turma.id r) (AtividadeData.turma_id f)) eqn:E; [ right | now left ].
    apply String.eqb_eq in E. rewrite Hturma in E.
    assert (r = c) by (eapply key_determines_row; eauto using wf_key). subst r.
    destruct (Store.policy (Some b) (Turma.teacher_id c)) eqn:Ep; [ | reflexivity ].
    apply policy_true in Ep. injection Ep as Ep. now contradiction Hother. }
  rewrite <- Hj. unfold Store.select_atividades.
  apply (in_map (fun x => (x, Store.joined_name (Some b) d' x))).
  rewrite in_order_desc, filter_In. cbn [d' Store.atividades]. split.
  - apply in_or_app. right. now left.
  - unfold Store.visible_atividade. cbn [a Atividade.teacher_id].
    now rewrite Hp, Hteacher, String.eqb_refl.
Qed.

Lemma wf_sample_users_db : wf sample_users_db.
Proof.
  constructor; cbn.
  - exact sample_uuid_injective.
  - intros r [<- | []]. exists 0. split; [lia | reflexivity].
  - repeat constructor. intros [].
Qed.

Lemma assignment_on_anothers_class_is_accepted_witness :
  let f := AtividadeData.mk "Prova" None None None "id-" "bia" in
  let res := Store.insert_atividade (Some "bia") f sample_users_db in
  fst res = None
  /\ exists a,
      In (a, None) (Store.select_atividades (Some "bia") "bia" (snd res))
      /\ Atividade.id a = Store.next_uuid sample_users_db
      /\ Atividade.turma_id a = Turma.id sample_turma
      /\ Atividade.teacher_id a = "bia".
Proof.
  intros f.
  refine (assignment_on_anothers_class_is_accepted sample_users_db "bia" sample_turma f
            wf_sample_users_db (or_introl eq_refl) _ _ eq_refl eq_refl eq_refl eq_refl).
  - cbn. discriminate.
  - cbn. tauto.
Defined.

(** ** Signing in and signing up *)

(** X6: [handleSignIn] sends one sign-in request carrying the form's email
    and password; an error reply is shown verbatim in a destructive toast, a
    success is silent; either way the form keeps its contents and [loading]
    is back to false. *)
Theorem sign_in_outcomes :
  forall (s : AuthForm.State) (d : Store.DB) (fs : list Fault) (reply : AuthReply)
         (rest : list AuthReply) (tr : list Effect),
    reply <> AuthRejects ->
    let req := Sent (ReqSignIn (AuthForm.email (AuthForm.formData s))
                               (AuthForm.password (AuthForm.formData s))) in
    let sys' := exec AuthForm.handleSignIn
                     (mkSys s (mkWorld d fs (reply :: rest)) tr) in
    comp sys' = AuthForm.mkState false (AuthForm.formData s)
    /\ world sys' = mkWorld d fs rest
    /\ trace sys' = tr ++ req ::
                    match reply with
                    | AuthError msg => [Toast "Erro no login" msg true]
                    | _ => []
                    end.
Proof.
  intros s d fs reply rest tr Hr.
  destruct reply as [ | msg | ]; [ | | now contradiction Hr ];
    cbn; rewrite <- ?app_assoc; repeat split.
Qed.

Lemma sign_in_outcomes_witness :
  let s := AuthForm.mkState false (AuthForm.mkForm "ana@escola.br" "errada" "" "") in
  trace (exec AuthForm.handleSignIn
              (mkSys s (mkWorld empty_db [] [AuthError "Invalid login credentials"]) []))
  = [] ++ [Sent (ReqSignIn "ana@escola.br" "errada");
           Toast "Erro no login" "Invalid login credentials" true].
Proof.
  intros s.
  refine (proj2 (proj2 (sign_in_outcomes s empty_db [] (AuthError "Invalid login credentials")
                          [] [] _))).
  discriminate.
Defined.

(** X7: with matching passwords [handleSignUp] sends one sign-up request
    carrying the form's email, password and full name; an error reply is
    shown verbatim, a success raises the "Cadastro realizado!" toast; in both
    cases the form is not cleared and [loading] is back to false. *)
Theorem sign_up_outcomes :
  forall (s : AuthForm.State) (d : Store.DB) (fs : list Fault) (reply : AuthReply)
         (rest : list AuthReply) (tr : list Effect),
    AuthForm.password (AuthForm.formData s)
      = AuthForm.confirmPassword (AuthForm.formData s) ->
    reply <> AuthRejects ->
    let req := Sent (ReqSignUp (AuthForm.email (AuthForm.formData s))
                               (AuthForm.password (AuthForm.formData s))
                               (AuthForm.fullName (AuthForm.formData s))) in
    let sys' := exec AuthForm.handleSignUp
                     (mkSys s (mkWorld d fs (reply :: rest)) tr) in
    comp sys' = AuthForm.mkState false (AuthForm.formData s)
    /\ world sys' = mkWorld d fs rest
    /\ trace sys' = tr ++ [req;
                           match reply with
                           | AuthError msg => Toast "Erro no cadastro" msg true
                           | _ => Toast "Cadastro realizado!"
                                        "Verifique seu email para confirmar a conta." false
                           end].
Proof.
  intros s d fs reply rest tr Hpw Hr.
  cbv zeta. unfold exec, AuthForm.handleSignUp.
  cbn [bind get comp AuthForm.setLoading modify].
  unfold bind at 1. cbn [get comp].
  unfold bind at 1. cbn [AuthForm.setLoading modify comp world trace].
  rewrite Hpw, String.eqb_refl. cbn [negb].
  destruct reply as [ | msg | ]; [ | | now contradiction Hr ];
    cbn; rewrite <- ?app_assoc; repeat split.
Qed.

Lemma sign_up_outcomes_witness :
  let s := AuthForm.mkState false (AuthForm.mkForm "ana@escola.br" "segredo" "Ana" "segredo") in
  trace (exec AuthForm.handleSignUp
              (mkSys s (mkWorld empty_db [] [AuthError "User already registered"]) []))
  = [] ++ [Sent (ReqSignUp "ana@escola.br" "segredo" "Ana");
           Toast "Erro no cadastro" "User already registered" true].
Proof.
  intros s.
  refine (proj2 (proj2 (sign_up_outcomes s empty_db [] (AuthError "User already registered")
                          [] [] eq_refl _))).
  discriminate.
Defined.

(** ** Reads and the store *)

(** X8: loading never writes: whatever faults strike and whoever is signed
    in, [loadTurmas], [loadData] and [loadStats] leave the store exactly as
    it was; and a second class load straight after a first one that went
    through shows the same list. *)
Theorem loads_leave_the_store_alone :
  forall (user : option User.t),
    (forall (sys : Sys (TurmasManager.State * Dashboard.State)),
        db (world (exec (TurmasManager.loadTurmas user) sys)) = db (world sys))
    /\ (forall (sys : Sys (AtividadesManager.State * Dashboard.State)),
           db (world (exec (AtividadesManager.loadData user) sys)) = db (world sys))
    /\ (forall (sys : Sys Dashboard.State),
           db (world (exec (Dashboard.loadStats user) sys)) = db (world sys))
    /\ (forall (u : User.t) (s : TurmasManager.State) (p : Dashboard.State) (w : World)
               (tr : list Effect),
           user = Some u -> calm 2 w ->
           let once := exec (TurmasManager.loadTurmas user) (mkSys (s, p) w tr) in
           let twice := exec (TurmasManager.loadTurmas user) once in
           TurmasManager.turmas (fst (comp twice)) = TurmasManager.turmas (fst (comp once))
           /\ TurmasManager.turmas (fst (comp once))
              = Store.select_turmas_ordered (uid u) (User.id u) (db w)).
Proof.
  intros user. split; [ | split; [ | split ] ].
  - intros sys. apply reads_loadTurmas.
  - intros sys. apply reads_loadData.
  - intros sys. apply reads_loadStats.
  - intros u s p w tr -> Hc. cbv zeta. unfold exec.
    rewrite (loadTurmas_calm u s p w tr (calm_head _ _ Hc)). cbn [snd].
    rewrite loadTurmas_calm by exact (calm_head _ _ (calm_served _ _ Hc)).
    cbn. split; reflexivity.
Qed.

Lemma loads_leave_the_store_alone_witness :
  let once := exec (TurmasManager.loadTurmas (Some ana))
                   (mkSys (TurmasManager.initial, Dashboard.initial)
                          (mkWorld db_one_class [] []) []) in
  let twice := exec (TurmasManager.loadTurmas (Some ana)) once in
  TurmasManager.turmas (fst (comp twice)) = TurmasManager.turmas (fst (comp once))
  /\ TurmasManager.turmas (fst (comp once))
     = Store.select_turmas_ordered (uid ana) (User.id ana) db_one_class.
Proof.
  exact (proj2 (proj2 (proj2 (loads_leave_the_store_alone (Some ana))))
               ana TurmasManager.initial Dashboard.initial (mkWorld db_one_class [] []) []
               eq_refl (calm_no_faults 2 db_one_class [])).
Defined.

(** ** Submitting: either everything is reset or nothing moves *)

(** A refused write leaves every table as it was. *)
Lemma refused_write_changes_no_row (m : Store.Mutation) (d : Store.DB) :
  fst (Store.apply_mutation m d) <> None ->
  Store.turmas (snd (Store.apply_mutation m d)) = Store.turmas d
  /\ Store.atividades (snd (Store.apply_mutation m d)) = Store.atividades d.
Proof.
  destruct m as [auth t|auth k t|auth k|auth a|auth k a|auth k]; cbn;
    unfold Store.insert_turma, Store.update_turma, Store.insert_atividade,
      Store.update_atividade;
    split_ifs; cbn; intros H; try (now split); now contradiction H.
Qed.

Lemma bind_emit {S B : Type} (e : Effect) (k : unit -> M S B) (sys : Sys S) :
  bind (emit e) k sys = k tt (mkSys (comp sys) (world sys) (trace sys ++ [e])).
Proof. reflexivity. Qed.

Lemma bind_spawn {S B : Type} (m : M S unit) (k : unit -> M S B) (sys : Sys S) :
  bind (spawn m) k sys = k tt (snd (m sys)).
Proof. reflexivity. Qed.

Lemma resetForm_turmas_run {P : Type} (sys : Sys (TurmasManager.State * P)) :
  TurmasManager.resetForm sys
  = (Val tt,
     mkSys (TurmasManager.mkState (TurmasManager.turmas (fst (comp sys)))
              (TurmasManager.loading (fst (comp sys))) false None TurmasManager.blank,
            snd (comp sys))
           (world sys) (trace sys)).
Proof. destruct sys as [[s p] w tr]. reflexivity. Qed.

Lemma resetForm_atividades_run {P : Type} (sys : Sys (AtividadesManager.State * P)) :
  AtividadesManager.resetForm sys
  = (Val tt,
     mkSys (AtividadesManager.mkState (AtividadesManager.atividades (fst (comp sys)))
              (AtividadesManager.turmas (fst (comp sys)))
              (AtividadesManager.loading (fst (comp sys))) false None
              AtividadesManager.blank,
            snd (comp sys))
           (world sys) (trace sys)).
Proof. destruct sys as [[s p] w tr]. reflexivity. Qed.

(** What follows an accepted write in the class manager: the success toast,
    the two refreshes, and the reset, which always runs. *)
Lemma turma_success_tail (u : User.t) (msg : string)
      (sys : Sys (TurmasManager.State * Dashboard.State)) :
  let sys' := snd ((toast "Sucesso" msg false ;;
                    spawn (TurmasManager.loadTurmas (Some u)) ;;
                    spawn (in_parent (Dashboard.loadStats (Some u))) ;;
                    @TurmasManager.resetForm Dashboard.State) sys) in
  TurmasManager.formData (fst (comp sys')) = TurmasManager.blank
  /\ TurmasManager.editingTurma (fst (comp sys')) = None
  /\ TurmasManager.isDialogOpen (fst (comp sys')) = false
  /\ db (world sys') = db (world sys)
  /\ exists rest, trace sys' = trace sys ++ Toast "Sucesso" msg false :: rest.
Proof.
  cbv zeta. unfold toast. rewrite bind_emit, !bind_spawn, resetForm_turmas_run.
  cbn [snd fst comp world trace TurmasManager.formData TurmasManager.editingTurma
       TurmasManager.isDialogOpen].
  set (sys0 := mkSys (comp sys) (world sys) (trace sys ++ [Toast "Sucesso" msg false])).
  set (sys1 := snd (TurmasManager.loadTurmas (Some u) sys0)).
  split; [reflexivity | split; [reflexivity | split; [reflexivity | split]]].
  - rewrite (reads_in_parent _ (reads_loadStats (Some u)) sys1).
    subst sys1. now rewrite (reads_loadTurmas (Some u) sys0).
  - destruct (grows_in_parent (S := TurmasManager.State) _ (grows_loadStats (Some u)) sys1)
      as [n2 H2].
    destruct (grows_loadTurmas (P := Dashboard.State) (Some u) sys0) as [n1 H1].
    exists (n1 ++ n2). rewrite H2. subst sys1. rewrite H1. subst sys0. cbn [trace].
    now rewrite <- !app_assoc.
Qed.

Lemma atividade_success_tail (u : User.t) (msg : string)
      (sys : Sys (AtividadesManager.State * Dashboard.State)) :
  let sys' := snd ((toast "Sucesso" msg false ;;
                    spawn (AtividadesManager.loadData (Some u)) ;;
                    spawn (in_parent (Dashboard.loadStats (Some u))) ;;
                    @AtividadesManager.resetForm Dashboard.State) sys) in
  AtividadesManager.formData (fst (comp sys')) = AtividadesManager.blank
  /\ AtividadesManager.editingAtividade (fst (comp sys')) = None
  /\ AtividadesManager.isDialogOpen (fst (comp sys')) = false
  /\ db (world sys') = db (world sys)
  /\ exists rest, trace sys' = trace sys ++ Toast "Sucesso" msg false :: rest.
Proof.
  cbv zeta. unfold toast. rewrite bind_emit, !bind_spawn, resetForm_atividades_run.
  cbn [snd fst comp world trace AtividadesManager.formData
       AtividadesManager.editingAtividade AtividadesManager.isDialogOpen].
  set (sys0 := mkSys (comp sys) (world sys) (trace sys ++ [Toast "Sucesso" msg false])).
  set (sys1 := snd (AtividadesManager.loadData (Some u) sys0)).
  split; [reflexivity | split; [reflexivity | split; [reflexivity | split]]].
  - rewrite (reads_in_parent _ (reads_loadStats (Some u)) sys1).
    subst sys1. now rewrite (reads_loadData (Some u) sys0).
  - destruct (grows_in_parent (S := AtividadesManager.State) _
                (grows_loadStats (Some u)) sys1) as [n2 H2].
    destruct (grows_loadData (P := Dashboard.State) (Some u) sys0) as [n1 H1].
    exists (n1 ++ n2). rewrite H2. subst sys1. rewrite H1. subst sys0. cbn [trace].
    now rewrite <- !app_assoc.
Qed.

(** The answer to a write, by the fault that strikes it. *)
Lemma mutate_refused {S : Type} (r : Request) (m : Store.Mutation) (c : S)
      (d : Store.DB) (fs : list Fault) (ar : list AuthReply) (tr : list Effect) :
  refused (fault_at 0 (mkWorld d fs ar)) m d ->
  exists e d' fs',
    @mutate S r (Store.apply_mutation m) (mkSys c (mkWorld d fs ar) tr)
    = (Val (mkResp None (Some e)), mkSys c (mkWorld d' fs' ar) (tr ++ [Sent r]))
    /\ Store.turmas d' = Store.turmas d
    /\ Store.atividades d' = Store.atividades d.
Proof.
  rewrite fault_at_0. unfold refused, mutate, pop_fault.
  cbn [faults world db auth_replies].
  intros [Hf | [Hf Hno]].
  - destruct fs as [|f fs]; [discriminate Hf | subst f].
    exists Store.TransportError, d, fs. repeat split.
  - destruct (refused_write_changes_no_row m d Hno) as [Ht Ha].
    destruct (Store.apply_mutation m d) as [[e|] d'] eqn:E;
      [ | now contradiction Hno ].
    cbn [snd] in Ht, Ha.
    destruct fs as [|f fs]; [ | subst f ]; cbn [db faults auth_replies]; rewrite E.
    + exists e, d', []. repeat split; assumption.
    + exists e, d', fs. repeat split; assumption.
Qed.

Lemma mutate_accepted {S : Type} (r : Request) (m : Store.Mutation) (c : S)
      (d : Store.DB) (fs : list Fault) (ar : list AuthReply) (tr : list Effect) :
  accepted (fault_at 0 (mkWorld d fs ar)) m d ->
  @mutate S r (Store.apply_mutation m) (mkSys c (mkWorld d fs ar) tr)
  = (Val (mkResp None None),
     mkSys c (mkWorld (snd (Store.apply_mutation m d)) (tl fs) ar) (tr ++ [Sent r])).
Proof.
  rewrite fault_at_0. unfold accepted, mutate, pop_fault.
  cbn [faults world db auth_replies].
  intros [Hf Hok].
  destruct (Store.apply_mutation m d) as [e d'] eqn:E. cbn [fst snd] in *. subst e.
  destruct fs as [|f fs]; [ | subst f ]; cbn [db faults auth_replies tl]; now rewrite E.
Qed.

Ltac as_store_call H :=
  try change (Store.apply_mutation (Store.InsertTurma ?a ?x))
        with (Store.insert_turma a x) in H;
  try change (Store.apply_mutation (Store.UpdateTurma ?a ?i ?x))
        with (Store.update_turma a i x) in H;
  try change (Store.apply_mutation (Store.InsertAtividade ?a ?x))
        with (Store.insert_atividade a x) in H;
  try change (Store.apply_mutation (Store.UpdateAtividade ?a ?i ?x))
        with (Store.update_atividade a i x) in H.

(** X9: what a class submission ends in is decided by the store's answer.
    When the write is refused (the request fails on the way, or the store
    turns it down) one destructive toast is raised, nothing is reloaded, and
    the whole component (form contents, open dialog, row being edited, list)
    and both tables are as they were.  When it is accepted the store holds
    the write, the success toast is raised and, whatever happens to the
    refreshes, the form is blank again, no row is being edited and the
    dialog is closed. *)
Theorem turma_submit_resets_or_keeps :
  forall (u : User.t) (s : TurmasManager.State) (p : Dashboard.State) (w : World)
         (tr : list Effect),
    let m := turma_submission s u in
    let editing := match TurmasManager.editingTurma s with
                   | Some _ => true
                   | None => false
                   end in
    let sys' := exec (TurmasManager.handleSubmit (Dashboard.loadStats (Some u)) (Some u))
                     (mkSys (s, p) w tr) in
    (refused (fault_at 0 w) m (db w) ->
     comp sys' = (s, p)
     /\ Store.turmas (db (world sys')) = Store.turmas (db w)
     /\ Store.atividades (db (world sys')) = Store.atividades (db w)
     /\ trace sys'
        = tr ++ [Sent (request_of m);
                 Toast "Erro"
                       (if editing then "Não foi possível atualizar a turma."
                        else "Não foi possível criar a turma.") true])
    /\ (accepted (fault_at 0 w) m (db w) ->
        db (world sys') = snd (Store.apply_mutation m (db w))
        /\ TurmasManager.formData (fst (comp sys')) = TurmasManager.blank
        /\ TurmasManager.editingTurma (fst (comp sys')) = None
        /\ TurmasManager.isDialogOpen (fst (comp sys')) = false
        /\ exists rest,
            trace sys'
            = tr ++ Sent (request_of m)
                 :: Toast "Sucesso"
                          (if editing then "Turma atualizada com sucesso!"
                           else "Turma criada com sucesso!") false
                 :: rest).
Proof.
  intros u s p [d fs ar] tr. cbv zeta. cbn [db].
  match goal with |- context [exec ?h ?x] => remember (exec h x) as sys' eqn:Hs end.
  unfold exec, TurmasManager.handleSubmit in Hs. rewrite bind_own in Hs.
  cbv beta zeta in Hs. cbn [fst comp] in Hs.
  unfold turma_submission.
  destruct (TurmasManager.editingTurma s) as [t|]; cbn [request_of]; split.
  - intros Href.
    destruct (mutate_refused (S := TurmasManager.State * Dashboard.State)
                (ReqUpdateTurma (Turma.id t)
                   (TurmasManager.turmaData (TurmasManager.formData s) u))
                _ (s, p) d fs ar tr Href) as (e & d' & fs' & Hm & Ht & Ha).
    as_store_call Hm.
    unfold bind at 1 in Hs. rewrite Hm in Hs. cbn in Hs. rewrite <- app_assoc in Hs.
    subst sys'. cbn [comp world db trace]. repeat split; assumption.
  - intros Hacc.
    pose proof (mutate_accepted (S := TurmasManager.State * Dashboard.State)
                  (ReqUpdateTurma (Turma.id t)
                     (TurmasManager.turmaData (TurmasManager.formData s) u))
                  _ (s, p) d fs ar tr Hacc) as Hm.
    as_store_call Hm.
    unfold bind at 1 in Hs. rewrite Hm in Hs. cbn [error] in Hs. subst sys'.
    match goal with
    | |- context [snd (_ ?x)] =>
        destruct (turma_success_tail u "Turma atualizada com sucesso!" x)
          as (H1 & H2 & H3 & H4 & rest & H5)
    end.
    cbn [world db trace] in H4, H5.
    split; [exact H4 | split; [exact H1 | split; [exact H2 | split; [exact H3|]]]].
    exists rest. rewrite H5. now rewrite <- app_assoc.
  - intros Href.
    destruct (mutate_refused (S := TurmasManager.State * Dashboard.State)
                (ReqInsertTurma (TurmasManager.turmaData (TurmasManager.formData s) u))
                _ (s, p) d fs ar tr Href) as (e & d' & fs' & Hm & Ht & Ha).
    as_store_call Hm.
    unfold bind at 1 in Hs. rewrite Hm in Hs. cbn in Hs. rewrite <- app_assoc in Hs.
    subst sys'. cbn [comp world db trace]. repeat split; assumption.
  - intros Hacc.
    pose proof (mutate_accepted (S := TurmasManager.State * Dashboard.State)
                  (ReqInsertTurma (TurmasManager.turmaData (TurmasManager.formData s) u))
                  _ (s, p) d fs ar tr Hacc) as Hm.
    as_store_call Hm.
    unfold bind at 1 in Hs. rewrite Hm in Hs. cbn [error] in Hs. subst sys'.
    match goal with
    | |- context [snd (_ ?x)] =>
        destruct (turma_success_tail u "Turma criada com sucesso!" x)
          as (H1 & H2 & H3 & H4 & rest & H5)
    end.
    cbn [world db trace] in H4, H5.
    split; [exact H4 | split; [exact H1 | split; [exact H2 | split; [exact H3|]]]].
    exists rest. rewrite H5. now rewrite <- app_assoc.
Qed.

Lemma turma_submit_resets_or_keeps_witness :
  let s := TurmasManager.mkState [] false true None
             (TurmasManager.mkForm "5º Ano A" "" "" "Matemática") in
  let payload := TurmaData.mk "5º Ano A" None None (Some "Matemática") "ana" in
  let submit := TurmasManager.handleSubmit (Dashboard.loadStats (Some ana)) (Some ana) in
  let failed := exec submit (mkSys (s, Dashboard.initial)
                                   (mkWorld empty_db [ErrorResult] []) []) in
  let saved := exec submit (mkSys (s, Dashboard.initial) (mkWorld empty_db [] []) []) in
  (comp failed = (s, Dashboard.initial)
   /\ trace failed = [] ++ [Sent (ReqInsertTurma payload);
                            Toast "Erro" "Não foi possível criar a turma." true])
  /\ (TurmasManager.formData (fst (comp saved)) = TurmasManager.blank
      /\ TurmasManager.isDialogOpen (fst (comp saved)) = false
      /\ db (world saved)
         = snd (Store.apply_mutation (Store.InsertTurma (uid ana) payload) empty_db)).
Proof.
  intros s payload submit failed saved. split.
  - destruct (proj1 (turma_submit_resets_or_keeps ana s Dashboard.initial
                       (mkWorld empty_db [ErrorResult] []) [])
                    (or_introl eq_refl)) as (Hc & _ & _ & Htr).
    split; [exact Hc | exact Htr].
  - destruct (proj2 (turma_submit_resets_or_keeps ana s Dashboard.initial
                       (mkWorld empty_db [] []) [])
                    (conj eq_refl eq_refl)) as (Hdb & Hf & _ & Ho & _).
    split; [exact Hf | split; [exact Ho | exact Hdb]].
Defined.

(** X10: the same for an assignment submission.  Refused, it raises one
    destructive toast and leaves the component and the tables as they were;
    accepted, the store holds the write, the success toast is raised, and
    the form is blank again (its status back to [pending]), no row is being
    edited and the dialog is closed. *)
Theorem atividade_submit_resets_or_keeps :
  forall (u : User.t) (s : AtividadesManager.State) (p : Dashboard.State) (w : World)
         (tr : list Effect),
    let m := atividade_submission s u in
    let editing := match AtividadesManager.editingAtividade s with
                   | Some _ => true
                   | None => false
                   end in
    let sys' := exec (AtividadesManager.handleSubmit (Dashboard.loadStats (Some u))
                                                     (Some u))
                     (mkSys (s, p) w tr) in
    (refused (fault_at 0 w) m (db w) ->
     comp sys' = (s, p)
     /\ Store.turmas (db (world sys')) = Store.turmas (db w)
     /\ Store.atividades (db (world sys')) = Store.atividades (db w)
     /\ trace sys'
        = tr ++ [Sent (request_of m);
                 Toast "Erro"
                       (if editing then "Não foi possível atualizar a atividade."
                        else "Não foi possível criar a atividade.") true])
    /\ (accepted (fault_at 0 w) m (db w) ->
        db (world sys') = snd (Store.apply_mutation m (db w))
        /\ AtividadesManager.formData (fst (comp sys')) = AtividadesManager.blank
        /\ AtividadesManager.editingAtividade (fst (comp sys')) = None
        /\ AtividadesManager.isDialogOpen (fst (comp sys')) = false
        /\ exists rest,
            trace sys'
            = tr ++ Sent (request_of m)
                 :: Toast "Sucesso"
                          (if editing then "Atividade atualizada com sucesso!"
                           else "Atividade criada com sucesso!") false
                 :: rest).
Proof.
  intros u s p [d fs ar] tr. cbv zeta. cbn [db].
  match goal with |- context [exec ?h ?x] => remember (exec h x) as sys' eqn:Hs end.
  unfold exec, AtividadesManager.handleSubmit in Hs. rewrite bind_own in Hs.
  cbv beta zeta in Hs. cbn [fst comp] in Hs.
  unfold atividade_submission.
  destruct (AtividadesManager.editingAtividade s) as [a|]; cbn [request_of]; split.
  - intros Href.
    destruct (mutate_refused (S := AtividadesManager.State * Dashboard.State)
                (ReqUpdateAtividade (Atividade.id (fst a))
                   (AtividadesManager.atividadeData (AtividadesManager.formData s) u))
                _ (s, p) d fs ar tr Href) as (e & d' & fs' & Hm & Ht & Ha).
    as_store_call Hm.
    unfold bind at 1 in Hs. rewrite Hm in Hs. cbn in Hs. rewrite <- app_assoc in Hs.
    subst sys'. cbn [comp world db trace]. repeat split; assumption.
  - intros Hacc.
    pose proof (mutate_accepted (S := AtividadesManager.State * Dashboard.State)
                  (ReqUpdateAtividade (Atividade.id (fst a))
                     (AtividadesManager.atividadeData (AtividadesManager.formData s) u))
                  _ (s, p) d fs ar tr Hacc) as Hm.
    as_store_call Hm.
    unfold bind at 1 in Hs. rewrite Hm in Hs. cbn [error] in Hs. subst sys'.
    match goal with
    | |- context [snd (_ ?x)] =>
        destruct (atividade_success_tail u "Atividade atualizada com sucesso!" x)
          as (H1 & H2 & H3 & H4 & rest & H5)
    end.
    cbn [world db trace] in H4, H5.
    split; [exact H4 | split; [exact H1 | split; [exact H2 | split; [exact H3|]]]].
    exists rest. rewrite H5. now rewrite <- app_assoc.
  - intros Href.
    destruct (mutate_refused (S := AtividadesManager.State * Dashboard.State)
                (ReqInsertAtividade
                   (AtividadesManager.atividadeData (AtividadesManager.formData s) u))
                _ (s, p) d fs ar tr Href) as (e & d' & fs' & Hm & Ht & Ha).
    as_store_call Hm.
    unfold bind at 1 in Hs. rewrite Hm in Hs. cbn in Hs. rewrite <- app_assoc in Hs.
    subst sys'. cbn [comp world db trace]. repeat split; assumption.
  - intros Hacc.
    pose proof (mutate_accepted (S := AtividadesManager.State * Dashboard.State)
                  (ReqInsertAtividade
                     (AtividadesManager.atividadeData (AtividadesManager.formData s) u))
                  _ (s, p) d fs ar tr Hacc) as Hm.
    as_store_call Hm.
    unfold bind at 1 in Hs. rewrite Hm in Hs. cbn [error] in Hs. subst sys'.
    match goal with
    | |- context [snd (_ ?x)] =>
        destruct (atividade_success_tail u "Atividade criada com sucesso!" x)
          as (H1 & H2 & H3 & H4 & rest & H5)
    end.
    cbn [world db trace] in H4, H5.
    split; [exact H4 | split; [exact H1 | split; [exact H2 | split; [exact H3|]]]].
    exists rest. rewrite H5. now rewrite <- app_assoc.
Qed.

Lemma atividade_submit_resets_or_keeps_witness :
  let s := AtividadesManager.mkState [] [TurmaOption.mk "id-" "5º Ano A"] false true None
             (AtividadesManager.mkForm "Lista 1" "" "" (Some "pending") "") in
  let payload := AtividadeData.mk "Lista 1" None None (Some (Some "pending")) "" "ana" in
  let sys' := exec (AtividadesManager.handleSubmit (Dashboard.loadStats (Some ana))
                                                   (Some ana))
                   (mkSys (s, Dashboard.initial) (mkWorld db_one_class [] []) []) in
  comp sys' = (s, Dashboard.initial)
  /\ Store.atividades (db (world sys')) = []
  /\ trace sys' = [] ++ [Sent (ReqInsertAtividade payload);
                         Toast "Erro" "Não foi possível criar a atividade." true].
Proof.
  intros s payload sys'.
  assert (Href : refused (fault_at 0 (mkWorld db_one_class [] []))
                         (atividade_submission s ana) (db (mkWorld db_one_class [] []))).
  { right. split; [reflexivity | vm_compute; discriminate]. }
  destruct (proj1 (atividade_submit_resets_or_keeps ana s Dashboard.initial
                     (mkWorld db_one_class [] []) []) Href)
    as (Hc & _ & Ha & Htr).
  split; [exact Hc | split; [exact Ha | exact Htr]].
Defined.

(** ** Deleting *)

Lemma filter_all {A : Type} (f : A -> bool) (l : list A) :
  (forall x, In x l -> f x = true) -> filter f l = l.
Proof.
  induction l as [|x l IH]; cbn; intros H; [reflexivity|].
  rewrite (H x (or_introl eq_refl)). f_equal. apply IH. intros y Hy. apply H. now right.
Qed.

(** Removing the one row that carries a key lowers a filtered count by one
    if that row was counted, and leaves it alone otherwise. *)
Lemma delete_one_filter {A : Type} (key : A -> uuid) (hit f : A -> bool) (l : list A)
      (c : A) :
  NoDup (map key l) ->
  In c l ->
  hit c = true ->
  (forall r, hit r = true -> key r = key c) ->
  length (filter f l)
  = (if f c then 1 else 0) + length (filter f (filter (fun r => negb (hit r)) l)).
Proof.
  intros Hnd Hc Hhit Hkey.
  induction l as [|x l IH]; cbn; [contradiction|].
  inversion Hnd as [|? ? Hnotin Hnd']; subst.
  destruct Hc as [-> | Hc].
  - rewrite Hhit. cbn.
    rewrite (filter_all (fun r => negb (hit r)) l).
    + destruct (f c); cbn; lia.
    + intros y Hy. destruct (hit y) eqn:E; [ | reflexivity ].
      exfalso. apply Hnotin. rewrite <- (Hkey y E). now apply in_map.
  - assert (Hx : hit x = false).
    { destruct (hit x) eqn:E; [ | reflexivity ].
      exfalso. apply Hnotin. rewrite (Hkey x E). now apply in_map. }
    rewrite Hx. cbn. specialize (IH Hnd' Hc).
    destruct (f x) eqn:Ef; cbn; rewrite IH; destruct (f c); lia.
Qed.

Lemma filter_split_length {A : Type} (f g : A -> bool) (l : list A) :
  length (filter f l)
  = length (filter f (filter (fun r => negb (g r)) l))
    + length (filter (fun r => f r && g r) l).
Proof.
  induction l as [|x l IH]; cbn; [reflexivity|].
  destruct (g x) eqn:Eg, (f x) eqn:Ef; cbn; rewrite ?Ef; cbn; lia.
Qed.

Lemma hit_turma_own (u : User.t) (c : Turma.row) :
  Turma.teacher_id c = User.id u -> Store.hit_turma (uid u) (Turma.id c) c = true.
Proof.
  intros H. unfold Store.hit_turma. rewrite String.eqb_refl, H. apply policy_own.
Qed.

Lemma hit_turma_key (auth : option uuid) (id : uuid) (r : Turma.row) :
  Store.hit_turma auth id r = true -> Turma.id r = id.
Proof.
  unfold Store.hit_turma. intros H. apply andb_true_iff in H. now apply String.eqb_eq.
Qed.

Lemma hit_atividade_key (auth : option uuid) (id : uuid) (r : Atividade.row) :
  Store.hit_atividade auth id r = true -> Atividade.id r = id.
Proof.
  unfold Store.hit_atividade. intros H. apply andb_true_iff in H. now apply String.eqb_eq.
Qed.

(** The cascade of a class delete removes exactly the assignments that name
    the class. *)
Lemma cascade_filter (u : User.t) (c : Turma.row) (d : Store.DB) :
  In c (Store.turmas d) ->
  Turma.teacher_id c = User.id u ->
  Store.atividades (snd (Store.delete_turma (uid u) (Turma.id c) d))
  = filter (fun a => negb (String.eqb (Atividade.turma_id a) (Turma.id c)))
           (Store.atividades d).
Proof.
  intros Hc Hown. cbn. apply filter_ext. intros a. f_equal.
  destruct (String.eqb (Atividade.turma_id a) (Turma.id c)) eqn:E.
  - apply String.eqb_eq in E. apply mem_In. rewrite E. apply in_map.
    apply filter_In. split; [exact Hc | now apply hit_turma_own].
  - destruct (mem _ _) eqn:Em; [ | reflexivity ].
    apply gone_ids in Em. rewrite Em, String.eqb_refl in E. discriminate.
Qed.

Lemma turma_delete_flow (u : User.t) (s : TurmasManager.State) (p : Dashboard.State)
      (w : World) (tr : list Effect) (id : uuid) :
  calm 5 w ->
  let d' := snd (Store.delete_turma (uid u) id (db w)) in
  let sys' := exec (TurmasManager.handleDelete (Dashboard.loadStats (Some u)) (Some u)
                                               true id)
                   (mkSys (s, p) w tr) in
  TurmasManager.turmas (fst (comp sys'))
  = Store.select_turmas_ordered (uid u) (User.id u) d'
  /\ Dashboard.stats (snd (comp sys'))
     = Dashboard.mkStats (Store.count_turmas (uid u) (User.id u) d')
                         (Store.count_atividades (uid u) (User.id u) d')
                         (Store.count_pending (uid u) (User.id u) d')
  /\ db (world sys') = d'
  /\ filter is_toast (trace sys')
     = filter is_toast tr ++ [Toast "Sucesso" "Turma excluída com sucesso!" false].
Proof.
  intros Hc d' sys'. subst sys'. unfold exec, TurmasManager.handleDelete. cbn [negb].
  erewrite bind_val by (apply mutate_calm; exact (calm_head _ _ Hc)).
  cbn [error world db fst Store.delete_turma TurmasManager.session]. fold d'.
  apply calm_served in Hc.
  erewrite bind_val by reflexivity.
  erewrite bind_val
    by (eapply spawn_val; apply loadTurmas_calm; exact (calm_head _ _ Hc)).
  apply calm_served in Hc.
  unfold spawn, in_parent. cbn [comp snd world trace].
  rewrite loadStats_calm by exact Hc.
  cbn. rewrite <- !app_assoc, !filter_app. cbn. repeat split; reflexivity.
Qed.

(** X11: deleting one of one's own classes, when nothing fails: the class is
    no longer in the reloaded list, the dashboard's class total is one less
    than the store held, and its assignment total is lower by the number of
    the teacher's assignments in that class. *)
Theorem deleted_turma_leaves_list_and_count :
  forall (u : User.t) (s : TurmasManager.State) (p : Dashboard.State) (w : World)
         (tr : list Effect) (c : Turma.row),
    wf (db w) ->
    In c (Store.turmas (db w)) ->
    Turma.teacher_id c = User.id u ->
    calm 5 w ->
    let sys' := exec (TurmasManager.handleDelete (Dashboard.loadStats (Some u)) (Some u)
                                                 true (Turma.id c))
                     (mkSys (s, p) w tr) in
    (forall r, In r (TurmasManager.turmas (fst (comp sys'))) -> Turma.id r <> Turma.id c)
    /\ S (Dashboard.totalTurmas (Dashboard.stats (snd (comp sys'))))
       = Store.count_turmas (uid u) (User.id u) (db w)
    /\ Dashboard.totalAtividades (Dashboard.stats (snd (comp sys')))
       + length (filter (fun a => Store.visible_atividade (uid u) (User.id u) a
                                  && String.eqb (Atividade.turma_id a) (Turma.id c))
                        (Store.atividades (db w)))
       = Store.count_atividades (uid u) (User.id u) (db w).
Proof.
  intros u s p w tr c Hwf Hc Hown Hcalm sys'.
  destruct (turma_delete_flow u s p w tr (Turma.id c) Hcalm) as (Hl & Hst & _ & _).
  fold sys' in Hl, Hst. rewrite Hl, Hst. cbn [Dashboard.totalTurmas Dashboard.totalAtividades].
  split; [ | split ].
  - intros r Hr E.
    assert (Hp : Store.policy (uid u) (Turma.teacher_id c) = true)
      by (rewrite Hown; apply policy_own).
    apply (retired_key (delete_retires (db w) (uid u) c Hwf Hc Hp)).
    unfold Store.select_turmas_ordered, Store.select_turmas in Hr.
    rewrite in_order_desc in Hr. apply filter_In in Hr.
    apply in_map_iff. exists r. split; [exact E | exact (proj1 Hr)].
  - unfold Store.count_turmas, Store.select_turmas. cbn [Store.delete_turma snd Store.turmas].
    rewrite (delete_one_filter Turma.id (Store.hit_turma (uid u) (Turma.id c))
               (Store.visible_turma (uid u) (User.id u)) (Store.turmas (db w)) c
               (wf_key Hwf) Hc (hit_turma_own u c Hown)
               (fun r Hr => hit_turma_key _ _ r Hr)).
    assert (Hvis : Store.visible_turma (uid u) (User.id u) c = true)
      by (unfold Store.visible_turma; now rewrite Hown, policy_own, String.eqb_refl).
    rewrite Hvis. reflexivity.
  - unfold Store.count_atividades. rewrite (cascade_filter u c (db w) Hc Hown).
    symmetry. apply filter_split_length.
Qed.

Lemma deleted_turma_leaves_list_and_count_witness :
  let sys' := exec (TurmasManager.handleDelete (Dashboard.loadStats (Some ana)) (Some ana)
                                               true (Turma.id sample_turma))
                   (mkSys (TurmasManager.initial, Dashboard.initial)
                          (mkWorld db_one_assignment [] []) []) in
  S (Dashboard.totalTurmas (Dashboard.stats (snd (comp sys'))))
  = Store.count_turmas (uid ana) (User.id ana) db_one_assignment.
Proof.
  intros sys'.
  exact (proj1 (proj2 (deleted_turma_leaves_list_and_count ana TurmasManager.initial
                         Dashboard.initial (mkWorld db_one_assignment [] []) []
                         sample_turma wf_db_one_assignment (or_introl eq_refl) eq_refl
                         (calm_no_faults 5 db_one_assignment [])))).
Defined.

Lemma atividade_delete_flow (u : User.t) (s : AtividadesManager.State)
      (p : Dashboard.State) (w : World) (tr : list Effect) (id : uuid) :
  calm 6 w ->
  let d' := snd (Store.delete_atividade (uid u) id (db w)) in
  let sys' := exec (AtividadesManager.handleDelete (Dashboard.loadStats (Some u)) (Some u)
                                                   true id)
                   (mkSys (s, p) w tr) in
  AtividadesManager.atividades (fst (comp sys'))
  = Store.select_atividades (uid u) (User.id u) d'
  /\ Dashboard.stats (snd (comp sys'))
     = Dashboard.mkStats (Store.count_turmas (uid u) (User.id u) d')
                         (Store.count_atividades (uid u) (User.id u) d')
                         (Store.count_pending (uid u) (User.id u) d')
  /\ db (world sys') = d'
  /\ filter is_toast (trace sys')
     = filter is_toast tr ++ [Toast "Sucesso" "Atividade excluída com sucesso!" false].
Proof.
  intros Hc d' sys'. subst sys'. unfold exec, AtividadesManager.handleDelete. cbn [negb].
  erewrite bind_val by (apply mutate_calm; exact (calm_head _ _ Hc)).
  cbn [error world db fst Store.delete_atividade AtividadesManager.session]. fold d'.
  apply calm_served in Hc.
  erewrite bind_val by reflexivity.
  erewrite bind_val
    by (eapply spawn_val; apply loadData_calm; intros i Hi; apply Hc; lia).
  apply calm_served, calm_served in Hc.
  unfold spawn, in_parent. cbn [comp snd world trace].
  rewrite loadStats_calm by exact Hc.
  cbn. rewrite <- !app_assoc, !filter_app. cbn. repeat split; reflexivity.
Qed.

Lemma hit_atividade_own (u : User.t) (a : Atividade.row) :
  Atividade.teacher_id a = User.id u ->
  Store.hit_atividade (uid u) (Atividade.id a) a = true.
Proof.
  intros H. unfold Store.hit_atividade. rewrite String.eqb_refl, H. apply policy_own.
Qed.

(** X12: deleting one of one's own assignments, when nothing fails: the
    assignment is no longer in the reloaded list, the dashboard's assignment
    total is one less than the store held, the pending count is one less if
    the assignment was pending and the same otherwise, and the class total
    is untouched. *)
Theorem deleted_atividade_leaves_list_and_counts :
  forall (u : User.t) (s : AtividadesManager.State) (p : Dashboard.State) (w : World)
         (tr : list Effect) (a : Atividade.row),
    assignments_keyed (db w) ->
    In a (Store.atividades (db w)) ->
    Atividade.teacher_id a = User.id u ->
    calm 6 w ->
    let sys' := exec (AtividadesManager.handleDelete (Dashboard.loadStats (Some u))
                                                     (Some u) true (Atividade.id a))
                     (mkSys (s, p) w tr) in
    let st := Dashboard.stats (snd (comp sys')) in
    (forall r, In r (AtividadesManager.atividades (fst (comp sys'))) ->
               Atividade.id (fst r) <> Atividade.id a)
    /\ S (Dashboard.totalAtividades st)
       = Store.count_atividades (uid u) (User.id u) (db w)
    /\ (if Store.is_pending a then 1 else 0) + Dashboard.atividadesPendentes st
       = Store.count_pending (uid u) (User.id u) (db w)
    /\ Dashboard.totalTurmas st = Store.count_turmas (uid u) (User.id u) (db w).
Proof.
  intros u s p w tr a Hkey Ha Hown Hcalm sys' st. subst st.
  destruct (atividade_delete_flow u s p w tr (Atividade.id a) Hcalm) as (Hl & Hst & _ & _).
  fold sys' in Hl, Hst. rewrite Hl, Hst.
  cbn [Dashboard.totalTurmas Dashboard.totalAtividades Dashboard.atividadesPendentes].
  assert (Hvis : Store.visible_atividade (uid u) (User.id u) a = true)
    by (unfold Store.visible_atividade; now rewrite Hown, policy_own, String.eqb_refl).
  split; [ | split; [ | split ] ].
  - intros r Hr E. apply listed_is_stored in Hr. cbn in Hr.
    apply filter_In in Hr. destruct Hr as [Hin Hnot].
    assert (fst r = a) by (eapply key_determines_row; eauto). 
    rewrite H, (hit_atividade_own u a Hown) in Hnot. discriminate.
  - unfold Store.count_atividades. cbn [Store.delete_atividade snd Store.atividades].
    rewrite (delete_one_filter Atividade.id (Store.hit_atividade (uid u) (Atividade.id a))
               (Store.visible_atividade (uid u) (User.id u)) (Store.atividades (db w)) a
               Hkey Ha (hit_atividade_own u a Hown)
               (fun r Hr => hit_atividade_key _ _ r Hr)).
    now rewrite Hvis.
  - unfold Store.count_pending. cbn [Store.delete_atividade snd Store.atividades].
    rewrite (delete_one_filter Atividade.id (Store.hit_atividade (uid u) (Atividade.id a))
               (fun r => Store.visible_atividade (uid u) (User.id u) r && Store.is_pending r)
               (Store.atividades (db w)) a
               Hkey Ha (hit_atividade_own u a Hown)
               (fun r Hr => hit_atividade_key _ _ r Hr)).
    now rewrite Hvis.
  - reflexivity.
Qed.

Lemma deleted_atividade_leaves_list_and_counts_witness :
  let sys' := exec (AtividadesManager.handleDelete (Dashboard.loadStats (Some ana))
                                                   (Some ana) true
                                                   (Atividade.id sample_atividade))
                   (mkSys (AtividadesManager.initial, Dashboard.initial)
                          (mkWorld db_one_assignment [] []) []) in
  S (Dashboard.totalAtividades (Dashboard.stats (snd (comp sys'))))
  = Store.count_atividades (uid ana) (User.id ana) db_one_assignment.
Proof.
  intros sys'.
  refine (proj1 (proj2 (deleted_atividade_leaves_list_and_counts ana
                          AtividadesManager.initial Dashboard.initial
                          (mkWorld db_one_assignment [] []) [] sample_atividade
                          _ (or_introl eq_refl) eq_refl
                          (calm_no_faults 6 db_one_assignment [])))).
  unfold assignments_keyed. cbn. repeat constructor. intros [].
Defined.

(** X13: a delete that the user declines sends nothing and changes nothing;
    a confirmed delete that comes back as an error raises the destructive
    toast, reloads nothing, and leaves the list and the store as they were.
    This holds in both managers. *)
Theorem declined_or_failed_delete_changes_nothing :
  forall (u : option User.t) (p : Dashboard.State) (w : World) (tr : list Effect)
         (id : uuid),
    (forall s : TurmasManager.State,
        exec (TurmasManager.handleDelete (Dashboard.loadStats u) u false id)
             (mkSys (s, p) w tr) = mkSys (s, p) w tr)
    /\ (forall s : AtividadesManager.State,
           exec (AtividadesManager.handleDelete (Dashboard.loadStats u) u false id)
                (mkSys (s, p) w tr) = mkSys (s, p) w tr)
    /\ (forall s : TurmasManager.State,
           fault_at 0 w = ErrorResult ->
           let sys' := exec (TurmasManager.handleDelete (Dashboard.loadStats u) u true id)
                            (mkSys (s, p) w tr) in
           comp sys' = (s, p) /\ db (world sys') = db w
           /\ trace sys' = tr ++ [Sent (ReqDeleteTurma id);
                                  Toast "Erro" "Não foi possível excluir a turma." true])
    /\ (forall s : AtividadesManager.State,
           fault_at 0 w = ErrorResult ->
           let sys' := exec (AtividadesManager.handleDelete (Dashboard.loadStats u) u
                                                            true id)
                            (mkSys (s, p) w tr) in
           comp sys' = (s, p) /\ db (world sys') = db w
           /\ trace sys' = tr ++ [Sent (ReqDeleteAtividade id);
                                  Toast "Erro" "Não foi possível excluir a atividade."
                                        true]).
Proof.
  intros u p [d fs ar] tr id. split; [ | split; [ | split ] ].
  - reflexivity.
  - reflexivity.
  - intros s. rewrite fault_at_0. intros Hf.
    destruct fs as [|f fs]; [discriminate|]. subst f.
    cbn. rewrite <- app_assoc. repeat split.
  - intros s. rewrite fault_at_0. intros Hf.
    destruct fs as [|f fs]; [discriminate|]. subst f.
    cbn. rewrite <- app_assoc. repeat split.
Qed.

Lemma declined_or_failed_delete_changes_nothing_witness :
  let s := TurmasManager.mkState [sample_turma] false false None TurmasManager.blank in
  let sys' := exec (TurmasManager.handleDelete (Dashboard.loadStats (Some ana)) (Some ana)
                                               true "id-")
                   (mkSys (s, Dashboard.initial)
                          (mkWorld db_one_class [ErrorResult] []) []) in
  comp sys' = (s, Dashboard.initial) /\ db (world sys') = db_one_class
  /\ trace sys' = [] ++ [Sent (ReqDeleteTurma "id-");
                         Toast "Erro" "Não foi possível excluir a turma." true].
Proof.
  intros s.
  exact (proj1 (proj2 (proj2 (declined_or_failed_delete_changes_nothing
                                (Some ana) Dashboard.initial
                                (mkWorld db_one_class [ErrorResult] []) [] "id-")))
               s eq_refl).
Defined.

(** ** Updating *)

Lemma map_unhit {A : Type} (hit : A -> bool) (patch : A -> A) (l : list A) :
  (forall r, In r l -> hit r = false) ->
  map (fun r => if hit r then patch r else r) l = l.
Proof.
  induction l as [|x l IH]; cbn; intros H; [reflexivity|].
  rewrite (H x (or_introl eq_refl)). f_equal. apply IH. intros y Hy. apply H. now right.
Qed.

(** Rewriting the one row that carries a key moves a filtered count by that
    row alone. *)
Lemma update_one_filter {A : Type} (key : A -> uuid) (hit f : A -> bool) (patch : A -> A)
      (l : list A) (c : A) :
  NoDup (map key l) ->
  In c l ->
  hit c = true ->
  (forall r, hit r = true -> key r = key c) ->
  length (filter f (map (fun r => if hit r then patch r else r) l))
  + (if f c then 1 else 0)
  = length (filter f l) + (if f (patch c) then 1 else 0).
Proof.
  intros Hnd Hc Hhit Hkey.
  induction l as [|x l IH]; cbn [map filter]; [contradiction|].
  inversion Hnd as [|? ? Hnotin Hnd']; subst.
  destruct Hc as [-> | Hc].
  - rewrite Hhit. rewrite (map_unhit hit patch l).
    + destruct (f (patch c)), (f c); cbn; lia.
    + intros y Hy. destruct (hit y) eqn:E; [ | reflexivity ].
      exfalso. apply Hnotin. rewrite <- (Hkey y E). now apply in_map.
  - assert (Hx : hit x = false).
    { destruct (hit x) eqn:E; [ | reflexivity ].
      exfalso. apply Hnotin. rewrite (Hkey x E). now apply in_map. }
    rewrite Hx. specialize (IH Hnd' Hc).
    destruct (f x); cbn [length]; lia.
Qed.

Lemma update_turma_accepted (u : User.t) (c : Turma.row) (t : TurmaData.t) (d : Store.DB) :
  In c (Store.turmas d) ->
  Turma.teacher_id c = User.id u ->
  TurmaData.teacher_id t = User.id u ->
  In (User.id u) (Store.users d) ->
  Store.update_turma (uid u) (Turma.id c) t d
  = (None,
     Store.mkDB (Store.users d)
       (map (fun r => if Store.hit_turma (uid u) (Turma.id c) r
                      then Store.patch_turma t (Store.now d) r else r) (Store.turmas d))
       (Store.atividades d) (S (Store.now d)) (Store.uuid_src d) (Store.uuid_ix d)).
Proof.
  intros Hc Hown Ht Hu. unfold Store.update_turma.
  assert (He : existsb (Store.hit_turma (uid u) (Turma.id c)) (Store.turmas d) = true).
  { apply existsb_exists. exists c. split; [exact Hc | now apply hit_turma_own]. }
  rewrite He, Ht.
  assert (Hm : mem (User.id u) (Store.users d) = true) by now apply mem_In.
  now rewrite Hm, policy_own.
Qed.

Lemma turma_update_flow (u : User.t) (s : TurmasManager.State) (p : Dashboard.State)
      (w : World) (tr : list Effect) (t : Turma.row) :
  calm 5 w ->
  TurmasManager.editingTurma s = Some t ->
  fst (Store.update_turma (uid u) (Turma.id t)
         (TurmasManager.turmaData (TurmasManager.formData s) u) (db w)) = None ->
  let d' := snd (Store.update_turma (uid u) (Turma.id t)
                   (TurmasManager.turmaData (TurmasManager.formData s) u) (db w)) in
  let sys' := exec (TurmasManager.handleSubmit (Dashboard.loadStats (Some u)) (Some u))
                   (mkSys (s, p) w tr) in
  TurmasManager.turmas (fst (comp sys'))
  = Store.select_turmas_ordered (uid u) (User.id u) d'
  /\ Dashboard.stats (snd (comp sys'))
     = Dashboard.mkStats (Store.count_turmas (uid u) (User.id u) d')
                         (Store.count_atividades (uid u) (User.id u) d')
                         (Store.count_pending (uid u) (User.id u) d')
  /\ db (world sys') = d'
  /\ filter is_toast (trace sys')
     = filter is_toast tr ++ [Toast "Sucesso" "Turma atualizada com sucesso!" false].
Proof.
  intros Hc He Hok d' sys'. subst sys'. unfold exec, TurmasManager.handleSubmit.
  rewrite bind_own. cbv beta zeta. cbn [fst comp]. rewrite He.
  erewrite bind_val by (apply mutate_calm; exact (calm_head _ _ Hc)).
  cbn [error world db]. rewrite Hok. fold d'.
  apply calm_served in Hc.
  erewrite bind_val by reflexivity.
  erewrite bind_val
    by (eapply spawn_val; apply loadTurmas_calm; exact (calm_head _ _ Hc)).
  apply calm_served in Hc.
  erewrite bind_val
    by (eapply spawn_val; unfold in_parent; cbn [comp snd world trace];
        rewrite loadStats_calm by exact Hc; reflexivity).
  cbn. rewrite <- !app_assoc, !filter_app. cbn. repeat split; reflexivity.
Qed.

(** X14: editing one of one's own classes and submitting, when nothing
    fails: the reloaded list holds the row under the same id and creation
    time, carrying the form's values and stamped with the time of the
    update; the dashboard's class total is what the store held before; and
    the dialog is back to a blank form. *)
Theorem edited_turma_is_replaced_in_place :
  forall (u : User.t) (s : TurmasManager.State) (p : Dashboard.State) (w : World)
         (tr : list Effect) (c : Turma.row),
    wf (db w) ->
    In c (Store.turmas (db w)) ->
    Turma.teacher_id c = User.id u ->
    In (User.id u) (Store.users (db w)) ->
    TurmasManager.editingTurma s = Some c ->
    calm 5 w ->
    let f := TurmasManager.formData s in
    let sys' := exec (TurmasManager.handleSubmit (Dashboard.loadStats (Some u)) (Some u))
                     (mkSys (s, p) w tr) in
    In (Turma.mk (Turma.id c) (User.id u) (TurmasManager.name f)
                 (JS.or_null (TurmasManager.description f))
                 (JS.or_null (TurmasManager.grade_level f))
                 (JS.or_null (TurmasManager.subject f))
                 (Turma.created_at c) (Store.now (db w)))
       (TurmasManager.turmas (fst (comp sys')))
    /\ Dashboard.totalTurmas (Dashboard.stats (snd (comp sys')))
       = Store.count_turmas (uid u) (User.id u) (db w)
    /\ length (TurmasManager.turmas (fst (comp sys')))
       = Store.count_turmas (uid u) (User.id u) (db w).
Proof.
  intros u s p w tr c Hwf Hc Hown Hu He Hcalm f sys'.
  pose proof (update_turma_accepted u c (TurmasManager.turmaData f u) (db w)
                Hc Hown eq_refl Hu) as Hupd.
  assert (Hok : fst (Store.update_turma (uid u) (Turma.id c)
                       (TurmasManager.turmaData f u) (db w)) = None)
    by now rewrite Hupd.
  destruct (turma_update_flow u s p w tr c Hcalm He Hok) as (Hl & Hst & _ & _).
  fold f sys' in Hl, Hst. rewrite Hupd in Hl, Hst. cbn [snd] in Hl, Hst.
  rewrite Hl, Hst. cbn [Dashboard.totalTurmas].
  assert (Hvis : Store.visible_turma (uid u) (User.id u) c = true)
    by (unfold Store.visible_turma; now rewrite Hown, policy_own, String.eqb_refl).
  assert (Hcount :
            Store.count_turmas (uid u) (User.id u)
              (Store.mkDB (Store.users (db w))
                 (map (fun r => if Store.hit_turma (uid u) (Turma.id c) r
                                then Store.patch_turma (TurmasManager.turmaData f u)
                                       (Store.now (db w)) r else r)
                      (Store.turmas (db w)))
                 (Store.atividades (db w)) (S (Store.now (db w)))
                 (Store.uuid_src (db w)) (Store.uuid_ix (db w)))
            = Store.count_turmas (uid u) (User.id u) (db w)).
  { unfold Store.count_turmas, Store.select_turmas. cbn [Store.turmas].
    pose proof (update_one_filter Turma.id (Store.hit_turma (uid u) (Turma.id c))
                  (Store.visible_turma (uid u) (User.id u))
                  (Store.patch_turma (TurmasManager.turmaData f u) (Store.now (db w)))
                  (Store.turmas (db w)) c (wf_key Hwf) Hc (hit_turma_own u c Hown)
                  (fun r Hr => hit_turma_key _ _ r Hr)) as Hone.
    rewrite Hvis in Hone.
    assert (Hvp : Store.visible_turma (uid u) (User.id u)
                    (Store.patch_turma (TurmasManager.turmaData f u)
                                       (Store.now (db w)) c) = true)
      by (unfold Store.visible_turma;
          cbn [Store.patch_turma Turma.teacher_id TurmasManager.turmaData
               TurmaData.teacher_id];
          now rewrite policy_own, String.eqb_refl).
    rewrite Hvp in Hone. lia. }
  split; [ | split ].
  - unfold Store.select_turmas_ordered, Store.select_turmas. cbn [Store.turmas].
    rewrite in_order_desc, filter_In. split.
    + apply in_map_iff. exists c. split; [ | exact Hc ].
      now rewrite (hit_turma_own u c Hown).
    + unfold Store.visible_turma. cbn [Turma.teacher_id].
      now rewrite policy_own, String.eqb_refl.
  - exact Hcount.
  - unfold Store.select_turmas_ordered.
    rewrite (Permutation_length (order_desc_perm _ _)). exact Hcount.
Qed.

Lemma edited_turma_is_replaced_in_place_witness :
  let s := TurmasManager.mkState [sample_turma] false true (Some sample_turma)
             (TurmasManager.mkForm "5º Ano B" "" "" "Artes") in
  let sys' := exec (TurmasManager.handleSubmit (Dashboard.loadStats (Some ana)) (Some ana))
                   (mkSys (s, Dashboard.initial) (mkWorld db_one_class [] []) []) in
  In (Turma.mk "id-" "ana" "5º Ano B" None None (Some "Artes") 0 1)
     (TurmasManager.turmas (fst (comp sys'))).
Proof.
  intros s.
  refine (proj1 (edited_turma_is_replaced_in_place ana s Dashboard.initial
                   (mkWorld db_one_class [] []) [] sample_turma
                   _ (or_introl eq_refl) eq_refl (or_introl eq_refl) eq_refl
                   (calm_no_faults 5 db_one_class []))).
  constructor; cbn.
  - exact sample_uuid_injective.
  - intros r [<- | []]. exists 0. split; [lia | reflexivity].
  - repeat constructor. intros [].
Defined.

(** X15: the store answers a write that matches no row of the caller with
    no error, and the managers take that for success: submitting an edit of
    a class that is no longer there, or deleting it again, raises the success
    toast while both tables stay exactly as they were. *)
Theorem write_to_missing_row_reports_success :
  forall (u : User.t) (p : Dashboard.State) (w : World) (tr : list Effect) (id : uuid),
    fault_at 0 w = NoFault ->
    (forall r, In r (Store.turmas (db w)) -> Store.hit_turma (uid u) id r = false) ->
    (forall (s : TurmasManager.State) (t : Turma.row),
        TurmasManager.editingTurma s = Some t ->
        Turma.id t = id ->
        let sys' := exec (TurmasManager.handleSubmit (Dashboard.loadStats (Some u))
                                                     (Some u))
                         (mkSys (s, p) w tr) in
        db (world sys') = db w
        /\ exists rest,
            trace sys' = tr ++ Sent (ReqUpdateTurma id
                                       (TurmasManager.turmaData
                                          (TurmasManager.formData s) u))
                            :: Toast "Sucesso" "Turma atualizada com sucesso!" false
                            :: rest)
    /\ (forall s : TurmasManager.State,
           let sys' := exec (TurmasManager.handleDelete (Dashboard.loadStats (Some u))
                                                        (Some u) true id)
                            (mkSys (s, p) w tr) in
           Store.turmas (db (world sys')) = Store.turmas (db w)
           /\ Store.atividades (db (world sys')) = Store.atividades (db w)
           /\ exists rest,
               trace sys' = tr ++ Sent (ReqDeleteTurma id)
                               :: Toast "Sucesso" "Turma excluída com sucesso!" false
                               :: rest).
Proof.
  intros u p w tr id Hf Hmiss.
  assert (Hex : existsb (Store.hit_turma (uid u) id) (Store.turmas (db w)) = false).
  { destruct (existsb _ _) eqn:E; [ | reflexivity ].
    apply existsb_exists in E. destruct E as (r & Hr & Hh).
    rewrite (Hmiss r Hr) in Hh. discriminate. }
  split.
  - intros s t He <-. cbv zeta.
    match goal with |- context [exec ?m ?x] => remember (exec m x) as sys' eqn:Hs end.
    unfold exec, TurmasManager.handleSubmit in Hs. rewrite bind_own in Hs.
    cbv beta zeta in Hs. cbn [fst comp] in Hs. rewrite He in Hs.
    erewrite bind_val in Hs by (apply mutate_calm; exact Hf).
    unfold Store.update_turma in Hs. cbn [world db comp trace] in Hs.
    rewrite Hex in Hs. cbn [error fst snd] in Hs.
    destruct (turma_success_tail u "Turma atualizada com sucesso!"
                (mkSys (s, p) (with_db (db w) (served w))
                       (tr ++ [Sent (ReqUpdateTurma (Turma.id t)
                                 (TurmasManager.turmaData (TurmasManager.formData s) u))])))
      as (_ & _ & _ & Hdb & rest & Htr).
    rewrite <- Hs in Hdb, Htr. split; [exact Hdb|].
    exists rest. rewrite Htr. cbn [trace]. now rewrite <- app_assoc.
  - intros s. cbv zeta.
    match goal with |- context [exec ?m ?x] => remember (exec m x) as sys' eqn:Hs end.
    pose proof (handleDelete_reaches_store u s p w tr id Hf) as Hdb.
    rewrite <- Hs in Hdb. rewrite Hdb. cbn [Store.delete_turma snd Store.turmas Store.atividades].
    assert (Hnone : filter (Store.hit_turma (uid u) id) (Store.turmas (db w)) = [])
      by now apply filter_none.
    split; [ | split ].
    + apply filter_all. intros r Hr. now rewrite (Hmiss r Hr).
    + rewrite Hnone. now apply filter_all.
    + unfold exec, TurmasManager.handleDelete in Hs. cbn [negb] in Hs.
      erewrite bind_val in Hs by (apply mutate_calm; exact Hf).
      cbn [error fst Store.delete_turma] in Hs.
      unfold toast in Hs. rewrite bind_emit, bind_spawn in Hs.
      cbn [comp world trace] in Hs.
      match type of Hs with
      | _ = snd (spawn ?m2 (snd (?m1 ?sys0))) =>
          destruct (grows_loadTurmas (P := Dashboard.State) (Some u) sys0) as [n1 H1];
          destruct (grows_in_parent (S := TurmasManager.State) _
                      (grows_loadStats (Some u)) (snd (m1 sys0))) as [n2 H2]
      end.
      exists (n1 ++ n2). rewrite Hs. unfold spawn. cbn [snd].
      rewrite H2, H1. cbn [trace]. now rewrite <- !app_assoc.
Qed.

Lemma write_to_missing_row_reports_success_witness :
  let sys' := exec (TurmasManager.handleDelete (Dashboard.loadStats (Some ana)) (Some ana)
                                               true "id-gone")
                   (mkSys (TurmasManager.initial, Dashboard.initial)
                          (mkWorld db_one_assignment [] []) []) in
  Store.turmas (db (world sys')) = Store.turmas db_one_assignment
  /\ Store.atividades (db (world sys')) = Store.atividades db_one_assignment
  /\ exists rest,
      trace sys' = [] ++ Sent (ReqDeleteTurma "id-gone")
                      :: Toast "Sucesso" "Turma excluída com sucesso!" false :: rest.
Proof.
  refine (proj2 (write_to_missing_row_reports_success ana Dashboard.initial
                   (mkWorld db_one_assignment [] []) [] "id-gone" eq_refl _)
                TurmasManager.initial).
  intros r [<- | []]. reflexivity.
Defined.

(** ** What is saved is what was typed *)

Lemma sentinel_reopened (x : string) : JS.or_str (JS.or_null x) "" = x.
Proof.
  unfold JS.or_null. destruct (String.eqb x "") eqn:E; cbn.
  - apply String.eqb_eq in E. now subst.
  - now rewrite E.
Qed.

Lemma or_null_clean (x : string) : clean (JS.or_null x).
Proof.
  unfold clean, JS.or_null. destruct (String.eqb x "") eqn:E; [discriminate|].
  intros [= ->]. discriminate.
Qed.

(** X16: a row written from a form opens again as that form: whatever was
    typed, [startEdit] on the row that an insert or an update stored shows
    the same field values, and the optional text fields of a stored row are
    never the empty string (an emptied field is stored as null). *)
Theorem saved_form_reopens_as_typed :
  forall (u : User.t),
    (forall (f : TurmasManager.FormData) (r : Turma.row) (t : nat),
        let r' := Store.patch_turma (TurmasManager.turmaData f u) t r in
        TurmasManager.form_of r' = f
        /\ clean (Turma.description r') /\ clean (Turma.grade_level r')
        /\ clean (Turma.subject r'))
    /\ (forall (f : TurmasManager.FormData) (d : Store.DB),
           fst (Store.insert_turma (uid u) (TurmasManager.turmaData f u) d) = None ->
           exists r,
             In r (Store.turmas (snd (Store.insert_turma (uid u)
                                        (TurmasManager.turmaData f u) d)))
             /\ Turma.id r = Store.next_uuid d
             /\ TurmasManager.form_of r = f)
    /\ (forall (g : AtividadesManager.FormData) (r : Atividade.row) (t : nat)
               (n : option string),
           let r' := Store.patch_atividade (AtividadesManager.atividadeData g u) t r in
           AtividadesManager.form_of (r', n) = g
           /\ clean (Atividade.description r') /\ clean (Atividade.due_date r'))
    /\ (forall (g : AtividadesManager.FormData) (d : Store.DB),
           fst (Store.insert_atividade (uid u)
                  (AtividadesManager.atividadeData g u) d) = None ->
           exists r,
             In r (Store.atividades (snd (Store.insert_atividade (uid u)
                                            (AtividadesManager.atividadeData g u) d)))
             /\ Atividade.id r = Store.next_uuid d
             /\ forall n, AtividadesManager.form_of (r, n) = g).
Proof.
  intros u. split; [ | split; [ | split ] ].
  - intros [n de g s] r t. cbn. unfold TurmasManager.form_of. cbn.
    rewrite !sentinel_reopened. repeat split; apply or_null_clean.
  - intros [n de g s] d Hok.
    destruct (insert_turma_accepted _ _ _ Hok) as (_ & _ & Ht & _).
    eexists. split; [ rewrite Ht; apply in_or_app; right; left; reflexivity | ].
    split; [reflexivity|].
    unfold TurmasManager.form_of. cbn. now rewrite !sentinel_reopened.
  - intros [ti de du st tu] r t n. cbn. unfold AtividadesManager.form_of. cbn.
    rewrite !sentinel_reopened. repeat split; apply or_null_clean.
  - intros [ti de du st tu] d Hok.
    destruct (insert_atividade_accepted _ _ _ Hok) as (_ & _ & Ha & _).
    eexists. split; [ rewrite Ha; apply in_or_app; right; left; reflexivity | ].
    split; [reflexivity|].
    intros n. unfold AtividadesManager.form_of. cbn. now rewrite !sentinel_reopened.
Qed.

Lemma saved_form_reopens_as_typed_witness :
  let g := AtividadesManager.mkForm "Lista 1" "" "2025-03-01" (Some "pending") "id-" in
  exists r,
    In r (Store.atividades
            (snd (Store.insert_atividade (uid ana)
                    (AtividadesManager.atividadeData g ana) db_one_class)))
    /\ Atividade.id r = Store.next_uuid db_one_class
    /\ forall n, AtividadesManager.form_of (r, n) = g.
Proof.
  intros g.
  exact (proj2 (proj2 (proj2 (saved_form_reopens_as_typed ana))) g db_one_class eq_refl).
Defined.

(** ** The dashboard's numbers *)

Lemma filter_and_le {A : Type} (f g : A -> bool) (l : list A) :
  length (filter (fun x => f x && g x) l) <= length (filter f l).
Proof.
  induction l as [|x l IH]; cbn; [lia|].
  destruct (f x), (g x); cbn; lia.
Qed.

(** X17: after a refresh whose three queries go through, the dashboard shows
    the store's own counts for the signed-in teacher, the pending count never
    exceeds the assignment total, neither exceeds the number of rows stored,
    and the spinner is off. *)
Theorem refreshed_stats_are_the_store_counts :
  forall (u : User.t) (s : Dashboard.State) (w : World) (tr : list Effect),
    calm 3 w ->
    let sys' := exec (Dashboard.loadStats (Some u)) (mkSys s w tr) in
    let st := Dashboard.stats (comp sys') in
    st = Dashboard.mkStats (Store.count_turmas (uid u) (User.id u) (db w))
                           (Store.count_atividades (uid u) (User.id u) (db w))
                           (Store.count_pending (uid u) (User.id u) (db w))
    /\ Dashboard.atividadesPendentes st <= Dashboard.totalAtividades st
    /\ Dashboard.totalAtividades st <= length (Store.atividades (db w))
    /\ Dashboard.totalTurmas st <= length (Store.turmas (db w))
    /\ Dashboard.loading (comp sys') = false.
Proof.
  intros u s w tr Hc sys' st. subst st sys'. unfold exec.
  rewrite (loadStats_calm u s w tr Hc). cbn.
  split; [reflexivity | split; [ | split; [ | split ] ] ].
  - apply filter_and_le.
  - apply filter_length_le.
  - apply filter_length_le.
  - reflexivity.
Qed.

Lemma refreshed_stats_are_the_store_counts_witness :
  Dashboard.stats (comp (exec (Dashboard.loadStats (Some ana))
                              (mkSys Dashboard.initial
                                     (mkWorld db_one_assignment [] []) [])))
  = Dashboard.mkStats (Store.count_turmas (uid ana) (User.id ana) db_one_assignment)
                      (Store.count_atividades (uid ana) (User.id ana) db_one_assignment)
                      (Store.count_pending (uid ana) (User.id ana) db_one_assignment).
Proof.
  exact (proj1 (refreshed_stats_are_the_store_counts ana Dashboard.initial
                  (mkWorld db_one_assignment [] []) []
                  (calm_no_faults 3 db_one_assignment []))).
Defined.

(** ** The pending count follows the status *)

Lemma atividade_create_stats (u : User.t) (s : AtividadesManager.State)
      (p : Dashboard.State) (w : World) (tr : list Effect) :
  calm 6 w ->
  AtividadesManager.editingAtividade s = None ->
  fst (Store.insert_atividade (uid u)
         (AtividadesManager.atividadeData (AtividadesManager.formData s) u) (db w)) = None ->
  let d' := snd (Store.insert_atividade (uid u)
                   (AtividadesManager.atividadeData (AtividadesManager.formData s) u)
                   (db w)) in
  Dashboard.stats
    (snd (comp (exec (AtividadesManager.handleSubmit (Dashboard.loadStats (Some u))
                                                     (Some u))
                     (mkSys (s, p) w tr))))
  = Dashboard.mkStats (Store.count_turmas (uid u) (User.id u) d')
                      (Store.count_atividades (uid u) (User.id u) d')
                      (Store.count_pending (uid u) (User.id u) d').
Proof.
  intros Hc He Hok d'. unfold exec, AtividadesManager.handleSubmit.
  rewrite bind_own. cbv beta zeta. cbn [fst comp]. rewrite He.
  erewrite bind_val by (apply mutate_calm; exact (calm_head _ _ Hc)).
  cbn [error world db]. rewrite Hok. fold d'.
  apply calm_served in Hc.
  erewrite bind_val by reflexivity.
  erewrite bind_val
    by (eapply spawn_val; apply loadData_calm; intros i Hi; apply Hc; lia).
  apply calm_served, calm_served in Hc.
  erewrite bind_val
    by (eapply spawn_val; unfold in_parent; cbn [comp snd world trace];
        rewrite loadStats_calm by exact Hc; reflexivity).
  reflexivity.
Qed.

Lemma atividade_update_flow (u : User.t) (s : AtividadesManager.State)
      (p : Dashboard.State) (w : World) (tr : list Effect) (a : AtividadesManager.Loaded) :
  calm 6 w ->
  AtividadesManager.editingAtividade s = Some a ->
  fst (Store.update_atividade (uid u) (Atividade.id (fst a))
         (AtividadesManager.atividadeData (AtividadesManager.formData s) u) (db w)) = None ->
  let d' := snd (Store.update_atividade (uid u) (Atividade.id (fst a))
                   (AtividadesManager.atividadeData (AtividadesManager.formData s) u)
                   (db w)) in
  let sys' := exec (AtividadesManager.handleSubmit (Dashboard.loadStats (Some u)) (Some u))
                   (mkSys (s, p) w tr) in
  AtividadesManager.atividades (fst (comp sys'))
  = Store.select_atividades (uid u) (User.id u) d'
  /\ Dashboard.stats (snd (comp sys'))
     = Dashboard.mkStats (Store.count_turmas (uid u) (User.id u) d')
                         (Store.count_atividades (uid u) (User.id u) d')
                         (Store.count_pending (uid u) (User.id u) d').
Proof.
  intros Hc He Hok d' sys'. subst sys'. unfold exec, AtividadesManager.handleSubmit.
  rewrite bind_own. cbv beta zeta. cbn [fst comp]. rewrite He.
  erewrite bind_val by (apply mutate_calm; exact (calm_head _ _ Hc)).
  cbn [error world db]. rewrite Hok. fold d'.
  apply calm_served in Hc.
  erewrite bind_val by reflexivity.
  erewrite bind_val
    by (eapply spawn_val; apply loadData_calm; intros i Hi; apply Hc; lia).
  apply calm_served, calm_served in Hc.
  erewrite bind_val
    by (eapply spawn_val; unfold in_parent; cbn [comp snd world trace];
        rewrite loadStats_calm by exact Hc; reflexivity).
  cbn. split; reflexivity.
Qed.

Lemma update_atividade_accepted (u : User.t) (a : Atividade.row) (t : AtividadeData.t)
      (d : Store.DB) :
  In a (Store.atividades d) ->
  Atividade.teacher_id a = User.id u ->
  AtividadeData.teacher_id t = User.id u ->
  In (User.id u) (Store.users d) ->
  In (AtividadeData.turma_id t) (map Turma.id (Store.turmas d)) ->
  (forall v, AtividadeData.status t = Some v -> Store.check_status v = true) ->
  (AtividadeData.status t = None ->
   forall r, In r (Store.atividades d) -> Store.check_status (Atividade.status r) = true) ->
  Store.update_atividade (uid u) (Atividade.id a) t d
  = (None,
     Store.mkDB (Store.users d) (Store.turmas d)
       (map (fun r => if Store.hit_atividade (uid u) (Atividade.id a) r
                      then Store.patch_atividade t (Store.now d) r else r)
            (Store.atividades d))
       (S (Store.now d)) (Store.uuid_src d) (Store.uuid_ix d)).
Proof.
  intros Ha Hown Ht Hu Hfk Hst Hkeep. unfold Store.update_atividade.
  assert (He : existsb (Store.hit_atividade (uid u) (Atividade.id a))
                       (Store.atividades d) = true).
  { apply existsb_exists. exists a. split; [exact Ha | now apply hit_atividade_own]. }
  assert (Hm1 : mem (AtividadeData.turma_id t) (map Turma.id (Store.turmas d)) = true)
    by now apply mem_In.
  assert (Hm2 : mem (AtividadeData.teacher_id t) (Store.users d) = true)
    by (apply mem_In; now rewrite Ht).
  assert (Hck : forallb (fun r => negb (Store.hit_atividade (uid u) (Atividade.id a) r)
                                  || Store.check_status
                                       (Atividade.status
                                          (Store.patch_atividade t (Store.now d) r)))
                        (Store.atividades d) = true).
  { apply forallb_forall. intros r Hr. apply orb_true_iff. right. cbn.
    destruct (AtividadeData.status t) as [v|] eqn:E.
    - now apply Hst.
    - now apply Hkeep. }
  rewrite He, Hm1, Hm2, Hck, Ht, policy_own. reflexivity.
Qed.

(** X18: the pending count follows the status that is saved.  When nothing
    fails, creating an assignment raises the dashboard's pending count by one
    if the form's status is [pending] (as it is in a fresh form) and leaves
    it alone otherwise; editing one of one's own assignments keeps the total
    and moves the pending count by the difference between the old and the new
    status only. *)
Theorem pending_count_follows_status :
  forall (u : User.t) (p : Dashboard.State) (w : World) (tr : list Effect),
    calm 6 w ->
    (forall s : AtividadesManager.State,
        AtividadesManager.editingAtividade s = None ->
        fst (Store.insert_atividade (uid u)
               (AtividadesManager.atividadeData (AtividadesManager.formData s) u)
               (db w)) = None ->
        let st := Dashboard.stats
                    (snd (comp (exec (AtividadesManager.handleSubmit
                                        (Dashboard.loadStats (Some u)) (Some u))
                                     (mkSys (s, p) w tr)))) in
        Dashboard.atividadesPendentes st
        = Store.count_pending (uid u) (User.id u) (db w)
          + (match AtividadesManager.status (AtividadesManager.formData s) with
             | Some v => if String.eqb v "pending" then 1 else 0
             | None => 0
             end))
    /\ (forall (s : AtividadesManager.State) (a : AtividadesManager.Loaded),
           assignments_keyed (db w) ->
           In (fst a) (Store.atividades (db w)) ->
           Atividade.teacher_id (fst a) = User.id u ->
           In (User.id u) (Store.users (db w)) ->
           AtividadesManager.editingAtividade s = Some a ->
           In (AtividadesManager.turma_id (AtividadesManager.formData s))
              (map Turma.id (Store.turmas (db w))) ->
           Store.check_status (AtividadesManager.status (AtividadesManager.formData s))
           = true ->
           let st := Dashboard.stats
                       (snd (comp (exec (AtividadesManager.handleSubmit
                                           (Dashboard.loadStats (Some u)) (Some u))
                                        (mkSys (s, p) w tr)))) in
           Dashboard.totalAtividades st
           = Store.count_atividades (uid u) (User.id u) (db w)
           /\ Dashboard.atividadesPendentes st
              + (if Store.is_pending (fst a) then 1 else 0)
              = Store.count_pending (uid u) (User.id u) (db w)
                + (match AtividadesManager.status (AtividadesManager.formData s) with
                   | Some v => if String.eqb v "pending" then 1 else 0
                   | None => 0
                   end)).
Proof.
  intros u p w tr Hcalm. split.
  - intros s He Hok st. subst st.
    rewrite (atividade_create_stats u s p w tr Hcalm He Hok).
    cbn [Dashboard.atividadesPendentes].
    destruct (insert_atividade_accepted _ _ _ Hok) as (_ & _ & Ha & _).
    unfold Store.count_pending. rewrite Ha, filter_app, length_app. f_equal.
    cbn [filter]. unfold Store.visible_atividade, Store.is_pending.
    cbn [Atividade.teacher_id Atividade.status AtividadesManager.atividadeData
         AtividadeData.teacher_id AtividadeData.status Store.status_column].
    rewrite policy_own, String.eqb_refl. cbn [andb].
    destruct (AtividadesManager.status (AtividadesManager.formData s)) as [v|];
      [ destruct (String.eqb v "pending") | ]; reflexivity.
  - intros s a Hkey Ha Hown Hu He Hfk Hck st. subst st.
    pose proof (update_atividade_accepted u (fst a)
                  (AtividadesManager.atividadeData (AtividadesManager.formData s) u)
                  (db w) Ha Hown eq_refl Hu Hfk) as Hupd.
    cbn [AtividadesManager.atividadeData AtividadeData.status] in Hupd.
    specialize (Hupd ltac:(intros v [= <-]; exact Hck) ltac:(discriminate)).
    assert (Hok : fst (Store.update_atividade (uid u) (Atividade.id (fst a))
                         (AtividadesManager.atividadeData
                            (AtividadesManager.formData s) u) (db w)) = None)
      by now rewrite Hupd.
    destruct (atividade_update_flow u s p w tr a Hcalm He Hok) as (_ & Hst).
    rewrite Hst, Hupd. cbn [snd Dashboard.totalAtividades Dashboard.atividadesPendentes].
    assert (Hvis : Store.visible_atividade (uid u) (User.id u) (fst a) = true)
      by (unfold Store.visible_atividade; now rewrite Hown, policy_own, String.eqb_refl).
    set (t := AtividadesManager.atividadeData (AtividadesManager.formData s) u) in *.
    assert (Hvp : Store.visible_atividade (uid u) (User.id u)
                    (Store.patch_atividade t (Store.now (db w)) (fst a)) = true).
    { unfold Store.visible_atividade.
      cbn [Store.patch_atividade Atividade.teacher_id t AtividadesManager.atividadeData
           AtividadeData.teacher_id].
      now rewrite policy_own, String.eqb_refl. }
    split.
    + unfold Store.count_atividades. cbn [Store.atividades].
      pose proof (update_one_filter Atividade.id
                    (Store.hit_atividade (uid u) (Atividade.id (fst a)))
                    (Store.visible_atividade (uid u) (User.id u))
                    (Store.patch_atividade t (Store.now (db w)))
                    (Store.atividades (db w)) (fst a) Hkey Ha
                    (hit_atividade_own u (fst a) Hown)
                    (fun r Hr => hit_atividade_key _ _ r Hr)) as Hone.
      rewrite Hvis, Hvp in Hone. lia.
    + unfold Store.count_pending. cbn [Store.atividades].
      pose proof (update_one_filter Atividade.id
                    (Store.hit_atividade (uid u) (Atividade.id (fst a)))
                    (fun r => Store.visible_atividade (uid u) (User.id u) r
                              && Store.is_pending r)
                    (Store.patch_atividade t (Store.now (db w)))
                    (Store.atividades (db w)) (fst a) Hkey Ha
                    (hit_atividade_own u (fst a) Hown)
                    (fun r Hr => hit_atividade_key _ _ r Hr)) as Hone.
      cbv beta in Hone. rewrite Hvis, Hvp in Hone. cbn [andb] in Hone.
      replace (Store.is_pending (Store.patch_atividade t (Store.now (db w)) (fst a)))
        with (match AtividadesManager.status (AtividadesManager.formData s) with
              | Some v => String.eqb v "pending"
              | None => false
              end) in Hone by reflexivity.
      destruct (AtividadesManager.status (AtividadesManager.formData s)) as [v|];
        [ destruct (String.eqb v "pending") | ]; lia.
Qed.

Lemma pending_count_follows_status_witness :
  let s := AtividadesManager.mkState [] [] false true (Some (sample_atividade, None))
             (AtividadesManager.mkForm "Lista 1" "" "" (Some "completed") "id-") in
  let st := Dashboard.stats
              (snd (comp (exec (AtividadesManager.handleSubmit
                                  (Dashboard.loadStats (Some ana)) (Some ana))
                               (mkSys (s, Dashboard.initial)
                                      (mkWorld db_one_assignment [] []) [])))) in
  Dashboard.totalAtividades st
  = Store.count_atividades (uid ana) (User.id ana) db_one_assignment
  /\ Dashboard.atividadesPendentes st + (if Store.is_pending sample_atividade then 1 else 0)
     = Store.count_pending (uid ana) (User.id ana) db_one_assignment + 0.
Proof.
  intros s.
  refine (proj2 (pending_count_follows_status ana Dashboard.initial
                   (mkWorld db_one_assignment [] []) []
                   (calm_no_faults 6 db_one_assignment []))
                s (sample_atividade, None) _ (or_introl eq_refl) eq_refl
                (or_introl eq_refl) eq_refl (or_introl eq_refl) eq_refl).
  unfold assignments_keyed. cbn. repeat constructor. intros [].
Defined.

(** ** The status CHECK on writes *)

(** X19: a write that carries a status text other than the three is never
    applied: such an insert is refused, and after such an insert or update
    both tables are exactly as they were. *)
Theorem other_status_is_never_written :
  forall (auth : option uuid) (t : AtividadeData.t) (v : string) (id : uuid) (d : Store.DB),
    AtividadeData.status t = Some (Some v) ->
    v <> "pending" -> v <> "in_progress" -> v <> "completed" ->
    fst (Store.insert_atividade auth t d) <> None
    /\ Store.atividades (snd (Store.insert_atividade auth t d)) = Store.atividades d
    /\ Store.atividades (snd (Store.update_atividade auth id t d)) = Store.atividades d
    /\ (existsb (Store.hit_atividade auth id) (Store.atividades d) = true ->
        fst (Store.update_atividade auth id t d) <> None).
Proof.
  intros auth t v id d Hs H1 H2 H3.
  assert (Hck : Store.check_status (Some v) = false).
  { destruct (Store.check_status (Some v)) eqn:E; [ | reflexivity ].
    apply check_status_text in E. intuition. }
  split; [ | split; [ | split ] ].
  - unfold Store.insert_atividade. rewrite Hs. cbn [Store.status_column]. rewrite Hck.
    cbn [negb]. split_ifs; cbn; discriminate.
  - unfold Store.insert_atividade. rewrite Hs. cbn [Store.status_column]. rewrite Hck.
    cbn [negb]. split_ifs; reflexivity.
  - unfold Store.update_atividade.
    destruct (existsb (Store.hit_atividade auth id) (Store.atividades d)) eqn:Eh;
      [ | reflexivity ].
    destruct (negb (mem _ _)); [reflexivity|].
    destruct (negb (mem _ _)); [reflexivity|].
    assert (Hall : forallb (fun r => negb (Store.hit_atividade auth id r)
                                     || Store.check_status
                                          (Atividade.status
                                             (Store.patch_atividade t (Store.now d) r)))
                           (Store.atividades d) = false).
    { apply existsb_exists in Eh. destruct Eh as (r & Hr & Hh).
      destruct (forallb _ _) eqn:Ef; [ | reflexivity ].
      rewrite forallb_forall in Ef. specialize (Ef r Hr).
      assert (Hst : Atividade.status (Store.patch_atividade t (Store.now d) r) = Some v)
        by (cbn [Store.patch_atividade Atividade.status]; now rewrite Hs).
      rewrite Hh, Hst, Hck in Ef. discriminate Ef. }
    rewrite Hall. reflexivity.
  - intros Eh. unfold Store.update_atividade. rewrite Eh.
    destruct (negb (mem _ _)); [discriminate|].
    destruct (negb (mem _ _)); [discriminate|].
    assert (Hall : forallb (fun r => negb (Store.hit_atividade auth id r)
                                     || Store.check_status
                                          (Atividade.status
                                             (Store.patch_atividade t (Store.now d) r)))
                           (Store.atividades d) = false).
    { apply existsb_exists in Eh. destruct Eh as (r & Hr & Hh).
      destruct (forallb _ _) eqn:Ef; [ | reflexivity ].
      rewrite forallb_forall in Ef. specialize (Ef r Hr).
      assert (Hst : Atividade.status (Store.patch_atividade t (Store.now d) r) = Some v)
        by (cbn [Store.patch_atividade Atividade.status]; now rewrite Hs).
      rewrite Hh, Hst, Hck in Ef. discriminate Ef. }
    rewrite Hall. discriminate.
Qed.

Lemma other_status_is_never_written_witness :
  let t := AtividadeData.mk "Lista 1" None None (Some (Some "late")) "id-" "ana" in
  fst (Store.insert_atividade (Some "ana") t db_one_class) <> None
  /\ Store.atividades (snd (Store.insert_atividade (Some "ana") t db_one_class))
     = Store.atividades db_one_class.
Proof.
  intros t.
  pose proof (other_status_is_never_written (Some "ana") t "late" "id-i" db_one_class
                eq_refl) as H.
  destruct H as (H1 & H2 & _); try (intro E; discriminate E).
  now split.
Defined.

(** ** From the trigger button to the request *)

Lemma turma_create_sends_insert (u : User.t) (s : TurmasManager.State)
      (p : Dashboard.State) (w : World) (tr : list Effect) :
  TurmasManager.editingTurma s = None ->
  exists rest,
    trace (snd (TurmasManager.handleSubmit (Dashboard.loadStats (Some u)) (Some u)
                                           (mkSys (s, p) w tr)))
    = tr ++ Sent (ReqInsertTurma (TurmasManager.turmaData (TurmasManager.formData s) u))
            :: rest.
Proof.
  intros He. unfold TurmasManager.handleSubmit.
  rewrite bind_own. cbv beta zeta. cbn [fst comp]. rewrite He.
  apply (mutate_then (S := TurmasManager.State * Dashboard.State)).
  intros r. grows_tac.
Qed.

(** X20: opening the dialog with "Nova Turma", typing a name and a subject
    and submitting sends an insert that carries exactly what was typed and
    null for the fields left empty, whatever a dismissed dialog had left in
    the form or in the editing reference; with the name left empty the
    browser's required-field check keeps the submission from being sent. *)
Theorem typed_class_is_what_is_sent :
  forall (u : User.t) (s : TurmasManager.State) (p : Dashboard.State) (w : World)
         (tr : list Effect) (nm sb : string),
    TurmasManager.loading s = false ->
    TurmasManager.isDialogOpen s = false ->
    let sys' := exec (TurmasManager.run (Dashboard.loadStats (Some u)) (Some u)
                        [TurmasManager.ClickNovaTurma;
                         TurmasManager.Input "name" nm;
                         TurmasManager.Input "subject" sb;
                         TurmasManager.Submit])
                     (mkSys (s, p) w tr) in
    (nm = "" -> trace sys' = tr /\ db (world sys') = db w)
    /\ (nm <> "" ->
        exists rest,
          trace sys' = tr ++ Sent (ReqInsertTurma
                                     (TurmaData.mk nm None None (JS.or_null sb) (User.id u)))
                          :: rest).
Proof.
  intros u [ts ld op ed fm] p w tr nm sb Hl Ho. cbn in Hl, Ho. subst ld op.
  cbv zeta. unfold exec.
  assert (Hrun :
            TurmasManager.run (Dashboard.loadStats (Some u)) (Some u)
              [TurmasManager.ClickNovaTurma; TurmasManager.Input "name" nm;
               TurmasManager.Input "subject" sb; TurmasManager.Submit]
              (mkSys (TurmasManager.mkState ts false false ed fm, p) w tr)
            = (Val tt,
               snd ((if String.eqb nm "" then ret tt
                     else TurmasManager.handleSubmit (Dashboard.loadStats (Some u)) (Some u))
                      (mkSys (TurmasManager.mkState ts false true None
                                (TurmasManager.mkForm nm "" "" sb), p) w tr)))).
  { reflexivity. }
  rewrite Hrun. cbn [snd]. split.
  - intros ->. cbn. now split.
  - intros Hn. apply String.eqb_neq in Hn. rewrite Hn.
    destruct (turma_create_sends_insert u
                (TurmasManager.mkState ts false true None
                   (TurmasManager.mkForm nm "" "" sb)) p w tr eq_refl) as [rest Hr].
    exists rest. exact Hr.
Qed.

Lemma typed_class_is_what_is_sent_witness :
  let s := TurmasManager.mkState [] false false (Some sample_turma)
             (TurmasManager.form_of sample_turma) in
  exists rest,
    trace (exec (TurmasManager.run (Dashboard.loadStats (Some ana)) (Some ana)
                   [TurmasManager.ClickNovaTurma;
                    TurmasManager.Input "name" "6º Ano B";
                    TurmasManager.Input "subject" "";
                    TurmasManager.Submit])
                (mkSys (s, Dashboard.initial) (mkWorld empty_db [] []) []))
    = [] ++ Sent (ReqInsertTurma (TurmaData.mk "6º Ano B" None None (JS.or_null "") "ana"))
         :: rest.
Proof.
  intros s.
  refine (proj2 (typed_class_is_what_is_sent ana s Dashboard.initial
                   (mkWorld empty_db [] []) [] "6º Ano B" "" eq_refl eq_refl) _).
  discriminate.
Defined.

(** ** Profiles *)

Lemma created_profile (new_id : uuid) (meta : option string) (d : Accounts.DB) :
  fst (Accounts.create_user new_id meta d) = None ->
  mem new_id (map Profile.user_id (Accounts.profiles d)) = false
  /\ mem new_id (map fst (Accounts.users d)) = false
  /\ Accounts.profiles (snd (Accounts.create_user new_id meta d))
     = Accounts.profiles d ++
       [Profile.mk (Accounts.uuid_src d (Accounts.uuid_ix d)) new_id
                   (Accounts.coalesce meta "Professor") None
                   (Accounts.now d) (Accounts.now d)]
  /\ Accounts.users (snd (Accounts.create_user new_id meta d))
     = Accounts.users d ++ [(new_id, meta)].
Proof.
  unfold Accounts.create_user, Accounts.handle_new_user.
  destruct (mem new_id (map fst (Accounts.users d))); [discriminate|].
  destruct (mem new_id (map Profile.user_id (Accounts.profiles d))); [discriminate|].
  destruct (mem _ (map Profile.id (Accounts.profiles d))); [discriminate|].
  cbn. intros _. repeat split.
Qed.

Lemma profiles_ok_kept (new_id : uuid) (meta : option string) (d : Accounts.DB) :
  profiles_ok d -> profiles_ok (snd (Accounts.create_user new_id meta d)).
Proof.
  intros [Hone Hhas].
  destruct (fst (Accounts.create_user new_id meta d)) eqn:E.
  - (* refused: nothing but the generator moved *)
    unfold Accounts.create_user, Accounts.handle_new_user in *.
    destruct (mem new_id (map fst (Accounts.users d))); [now constructor|].
    destruct (mem new_id (map Profile.user_id (Accounts.profiles d)));
      [now constructor|].
    destruct (mem _ (map Profile.id (Accounts.profiles d))); [now constructor|].
    discriminate E.
  - destruct (created_profile new_id meta d E) as (Hfresh & _ & Hp & Hu).
    constructor; rewrite Hp, ?Hu.
    + rewrite map_app. cbn. apply NoDup_snoc; [exact Hone|].
      intros Hin. apply mem_In in Hin. congruence.
    + intros r Hr. rewrite map_app. apply in_or_app.
      apply in_app_or in Hr. destruct Hr as [Hr | [<- | []]].
      * left. now apply Hhas.
      * right. now left.
Qed.

(** X21: when a user is created, the trigger gives them exactly one profile:
    its name is the [full_name] of the sign-up metadata, or "Professor" when
    there is none, and its school is empty; the new user reads it back with
    the single-row select, nobody else can, and profiles stay one per user
    with no profile left without a user. *)
Theorem new_user_gets_one_profile :
  forall (new_id : uuid) (meta : option string) (d : Accounts.DB),
    profiles_ok d ->
    fst (Accounts.create_user new_id meta d) = None ->
    let d' := snd (Accounts.create_user new_id meta d) in
    (exists r,
        Accounts.select_profile_single (Some new_id) new_id d' = Some r
        /\ Profile.user_id r = new_id
        /\ Profile.full_name r = match meta with Some n => n | None => "Professor" end
        /\ Profile.school_name r = None)
    /\ (forall other, other <> new_id ->
                      Accounts.select_profile_single (Some other) new_id d' = None)
    /\ Accounts.select_profile_single None new_id d' = None
    /\ profiles_ok d'.
Proof.
  intros new_id meta d Hok Hacc d'.
  destruct (created_profile new_id meta d Hacc) as (Hfresh & _ & Hp & _).
  fold d' in Hp.
  assert (Hold : forall auth,
             filter (fun r => Store.policy auth (Profile.user_id r)
                              && String.eqb (Profile.user_id r) new_id)
                    (Accounts.profiles d) = []).
  { intros auth. apply filter_none. intros r Hr. apply andb_false_iff. right.
    now apply (fresh_id_unmatched Profile.user_id new_id (Accounts.profiles d)). }
  split; [ | split; [ | split ] ].
  - eexists. unfold Accounts.select_profile_single. rewrite Hp, filter_app, Hold.
    cbn. rewrite !String.eqb_refl. cbn. split; [reflexivity|].
    repeat split.
  - intros other Hne. unfold Accounts.select_profile_single.
    rewrite Hp, filter_app, Hold. cbn.
    destruct (String.eqb other new_id) eqn:E; [ | reflexivity ].
    apply String.eqb_eq in E. now contradiction Hne.
  - unfold Accounts.select_profile_single. rewrite Hp, filter_app, Hold. reflexivity.
  - now apply profiles_ok_kept.
Qed.

Lemma profiles_ok_empty : profiles_ok empty_accounts.
Proof. constructor; cbn; [constructor | intros r []]. Qed.

Lemma new_user_gets_one_profile_witness :
  let d' := snd (Accounts.create_user "ana" (Some "Ana") empty_accounts) in
  exists r,
    Accounts.select_profile_single (Some "ana") "ana" d' = Some r
    /\ Profile.user_id r = "ana"
    /\ Profile.full_name r = "Ana"
    /\ Profile.school_name r = None.
Proof.
  exact (proj1 (new_user_gets_one_profile "ana" (Some "Ana") empty_accounts
                  profiles_ok_empty eq_refl)).
Defined.

(** ** Loading assignments when the class query fails *)

(** X22: in [loadData] a failure of the class query is silent: when it comes
    back as an error and the assignment query goes through, the assignment
    list is replaced, the class list stays as it was (so "Nova Atividade"
    stays disabled if it was empty), only the console is written to and no
    toast is raised. *)
Theorem failed_class_query_is_silent :
  forall (u : User.t) (s : AtividadesManager.State) (p : Dashboard.State) (w : World)
         (tr : list Effect),
    fault_at 0 w = ErrorResult ->
    fault_at 1 w = NoFault ->
    let sys' := exec (AtividadesManager.loadData (Some u)) (mkSys (s, p) w tr) in
    AtividadesManager.turmas (fst (comp sys')) = AtividadesManager.turmas s
    /\ AtividadesManager.novaAtividadeDisabled (fst (comp sys'))
       = AtividadesManager.novaAtividadeDisabled s
    /\ AtividadesManager.atividades (fst (comp sys'))
       = Store.select_atividades (uid u) (User.id u) (db w)
    /\ AtividadesManager.loading (fst (comp sys')) = false
    /\ trace sys' = tr ++ [Sent (ReqSelectTurmaOptions (User.id u));
                           ConsoleError "Error loading turmas:";
                           Sent (ReqSelectAtividades (User.id u))].
Proof.
  intros u s p [d fs ar] tr. rewrite fault_at_0, fault_at_1. intros H0 H1.
  destruct fs as [|f0 fs]; [discriminate|]. subst f0.
  destruct fs as [|f1 fs]; [ | subst f1 ];
    cbn; rewrite <- !app_assoc; repeat split.
Qed.

Lemma failed_class_query_is_silent_witness :
  let sys' := exec (AtividadesManager.loadData (Some ana))
                   (mkSys (AtividadesManager.initial, Dashboard.initial)
                          (mkWorld db_one_assignment [ErrorResult] []) []) in
  AtividadesManager.turmas (fst (comp sys')) = []
  /\ AtividadesManager.novaAtividadeDisabled (fst (comp sys')) = true
  /\ AtividadesManager.atividades (fst (comp sys'))
     = Store.select_atividades (uid ana) (User.id ana) db_one_assignment
  /\ AtividadesManager.loading (fst (comp sys')) = false
  /\ trace sys' = [] ++ [Sent (ReqSelectTurmaOptions "ana");
                         ConsoleError "Error loading turmas:";
                         Sent (ReqSelectAtividades "ana")].
Proof.
  exact (failed_class_query_is_silent ana AtividadesManager.initial Dashboard.initial
           (mkWorld db_one_assignment [ErrorResult] []) [] eq_refl eq_refl).
Defined.

(** ** From the class selector to the stored assignment *)

Lemma atividade_step_val {P : Type} (onStatsChange : M P unit) (user : option User.t)
      (e : AtividadesManager.Event) (sys : Sys (AtividadesManager.State * P)) :
  AtividadesManager.step onStatsChange user e sys
  = (Val tt, exec (AtividadesManager.step onStatsChange user e) sys).
Proof.
  unfold exec, AtividadesManager.step. rewrite bind_own.
  destruct (AtividadesManager.offered (fst (comp sys)) e); reflexivity.
Qed.

Lemma atividade_run_cons {P : Type} (onStatsChange : M P unit) (user : option User.t)
      (e : AtividadesManager.Event) (es : list AtividadesManager.Event)
      (sys : Sys (AtividadesManager.State * P)) :
  exec (AtividadesManager.run onStatsChange user (e :: es)) sys
  = exec (AtividadesManager.run onStatsChange user es)
         (exec (AtividadesManager.step onStatsChange user e) sys).
Proof.
  unfold exec at 1 2. cbn [AtividadesManager.run].
  erewrite bind_val by apply atividade_step_val. reflexivity.
Qed.

Lemma atividade_run_nil {P : Type} (onStatsChange : M P unit) (user : option User.t)
      (sys : Sys (AtividadesManager.State * P)) :
  exec (AtividadesManager.run onStatsChange user []) sys = sys.
Proof. reflexivity. Qed.

Lemma atividade_step_offered {P : Type} (onStatsChange : M P unit) (user : option User.t)
      (e : AtividadesManager.Event) (s : AtividadesManager.State) (p : P) (w : World)
      (tr : list Effect) :
  AtividadesManager.offered s e = true ->
  exec (AtividadesManager.step onStatsChange user e) (mkSys (s, p) w tr)
  = snd (AtividadesManager.handler onStatsChange user s e (mkSys (s, p) w tr)).
Proof.
  intros Ho. unfold exec, AtividadesManager.step. rewrite bind_own. cbn [fst comp].
  now rewrite Ho.
Qed.

Lemma option_is_own_class (u : User.t) (d : Store.DB) (i : nat) (t : TurmaOption.t) :
  nth_error (AtividadesManager.turma_options (uid u) (User.id u) d) i = Some t ->
  exists c, In c (Store.turmas d) /\ Turma.teacher_id c = User.id u
            /\ Turma.id c = TurmaOption.id t /\ Turma.name c = TurmaOption.name t.
Proof.
  intros H. apply nth_error_In in H. unfold AtividadesManager.turma_options in H.
  apply in_map_iff in H. destruct H as (c & <- & Hc).
  unfold Store.select_turmas in Hc. apply filter_In in Hc. destruct Hc as [Hin Hv].
  unfold Store.visible_turma in Hv. apply andb_true_iff in Hv.
  exists c. repeat split; try assumption. now apply String.eqb_eq.
Qed.

(** The rows that [loadData] fetches all render when the stored ones do. *)
Lemma rows_render (u : User.t) (d : Store.DB) :
  cards_render u d ->
  forallb AtividadesManager.card_renders
          (Store.select_atividades (uid u) (User.id u) d) = true.
Proof.
  intros H. apply forallb_forall. intros x Hx.
  unfold Store.select_atividades in Hx. apply in_map_iff in Hx.
  destruct Hx as (a & <- & Ha). apply in_order_desc, filter_In in Ha.
  destruct Ha as [Hin Hv]. apply H; [exact Hin|].
  unfold Store.visible_atividade in Hv. apply andb_true_iff in Hv.
  now apply String.eqb_eq.
Qed.

Lemma mounted_rows (rows : list AtividadesManager.Loaded) (opts : list TurmaOption.t)
      (open : bool) (e : option AtividadesManager.Loaded)
      (f : AtividadesManager.FormData) :
  forallb AtividadesManager.card_renders rows = true ->
  AtividadesManager.mounted (AtividadesManager.mkState rows opts false open e f) = true.
Proof.
  intros H. unfold AtividadesManager.mounted, AtividadesManager.body.
  cbn [AtividadesManager.loading AtividadesManager.turmas AtividadesManager.atividades].
  destruct (JS.is_empty opts); [reflexivity|].
  destruct (JS.is_empty rows); [reflexivity|].
  now rewrite H.
Qed.

(** A loaded row whose card throws takes the page down: no control is left. *)
Lemma unrendered_card_unmounts (s : AtividadesManager.State) (a : AtividadesManager.Loaded)
      (e : AtividadesManager.Event) :
  AtividadesManager.loading s = false ->
  AtividadesManager.turmas s <> [] ->
  In a (AtividadesManager.atividades s) ->
  AtividadesManager.card_renders a = false ->
  AtividadesManager.body s = AtividadesManager.RenderError
  /\ AtividadesManager.offered s e = false.
Proof.
  intros Hl Ht Hin Ha.
  assert (Hb : AtividadesManager.body s = AtividadesManager.RenderError).
  { unfold AtividadesManager.body. rewrite Hl.
    destruct (AtividadesManager.turmas s) as [|t ts]; [now contradiction Ht|].
    destruct (AtividadesManager.atividades s) as [|r rs] eqn:Er; [now destruct Hin|].
    cbn [JS.is_empty].
    destruct (forallb AtividadesManager.card_renders (r :: rs)) eqn:Ef; [ | reflexivity ].
    rewrite forallb_forall in Ef. specialize (Ef a Hin). congruence. }
  split; [exact Hb|].
  unfold AtividadesManager.offered, AtividadesManager.mounted. now rewrite Hb.
Qed.

(** The page once a creation has gone through and the list is reloaded. *)
Lemma atividade_create_page (u : User.t) (s : AtividadesManager.State)
      (p : Dashboard.State) (w : World) (tr : list Effect) :
  calm 6 w ->
  AtividadesManager.editingAtividade s = None ->
  fst (Store.insert_atividade (uid u)
         (AtividadesManager.atividadeData (AtividadesManager.formData s) u) (db w)) = None ->
  let d' := snd (Store.insert_atividade (uid u)
                   (AtividadesManager.atividadeData (AtividadesManager.formData s) u)
                   (db w)) in
  fst (comp (exec (AtividadesManager.handleSubmit (Dashboard.loadStats (Some u)) (Some u))
                  (mkSys (s, p) w tr)))
  = AtividadesManager.mkState (Store.select_atividades (uid u) (User.id u) d')
      (AtividadesManager.turma_options (uid u) (User.id u) d') false false None
      AtividadesManager.blank.
Proof.
  intros Hc He Hok d'. unfold exec, AtividadesManager.handleSubmit.
  rewrite bind_own. cbv beta zeta. cbn [fst comp]. rewrite He.
  erewrite bind_val by (apply mutate_calm; exact (calm_head _ _ Hc)).
  cbn [error world db]. rewrite Hok. fold d'.
  apply calm_served in Hc.
  erewrite bind_val by reflexivity.
  erewrite bind_val
    by (eapply spawn_val; apply loadData_calm; intros i Hi; apply Hc; lia).
  apply calm_served, calm_served in Hc.
  erewrite bind_val
    by (eapply spawn_val; unfold in_parent; cbn [comp snd world trace];
        rewrite loadStats_calm by exact Hc; reflexivity).
  reflexivity.
Qed.

(** X23: the whole path of creating an assignment, when nothing fails and
    the teacher's stored assignments all show as cards.  After the page has
    loaded, opening the dialog with "Nova Atividade", typing a title, picking
    the i-th class of the selector and submitting stores an assignment of
    the signed-in teacher in that class, with status [pending]; the page then
    shows the grid, the reloaded list holds the new row with the class's
    name joined, the dialog is closed, and the dashboard's pending count and
    assignment total are each one more than the store held. *)
Theorem assignment_created_through_the_selector :
  forall (u : User.t) (d : Store.DB) (i : nat) (t : TurmaOption.t) (title : string),
    wf d ->
    cards_render u d ->
    In (User.id u) (Store.users d) ->
    mem (Store.next_uuid d) (map Atividade.id (Store.atividades d)) = false ->
    nth_error (AtividadesManager.turma_options (uid u) (User.id u) d) i = Some t ->
    title <> "" ->
    let sys' := exec (AtividadesManager.run (Dashboard.loadStats (Some u)) (Some u)
                        [AtividadesManager.UserEffect;
                         AtividadesManager.ClickNovaAtividade;
                         AtividadesManager.Input "title" title;
                         AtividadesManager.SelectTurma i;
                         AtividadesManager.Submit])
                     (start AtividadesManager.initial d []) in
    AtividadesManager.body (fst (comp sys')) = AtividadesManager.Grid
    /\ In (Atividade.mk (Store.next_uuid d) (TurmaOption.id t) (User.id u) title None None
                        (Some "pending") (Store.now d) (Store.now d),
           Some (TurmaOption.name t))
          (AtividadesManager.atividades (fst (comp sys')))
    /\ In (Atividade.mk (Store.next_uuid d) (TurmaOption.id t) (User.id u) title None None
                        (Some "pending") (Store.now d) (Store.now d))
          (Store.atividades (db (world sys')))
    /\ AtividadesManager.isDialogOpen (fst (comp sys')) = false
    /\ Dashboard.atividadesPendentes (Dashboard.stats (snd (comp sys')))
       = S (Store.count_pending (uid u) (User.id u) d)
    /\ Dashboard.totalAtividades (Dashboard.stats (snd (comp sys')))
       = S (Store.count_atividades (uid u) (User.id u) d).
Proof.
  intros u d i t title Hwf Hcards Hu Hfresh Hopt Htitle sys'.
  destruct (option_is_own_class u d i t Hopt) as (c & Hc & Hown & Hid & Hname).
  set (opts := AtividadesManager.turma_options (uid u) (User.id u) d) in *.
  set (rows := Store.select_atividades (uid u) (User.id u) d).
  assert (Hne : JS.is_empty opts = false).
  { unfold JS.is_empty. destruct opts; [now destruct i | reflexivity]. }
  assert (Hrows : forallb AtividadesManager.card_renders rows = true)
    by now apply rows_render.
  (* the page loads *)
  assert (H1 : exec (AtividadesManager.step (Dashboard.loadStats (Some u)) (Some u)
                       AtividadesManager.UserEffect)
                    (start AtividadesManager.initial d [])
               = mkSys (AtividadesManager.mkState rows opts false false None
                          AtividadesManager.blank, Dashboard.initial)
                       (mkWorld d [] [])
                       [Sent (ReqSelectTurmaOptions (User.id u));
                        Sent (ReqSelectAtividades (User.id u))]).
  { unfold start. rewrite atividade_step_offered by reflexivity.
    cbn [AtividadesManager.handler]. unfold spawn.
    rewrite loadData_calm by apply calm_no_faults. reflexivity. }
  (* the dialog opens on a blank form *)
  assert (H2 : forall tr,
             exec (AtividadesManager.step (Dashboard.loadStats (Some u)) (Some u)
                     AtividadesManager.ClickNovaAtividade)
                  (mkSys (AtividadesManager.mkState rows opts false false None
                            AtividadesManager.blank, Dashboard.initial)
                         (mkWorld d [] []) tr)
             = mkSys (AtividadesManager.mkState rows opts false true None
                        AtividadesManager.blank, Dashboard.initial)
                     (mkWorld d [] []) tr).
  { intros tr. rewrite atividade_step_offered.
    - reflexivity.
    - unfold AtividadesManager.offered, AtividadesManager.novaAtividadeDisabled.
      rewrite mounted_rows by exact Hrows.
      cbn [AtividadesManager.loading AtividadesManager.turmas]. now rewrite Hne. }
  (* the title is typed *)
  assert (H3 : forall tr,
             exec (AtividadesManager.step (Dashboard.loadStats (Some u)) (Some u)
                     (AtividadesManager.Input "title" title))
                  (mkSys (AtividadesManager.mkState rows opts false true None
                            AtividadesManager.blank, Dashboard.initial)
                         (mkWorld d [] []) tr)
             = mkSys (AtividadesManager.mkState rows opts false true None
                        (AtividadesManager.mkForm title "" "" (Some "pending") ""),
                      Dashboard.initial)
                     (mkWorld d [] []) tr).
  { intros tr. rewrite atividade_step_offered.
    - reflexivity.
    - unfold AtividadesManager.offered. now rewrite mounted_rows by exact Hrows. }
  (* the class is picked *)
  assert (H4 : forall tr,
             exec (AtividadesManager.step (Dashboard.loadStats (Some u)) (Some u)
                     (AtividadesManager.SelectTurma i))
                  (mkSys (AtividadesManager.mkState rows opts false true None
                            (AtividadesManager.mkForm title "" "" (Some "pending") ""),
                          Dashboard.initial)
                         (mkWorld d [] []) tr)
             = mkSys (AtividadesManager.mkState rows opts false true None
                        (AtividadesManager.mkForm title "" "" (Some "pending")
                                                  (TurmaOption.id t)),
                      Dashboard.initial)
                     (mkWorld d [] []) tr).
  { intros tr. rewrite atividade_step_offered.
    - cbn [AtividadesManager.handler AtividadesManager.turmas]. rewrite Hopt. reflexivity.
    - unfold AtividadesManager.offered. rewrite mounted_rows by exact Hrows.
      cbn [andb negb AtividadesManager.loading AtividadesManager.isDialogOpen
           AtividadesManager.turmas].
      now rewrite Hopt. }
  subst sys'. rewrite !atividade_run_cons, H1, H2, H3, H4.
  set (s4 := AtividadesManager.mkState rows opts false true None
               (AtividadesManager.mkForm title "" "" (Some "pending") (TurmaOption.id t))).
  set (tr4 := [Sent (ReqSelectTurmaOptions (User.id u));
               Sent (ReqSelectAtividades (User.id u))]).
  (* the form is submitted *)
  rewrite atividade_step_offered
    by (unfold AtividadesManager.offered, s4; now rewrite mounted_rows by exact Hrows).
  cbn [AtividadesManager.handler AtividadesManager.formData AtividadesManager.title s4].
  apply String.eqb_neq in Htitle. rewrite Htitle.
  rewrite !atividade_run_nil.
  set (payload := AtividadesManager.atividadeData (AtividadesManager.formData s4) u).
  assert (Hok : fst (Store.insert_atividade (uid u) payload d) = None).
  { unfold Store.insert_atividade, payload.
    cbn [AtividadesManager.atividadeData AtividadesManager.formData s4
         AtividadesManager.title AtividadesManager.description AtividadesManager.due_date
         AtividadesManager.status AtividadesManager.turma_id
         AtividadeData.turma_id AtividadeData.teacher_id AtividadeData.status
         Store.status_column].
    assert (Hfk : mem (TurmaOption.id t) (map Turma.id (Store.turmas d)) = true)
      by (apply mem_In; rewrite <- Hid; now apply in_map).
    assert (Hm : mem (User.id u) (Store.users d) = true) by now apply mem_In.
    rewrite Hfk, Hm, Hfresh, policy_own. reflexivity. }
  destruct (atividade_create_flow u s4 Dashboard.initial (mkWorld d [] []) tr4
              (calm_no_faults 6 d []) eq_refl Hok) as (_ & Hn & _ & Hdb).
  pose proof (atividade_create_page u s4 Dashboard.initial (mkWorld d [] []) tr4
                (calm_no_faults 6 d []) eq_refl Hok) as Hpage.
  pose proof (atividade_create_stats u s4 Dashboard.initial (mkWorld d [] []) tr4
                (calm_no_faults 6 d []) eq_refl Hok) as Hst.
  unfold exec in Hn, Hdb, Hpage, Hst. cbn [db] in Hn, Hdb, Hpage, Hst.
  fold payload in Hn, Hdb, Hpage, Hst.
  destruct (insert_atividade_accepted _ _ _ Hok) as (_ & _ & Ha & Hturmas).
  set (d' := snd (Store.insert_atividade (uid u) payload d)) in *.
  set (row := Atividade.mk (Store.next_uuid d) (TurmaOption.id t) (User.id u) title None
                None (Some "pending") (Store.now d) (Store.now d)).
  change (Store.atividades d' = Store.atividades d ++ [row]) in Ha.
  assert (Hvis : Store.visible_atividade (uid u) (User.id u) row = true)
    by (unfold Store.visible_atividade; cbn [row Atividade.teacher_id];
        now rewrite policy_own, String.eqb_refl).
  assert (Hjoin : forall a, Store.joined_name (uid u) d' a = Store.joined_name (uid u) d a)
    by (intros a; unfold Store.joined_name; now rewrite Hturmas).
  assert (Hj : Store.joined_name (uid u) d' row = Some (TurmaOption.name t)).
  { rewrite Hjoin. unfold Store.joined_name. cbn [row Atividade.turma_id].
    destruct (find _ (Store.turmas d)) as [c'|] eqn:Ef.
    - apply find_some in Ef. destruct Ef as [Hc' Hm].
      apply andb_true_iff in Hm. destruct Hm as [Hm _]. apply String.eqb_eq in Hm.
      assert (c' = c) by (eapply key_determines_row; eauto using wf_key; congruence).
      subst c'. now rewrite Hname.
    - exfalso. apply (find_none _ _ Ef) in Hc.
      rewrite Hid, String.eqb_refl, Hown, policy_own in Hc. discriminate. }
  assert (Hlisted : In (row, Some (TurmaOption.name t))
                       (Store.select_atividades (uid u) (User.id u) d')).
  { rewrite <- Hj. unfold Store.select_atividades.
    apply (in_map (fun x => (x, Store.joined_name (uid u) d' x))).
    rewrite in_order_desc, filter_In, Ha. split; [ | exact Hvis ].
    apply in_or_app. right. now left. }
  assert (Hcards' : cards_render u d').
  { intros a Hin Hmine. rewrite Ha in Hin. apply in_app_or in Hin.
    destruct Hin as [Hin | [<- | []]].
    - rewrite Hjoin. now apply Hcards.
    - rewrite Hj. reflexivity. }
  rewrite Hpage.
  cbn [AtividadesManager.atividades AtividadesManager.isDialogOpen].
  split; [ | split; [exact Hlisted | split; [ | split; [reflexivity | split]]] ].
  - unfold AtividadesManager.body.
    cbn [AtividadesManager.loading AtividadesManager.turmas AtividadesManager.atividades].
    assert (Hopts : AtividadesManager.turma_options (uid u) (User.id u) d' = opts)
      by (unfold opts, AtividadesManager.turma_options, Store.select_turmas;
          now rewrite Hturmas).
    rewrite Hopts, Hne, (rows_render u d' Hcards').
    destruct (Store.select_atividades (uid u) (User.id u) d'); [now destruct Hlisted|].
    reflexivity.
  - rewrite Hdb, Ha. apply in_or_app. right. now left.
  - rewrite Hst. cbn [Dashboard.atividadesPendentes].
    unfold Store.count_pending. rewrite Ha, filter_app, length_app. cbn [filter].
    rewrite Hvis. cbn. lia.
  - rewrite Hn. unfold Store.count_atividades. rewrite Ha, filter_app, length_app.
    cbn [filter]. rewrite Hvis. cbn. lia.
Qed.

Lemma assignment_created_through_the_selector_witness :
  let sys' := exec (AtividadesManager.run (Dashboard.loadStats (Some ana)) (Some ana)
                      [AtividadesManager.UserEffect;
                       AtividadesManager.ClickNovaAtividade;
                       AtividadesManager.Input "title" "Lista 1";
                       AtividadesManager.SelectTurma 0;
                       AtividadesManager.Submit])
                   (start AtividadesManager.initial db_one_class []) in
  AtividadesManager.body (fst (comp sys')) = AtividadesManager.Grid
  /\ In (Atividade.mk (Store.next_uuid db_one_class) "id-" "ana" "Lista 1" None None
                      (Some "pending") 1 1, Some "5º Ano A")
        (AtividadesManager.atividades (fst (comp sys')))
  /\ In (Atividade.mk (Store.next_uuid db_one_class) "id-" "ana" "Lista 1" None None
                      (Some "pending") 1 1)
        (Store.atividades (db (world sys')))
  /\ AtividadesManager.isDialogOpen (fst (comp sys')) = false
  /\ Dashboard.atividadesPendentes (Dashboard.stats (snd (comp sys')))
     = S (Store.count_pending (uid ana) (User.id ana) db_one_class)
  /\ Dashboard.totalAtividades (Dashboard.stats (snd (comp sys')))
     = S (Store.count_atividades (uid ana) (User.id ana) db_one_class).
Proof.
  refine (assignment_created_through_the_selector ana db_one_class 0
            (TurmaOption.mk "id-" "5º Ano A") "Lista 1" _ _ (or_introl eq_refl) eq_refl
            eq_refl _).
  - constructor; cbn.
    + exact sample_uuid_injective.
    + intros r [<- | []]. exists 0. split; [lia | reflexivity].
    + repeat constructor. intros [].
  - intros a [].
  - discriminate.
Defined.
